(** * TeamLogic knowledge base: the knowledge graph and the embedding index

    A shallow embedding of [knowledge_graph.py] (entities, relationships,
    the mirrored networkx multigraph, relationship inference, neighbourhood
    queries) and of [vector_embedding.py] (text extraction, fitting,
    incremental insertion, similarity search), followed by the properties
    of the specification that were checked against them.

    Conventions.
    - Python [str] is modelled by [string] (byte strings; case folding and
      character classes are the ASCII ones).
    - A Python [dict] whose iteration order is observable is an association
      list in insertion order with unique keys; a Python [set] is a [gset].
    - Mutating methods are state transformers that may raise: the state
      returned with an exception is the state at the point of the [raise].
    - [datetime.now()] is an input: every operation that stamps a record
      receives the clock reading.
    - [float] scores (confidence, similarity, threshold) are rationals.
    - networkx, scikit-learn and NLTK are outside the repository: the graph
      container is modelled from its documented behaviour, the vectorizer
      and the tokenizer are interfaces. *)

From Stdlib Require Import ZArith QArith Lia Ascii.
From stdpp Require Import base list strings gmap sets sorting.

Close Scope Q_scope.
Set Warnings "-register-all,-clear-no-such-hyp".

(** ** Python strings *)

Module Py.

Definition ascii_lower (c : ascii) : ascii :=
  let n := nat_of_ascii c in
  if (65 <=? n)%nat && (n <=? 90)%nat then ascii_of_nat (n + 32) else c.

Definition ascii_isalpha (c : ascii) : bool :=
  let n := nat_of_ascii c in
  ((65 <=? n)%nat && (n <=? 90)%nat) || ((97 <=? n)%nat && (n <=? 122)%nat).

Definition ascii_isspace (c : ascii) : bool :=
  let n := nat_of_ascii c in
  ((9 <=? n)%nat && (n <=? 13)%nat) || ((28 <=? n)%nat && (n <=? 32)%nat).

(** [s.lower()] *)
Fixpoint lower (s : string) : string :=
  match s with
  | EmptyString => EmptyString
  | String c s' => String (ascii_lower c) (lower s')
  end.

Fixpoint all_alpha (s : string) : bool :=
  match s with
  | EmptyString => true
  | String c s' => ascii_isalpha c && all_alpha s'
  end.

(** [s.isalpha()]: false on the empty string *)
Definition isalpha (s : string) : bool :=
  match s with
  | EmptyString => false
  | _ => all_alpha s
  end.

Fixpoint startswith (p s : string) : bool :=
  match p, s with
  | EmptyString, _ => true
  | String a p', String b s' => if Ascii.eqb a b then startswith p' s' else false
  | String _ _, EmptyString => false
  end.

(** [needle in hay] on two strings *)
Fixpoint contains (needle hay : string) : bool :=
  startswith needle hay ||
  match hay with
  | EmptyString => false
  | String _ hay' => contains needle hay'
  end.

Fixpoint lstrip (s : string) : string :=
  match s with
  | EmptyString => EmptyString
  | String c s' => if ascii_isspace c then lstrip s' else s
  end.

Definition rstrip (s : string) : string :=
  String.rev (lstrip (String.rev s)).

(** [s.strip()] *)
Definition strip (s : string) : string := rstrip (lstrip s).

(** [s.split(sep)] for a one-character separator: the current field is
    accumulated in [cur]. *)
Fixpoint split_go (sep : ascii) (cur : string) (s : string) : list string :=
  match s with
  | EmptyString => [cur]
  | String c s' =>
      if Ascii.eqb c sep then cur :: split_go sep EmptyString s'
      else split_go sep (cur +:+ String c EmptyString) s'
  end.

Definition split (sep : ascii) (s : string) : list string :=
  split_go sep EmptyString s.

(** [s.split()]: fields separated by runs of whitespace, no empty field *)
Fixpoint split_ws_go (cur : string) (s : string) : list string :=
  match s with
  | EmptyString => if String.eqb cur "" then [] else [cur]
  | String c s' =>
      if ascii_isspace c
      then (if String.eqb cur "" then split_ws_go "" s'
            else cur :: split_ws_go "" s')
      else split_ws_go (cur +:+ String c EmptyString) s'
  end.

Definition split_ws (s : string) : list string := split_ws_go "" s.

(** [sep.join(parts)] *)
Fixpoint join (sep : string) (parts : list string) : string :=
  match parts with
  | [] => ""
  | [p] => p
  | p :: rest => p +:+ sep +:+ join sep rest
  end.

(** The characters of a string, as one-character strings (what iterating
    over a [str] yields). *)
Fixpoint chars (s : string) : list string :=
  match s with
  | EmptyString => []
  | String c s' => String c EmptyString :: chars s'
  end.

End Py.

(** ** Attribute values

    Attribute maps come from JSON: a value is a scalar, a list or a nested
    mapping. *)

Inductive value : Type :=
  | VNone
  | VBool (b : bool)
  | VNum (q : Q)
  | VStr (s : string)
  | VList (l : list value)
  | VDict (d : list (string * value)).

Abbreviation attrs := (list (string * value)).

(** Python truthiness, as used by [if x] and [x or y]. *)
Definition truthy (v : value) : bool :=
  match v with
  | VNone => false
  | VBool b => b
  | VNum q => negb (Qnum q =? 0)%Z
  | VStr s => negb (String.eqb s "")
  | VList l => match l with [] => false | _ => true end
  | VDict d => match d with [] => false | _ => true end
  end.

(** ** Ordered dictionaries *)

Section Dict.
Context {V : Type}.

(** [d.get(k)] *)
Fixpoint dict_get (k : string) (d : list (string * V)) : option V :=
  match d with
  | [] => None
  | (k', v) :: d' => if String.eqb k k' then Some v else dict_get k d'
  end.

(** [k in d] *)
Definition dict_mem (k : string) (d : list (string * V)) : bool :=
  match dict_get k d with Some _ => true | None => false end.

(** [d[k] = v]: an existing key keeps its position *)
Fixpoint dict_set (k : string) (v : V) (d : list (string * V)) : list (string * V) :=
  match d with
  | [] => [(k, v)]
  | (k', v') :: d' =>
      if String.eqb k k' then (k, v) :: d' else (k', v') :: dict_set k v d'
  end.

(** [del d[k]] (the callers test membership first) *)
Fixpoint dict_del (k : string) (d : list (string * V)) : list (string * V) :=
  match d with
  | [] => []
  | (k', v') :: d' =>
      if String.eqb k k' then d' else (k', v') :: dict_del k d'
  end.

(** [d.update(other)] *)
Definition dict_update (d other : list (string * V)) : list (string * V) :=
  fold_left (fun acc kv => dict_set kv.1 kv.2 acc) other d.

Definition dict_keys (d : list (string * V)) : list string := d.*1.
Definition dict_values (d : list (string * V)) : list V := d.*2.
End Dict.

(** ** Exceptions *)

Inductive exn : Type :=
  | KnowledgeGraphError (msg : string)
  | VectorEmbeddingError (msg : string)
  | NetworkXError
  | KeyError
  | IndexError
  | AttributeError
  | TypeError
  | NotFittedError
  | ValueError.

Definition is_KnowledgeGraphError (e : exn) : bool :=
  match e with KnowledgeGraphError _ => true | _ => false end.

(** Result of a computation that may raise. *)
Inductive result (A : Type) : Type :=
  | Ok (a : A)
  | Raise (e : exn).
Arguments Ok {A} a.
Arguments Raise {A} e.

#[global] Instance result_ret : MRet result := fun A a => Ok a.
#[global] Instance result_bind : MBind result := fun A B f m =>
  match m with Ok a => f a | Raise e => Raise e end.

(** A method of an object with state [S]: it returns or raises, and leaves
    the object in the state it had reached. *)
Definition M (S A : Type) : Type := S → result A * S.

#[global] Instance M_ret {S} : MRet (M S) := fun A a s => (Ok a, s).
#[global] Instance M_bind {S} : MBind (M S) := fun A B f m s =>
  match m s with
  | (Ok a, s') => f a s'
  | (Raise e, s') => (Raise e, s')
  end.

Definition raise {S A} (e : exn) : M S A := fun s => (Raise e, s).
Definition get {S} : M S S := fun s => (Ok s, s).
Definition modify {S} (f : S → S) : M S unit := fun s => (Ok tt, f s).
(** A computation that only reads the state. *)
Definition lift {S A} (r : S → result A) : M S A := fun s => (r s, s).

(** ** Entities and relationships ([class Entity], [class Relationship]) *)

Abbreviation timestamp := Z.

Module Entity.

Record t : Type := mk {
  id : string;
  type : string;
  attributes : attrs;
  created_at : timestamp;
  updated_at : timestamp
}.

(** [Entity.__init__] *)
Definition init (now : timestamp) (entity_id entity_type : string)
    (attributes : attrs) : t :=
  {| id := entity_id; type := entity_type; attributes := attributes;
     created_at := now; updated_at := now |}.

(** [Entity.update_attributes] *)
Definition update_attributes (now : timestamp) (new_attributes : attrs)
    (self : t) : t :=
  {| id := id self; type := type self;
     attributes := dict_update (attributes self) new_attributes;
     created_at := created_at self; updated_at := now |}.

End Entity.

Module Relationship.

Record t : Type := mk {
  source_id : string;
  target_id : string;
  type : string;
  attributes : attrs;
  confidence : Q;
  created_at : timestamp
}.

(** [Relationship.__init__]: [attributes or {}] *)
Definition init (now : timestamp) (source_id target_id relation_type : string)
    (attributes : option attrs) (confidence : Q) : t :=
  {| source_id := source_id; target_id := target_id; type := relation_type;
     attributes := default [] attributes; confidence := confidence;
     created_at := now |}.

End Relationship.

(** The dictionary handed to [add_entity] and to the embedder: each of the
    three keys may be missing. *)
Record EntityData : Type := {
  ed_id : option string;
  ed_type : option string;
  ed_attributes : option attrs
}.

(** [Entity.to_dict], restricted to the keys that are read back. *)
Definition to_dict (e : Entity.t) : EntityData :=
  {| ed_id := Some (Entity.id e); ed_type := Some (Entity.type e);
     ed_attributes := Some (Entity.attributes e) |}.

(** ** The graph container ([networkx.MultiDiGraph])

    Nodes carry the attribute dictionary given to [add_node] (here the
    entity whose [to_dict] it is; [None] for a node that [add_edge] had to
    create). Edges are kept in insertion order; each carries its key and
    the relationship whose [to_dict] is its attribute dictionary. *)

Module nx.

Record edge : Type := mk_edge {
  u : string;
  v : string;
  key : nat;
  data : Relationship.t
}.

Record MultiDiGraph : Type := mk {
  nodes : list (string * option Entity.t);
  edges : list edge
}.

Definition empty : MultiDiGraph := {| nodes := []; edges := [] |}.

Definition has_node (n : string) (g : MultiDiGraph) : bool :=
  dict_mem n (nodes g).

(** [G.add_node(n, **attr)]: a known node has its attributes updated *)
Definition add_node (n : string) (attr : Entity.t) (g : MultiDiGraph) : MultiDiGraph :=
  {| nodes := dict_set n (Some attr) (nodes g); edges := edges g |}.

(** [G.nodes[n].update(attr)] *)
Definition update_node (n : string) (attr : Entity.t) (g : MultiDiGraph)
    : result MultiDiGraph :=
  if has_node n g
  then Ok {| nodes := dict_set n (Some attr) (nodes g); edges := edges g |}
  else Raise KeyError.

Definition ensure_node (n : string) (ns : list (string * option Entity.t))
    : list (string * option Entity.t) :=
  if dict_mem n ns then ns else ns ++ [(n, None)].

(** The edges from [a] to [b], in insertion order: [G[a][b].values()]. *)
Definition edges_between (a b : string) (g : MultiDiGraph) : list edge :=
  filter (λ e, u e = a ∧ v e = b) (edges g).

(** [new_edge_key]: the number of parallel edges, moved up past the keys in
    use. *)
Fixpoint first_free (keys : list nat) (k : nat) (fuel : nat) : nat :=
  match fuel with
  | O => k
  | S fuel' => if bool_decide (k ∈ keys) then first_free keys (S k) fuel' else k
  end.

Definition new_edge_key (a b : string) (g : MultiDiGraph) : nat :=
  let keys := key <$> edges_between a b g in
  first_free keys (length keys) (S (length keys)).

(** [G.add_edge(a, b, **attr)]: missing endpoints become nodes *)
Definition add_edge (a b : string) (attr : Relationship.t) (g : MultiDiGraph)
    : MultiDiGraph :=
  {| nodes := ensure_node b (ensure_node a (nodes g));
     edges := edges g ++ [mk_edge a b (new_edge_key a b g) attr] |}.

(** [G.remove_node(n)]: the node goes with every edge that touches it *)
Definition remove_node (n : string) (g : MultiDiGraph) : result MultiDiGraph :=
  if has_node n g
  then Ok {| nodes := dict_del n (nodes g);
             edges := filter (λ e, u e ≠ n ∧ v e ≠ n) (edges g) |}
  else Raise NetworkXError.

(** Keys of an adjacency dictionary: first occurrences, in order. *)
Fixpoint uniq_go (seen : list string) (l : list string) : list string :=
  match l with
  | [] => []
  | x :: l' =>
      if bool_decide (x ∈ seen) then uniq_go seen l'
      else x :: uniq_go (x :: seen) l'
  end.

Definition uniq (l : list string) : list string := uniq_go [] l.

(** [G.successors(n)] *)
Definition successors (n : string) (g : MultiDiGraph) : result (list string) :=
  if has_node n g
  then Ok (uniq (v <$> filter (λ e, u e = n) (edges g)))
  else Raise NetworkXError.

(** [G.predecessors(n)] *)
Definition predecessors (n : string) (g : MultiDiGraph) : result (list string) :=
  if has_node n g
  then Ok (uniq (u <$> filter (λ e, v e = n) (edges g)))
  else Raise NetworkXError.

(** [G[a][b]] *)
Definition getitem2 (a b : string) (g : MultiDiGraph) : result (list edge) :=
  if has_node a g
  then match edges_between a b g with
       | [] => Raise KeyError
       | es => Ok es
       end
  else Raise KeyError.

End nx.

(** ** The knowledge graph ([class KnowledgeGraph]) *)

Record KnowledgeGraph : Type := {
  graph : nx.MultiDiGraph;
  entities : list (string * Entity.t);
  relationships : list Relationship.t
}.

Abbreviation KG := (M KnowledgeGraph).

(** [KnowledgeGraph.__init__] *)
Definition KnowledgeGraph_init : KnowledgeGraph :=
  {| graph := nx.empty; entities := []; relationships := [] |}.

Definition set_graph (f : nx.MultiDiGraph → nx.MultiDiGraph) : KG unit :=
  modify (λ self, {| graph := f (graph self); entities := entities self;
                     relationships := relationships self |}).

Definition set_entities (f : list (string * Entity.t) → list (string * Entity.t))
    : KG unit :=
  modify (λ self, {| graph := graph self; entities := f (entities self);
                     relationships := relationships self |}).

Definition set_relationships (f : list Relationship.t → list Relationship.t)
    : KG unit :=
  modify (λ self, {| graph := graph self; entities := entities self;
                     relationships := f (relationships self) |}).

(** A graph call that may raise: the graph is replaced only on return. *)
Definition try_graph (f : nx.MultiDiGraph → result nx.MultiDiGraph) : KG unit :=
  λ self,
    match f (graph self) with
    | Ok g => (Ok tt, {| graph := g; entities := entities self;
                         relationships := relationships self |})
    | Raise e => (Raise e, self)
    end.

(** [not entity_id] on the result of [entity_data.get('id')] *)
Definition missing_id (o : option string) : bool :=
  match o with
  | None => true
  | Some s => String.eqb s ""
  end.

Definition add_entity (now : timestamp) (entity_data : EntityData) : KG Entity.t :=
  let entity_id := ed_id entity_data in
  if missing_id entity_id
  then raise (KnowledgeGraphError "Entity must have an 'id' field")
  else
    let entity_id := default "" entity_id in
    let entity := Entity.init now entity_id
                    (default "unknown" (ed_type entity_data))
                    (default [] (ed_attributes entity_data)) in
    set_entities (dict_set entity_id entity) ;;
    set_graph (nx.add_node entity_id entity) ;;
    mret entity.

Definition update_entity (now : timestamp) (entity_id : string)
    (new_attributes : attrs) : KG unit :=
  self ← get;
  match dict_get entity_id (entities self) with
  | None => raise (KnowledgeGraphError ("Entity " +:+ entity_id +:+ " not found"))
  | Some entity =>
      let entity := Entity.update_attributes now new_attributes entity in
      set_entities (dict_set entity_id entity) ;;
      try_graph (nx.update_node entity_id entity)
  end.

Definition remove_entity (entity_id : string) : KG unit :=
  self ← get;
  if negb (dict_mem entity_id (entities self))
  then raise (KnowledgeGraphError ("Entity " +:+ entity_id +:+ " not found"))
  else
    set_entities (dict_del entity_id) ;;
    try_graph (nx.remove_node entity_id) ;;
    set_relationships
      (filter (λ rel, Relationship.source_id rel ≠ entity_id
                      ∧ Relationship.target_id rel ≠ entity_id)).

Definition add_relationship (now : timestamp) (source_id target_id : string)
    (relation_type : string) (attributes : option attrs) (confidence : Q)
    : KG Relationship.t :=
  self ← get;
  if negb (dict_mem source_id (entities self))
  then raise (KnowledgeGraphError ("Source entity " +:+ source_id +:+ " not found"))
  else if negb (dict_mem target_id (entities self))
  then raise (KnowledgeGraphError ("Target entity " +:+ target_id +:+ " not found"))
  else
    let relationship :=
      Relationship.init now source_id target_id relation_type attributes confidence in
    set_relationships (λ rels, rels ++ [relationship]) ;;
    set_graph (nx.add_edge source_id target_id relationship) ;;
    mret relationship.

(** [not relation_type or edge_data.get('type') == relation_type] *)
Definition type_matches (relation_type : option string) (e : nx.edge) : bool :=
  match relation_type with
  | None => true
  | Some t => String.eqb t "" || String.eqb (Relationship.type (nx.data e)) t
  end.

(** The body of the two loops of [find_relationships]: for each neighbour,
    the matching parallel edges, read back with [Relationship.from_dict]. *)
Fixpoint collect_edges (get_edges : string → result (list nx.edge))
    (relation_type : option string) (neighbours : list string)
    : result (list Relationship.t) :=
  match neighbours with
  | [] => mret []
  | n :: rest =>
      es ← get_edges n;
      more ← collect_edges get_edges relation_type rest;
      mret ((nx.data <$> filter (λ e, type_matches relation_type e = true) es) ++ more)
  end.

Definition find_relationships (entity_id : string) (relation_type : option string)
    (self : KnowledgeGraph) : result (list Relationship.t) :=
  if negb (dict_mem entity_id (entities self)) then mret []
  else
    targets ← nx.successors entity_id (graph self);
    outgoing ← collect_edges (λ target_id, nx.getitem2 entity_id target_id (graph self))
                 relation_type targets;
    sources ← nx.predecessors entity_id (graph self);
    incoming ← collect_edges (λ source_id, nx.getitem2 source_id entity_id (graph self))
                 relation_type sources;
    mret (outgoing ++ incoming).

(** *** Relationship inference *)

(** [attrs.get(key, '').lower()]: only a [str] has [lower] *)
Definition get_lower (key : string) (a : attrs) : result string :=
  match default (VStr "") (dict_get key a) with
  | VStr s => Ok (Py.lower s)
  | _ => Raise AttributeError
  end.

Definition _check_employment_relationship (person organization : Entity.t)
    : result bool :=
  let person_attrs := Entity.attributes person in
  let org_attrs := Entity.attributes organization in
  org_name ← get_lower "name" org_attrs;
  person_company ← get_lower "department" person_attrs;
  mret (if negb (String.eqb org_name "") && negb (String.eqb person_company "")
        then Py.contains org_name person_company
        else false).

Definition _check_colleague_relationship (person1 person2 : Entity.t)
    : result bool :=
  dept1 ← get_lower "department" (Entity.attributes person1);
  dept2 ← get_lower "department" (Entity.attributes person2);
  mret (String.eqb dept1 dept2 && negb (String.eqb dept1 "")).

Definition _check_project_involvement (entity1 entity2 : Entity.t) : result bool :=
  if String.eqb (Entity.type entity1) "person"
     && String.eqb (Entity.type entity2) "project"
  then
    assignee ← get_lower "assignee" (Entity.attributes entity2);
    person_name ← get_lower "name" (Entity.attributes entity1);
    mret (Py.contains person_name assignee)
  else mret false.

(** What [for email in emails] iterates over. *)
Definition iterate (emails : value) : result (list value) :=
  match emails with
  | VList l => Ok l
  | VStr s => Ok (VStr <$> Py.chars s)
  | VDict d => Ok (VStr <$> dict_keys d)
  | VNone | VBool _ | VNum _ => Raise TypeError
  end.

Definition is_at (x : value) : bool :=
  match x with
  | VStr s => String.eqb s "@"
  | _ => false
  end.

(** ['@' in email] *)
Definition has_at (email : value) : result bool :=
  match email with
  | VStr s => Ok (Py.contains "@" s)
  | VList l => Ok (existsb is_at l)
  | VDict d => Ok (dict_mem "@" d)
  | VNone | VBool _ | VNum _ => Raise TypeError
  end.

(** [email.split('@')[1]] *)
Definition domain_of (email : value) : result string :=
  match email with
  | VStr s =>
      match Py.split "@" s !! 1%nat with
      | Some d => Ok d
      | None => Raise IndexError
      end
  | _ => Raise AttributeError
  end.

(** [set(email.split('@')[1] for email in emails if '@' in email)] *)
Fixpoint domains_go (emails : list value) : result (list string) :=
  match emails with
  | [] => mret []
  | email :: rest =>
      b ← has_at email;
      if b : bool
      then d ← domain_of email; ds ← domains_go rest; mret (d :: ds)
      else domains_go rest
  end.

Definition domains (emails : value) : result (gset string) :=
  items ← iterate emails;
  ds ← domains_go items;
  mret (list_to_set ds).

Definition _detect_relationship_between (entity1 entity2 : Entity.t)
    : result (list (string * Q)) :=
  let relationships := [] in
  let relationships :=
    if String.eqb (Entity.type entity1) (Entity.type entity2)
    then relationships ++ [("similar_to", 0.3%Q)] else relationships in
  relationships ←
    (if String.eqb (Entity.type entity1) "person"
        && String.eqb (Entity.type entity2) "organization"
     then b ← _check_employment_relationship entity1 entity2;
          mret (if b : bool then relationships ++ [("works_for", 0.8%Q)]
                else relationships)
     else mret relationships);
  relationships ←
    (if String.eqb (Entity.type entity1) "person"
        && String.eqb (Entity.type entity2) "person"
     then b ← _check_colleague_relationship entity1 entity2;
          mret (if b : bool then relationships ++ [("colleague_of", 0.7%Q)]
                else relationships)
     else mret relationships);
  relationships ←
    (if String.eqb "project" (Entity.type entity1)
        || String.eqb "project" (Entity.type entity2)
     then b ← _check_project_involvement entity1 entity2;
          mret (if b : bool then relationships ++ [("involved_in", 0.6%Q)]
                else relationships)
     else mret relationships);
  let emails1 := default (VList []) (dict_get "emails" (Entity.attributes entity1)) in
  let emails2 := default (VList []) (dict_get "emails" (Entity.attributes entity2)) in
  if truthy emails1 && truthy emails2
  then
    domains1 ← domains emails1;
    domains2 ← domains emails2;
    mret (if bool_decide (domains1 ∩ domains2 ≠ ∅)
          then relationships ++ [("same_domain", 0.5%Q)]
          else relationships)
  else mret relationships.

(** [try: body except handled: handler] *)
Definition try_except {S A} (body : M S A) (handled : exn → bool)
    (handler : M S A) : M S A :=
  λ s,
    match body s with
    | (Raise e, s') => if handled e then handler s' else (Raise e, s')
    | r => r
    end.

(** The innermost loop of [auto_detect_relationships]: one
    [add_relationship] per proposal. [clock k] is the clock reading taken
    for the relationship added when [k] had been counted. *)
Fixpoint add_proposals (clock : nat → timestamp) (entity1 entity2 : Entity.t)
    (proposals : list (string * Q)) (detected_count : nat) : KG nat :=
  match proposals with
  | [] => mret detected_count
  | (rel_type, confidence) :: rest =>
      detected_count ←
        try_except
          (add_relationship (clock detected_count) (Entity.id entity1)
             (Entity.id entity2) rel_type None confidence ;;
           mret (S detected_count))
          is_KnowledgeGraphError
          (mret detected_count);
      add_proposals clock entity1 entity2 rest detected_count
  end.

(** [for entity2 in entities_list[i+1:]] *)
Fixpoint detect_against (clock : nat → timestamp) (entity1 : Entity.t)
    (later : list Entity.t) (detected_count : nat) : KG nat :=
  match later with
  | [] => mret detected_count
  | entity2 :: rest =>
      proposals ← lift (λ _, _detect_relationship_between entity1 entity2);
      detected_count ← add_proposals clock entity1 entity2 proposals detected_count;
      detect_against clock entity1 rest detected_count
  end.

(** [for i, entity1 in enumerate(entities_list)] *)
Fixpoint detect_all (clock : nat → timestamp) (entities_list : list Entity.t)
    (detected_count : nat) : KG nat :=
  match entities_list with
  | [] => mret detected_count
  | entity1 :: later =>
      detected_count ← detect_against clock entity1 later detected_count;
      detect_all clock later detected_count
  end.

Definition auto_detect_relationships (clock : nat → timestamp) : KG nat :=
  self ← get;
  let entities_list := dict_values (entities self) in
  detect_all clock entities_list 0.

(** *** Neighbourhood queries *)

(** [set(G.successors(node)) | set(G.predecessors(node))] *)
Definition neighbors (node : string) (g : nx.MultiDiGraph) : result (gset string) :=
  succ ← nx.successors node g;
  pred ← nx.predecessors node g;
  mret (list_to_set succ ∪ list_to_set pred).

(** [for node in current_level: next_level.update(neighbors)] *)
Fixpoint expand (g : nx.MultiDiGraph) (level : list string) (next_level : gset string)
    : result (gset string) :=
  match level with
  | [] => mret next_level
  | node :: rest =>
      ns ← neighbors node g;
      expand g rest (next_level ∪ ns)
  end.

(** [for depth in range(max_depth)], with its [break] *)
Fixpoint connected_loop (g : nx.MultiDiGraph) (remaining : nat)
    (connected current_level : gset string) : result (gset string) :=
  match remaining with
  | O => mret connected
  | S remaining' =>
      next_level ← expand g (elements current_level) ∅;
      let connected := connected ∪ next_level in
      let current_level := next_level ∖ connected in
      if bool_decide (current_level = ∅) then mret connected
      else connected_loop g remaining' connected current_level
  end.

Definition get_connected_entities (entity_id : string) (max_depth : Z)
    (self : KnowledgeGraph) : result (gset string) :=
  if negb (dict_mem entity_id (entities self)) then mret ∅
  else connected_loop (graph self) (Z.to_nat max_depth) ∅ {[entity_id]}.

(** The set the specification describes: what a breadth-first expansion,
    over successors and predecessors, reaches within [depth] hops of
    [entity_id], the origin left out. *)
Definition hop (g : nx.MultiDiGraph) (s : gset string) : gset string :=
  s ∪ list_to_set (nx.v <$> filter (λ e, nx.u e ∈ s) (nx.edges g))
    ∪ list_to_set (nx.u <$> filter (λ e, nx.v e ∈ s) (nx.edges g)).

Fixpoint within_hops (g : nx.MultiDiGraph) (depth : nat) (s : gset string)
    : gset string :=
  match depth with
  | O => s
  | S d => within_hops g d (hop g s)
  end.

Definition spec_connected (entity_id : string) (max_depth : Z)
    (self : KnowledgeGraph) : gset string :=
  within_hops (graph self) (Z.to_nat max_depth) {[entity_id]} ∖ {[entity_id]}.

(** ** Text extraction ([class TextPreprocessor]) *)

(** What the code uses of NLTK. [word_tokenize] and the stop-word corpus
    raise [LookupError] when their data is not installed ([None]). *)
Class Nltk : Type := {
  word_tokenize : string → option (list string);
  stopwords_english : option (list string);
  porter_stem : string → string
}.

(** What the code uses of scikit-learn and numpy: the vectors, the state of
    a fitted [TfidfVectorizer], fitting a corpus (which may raise
    [ValueError]), projecting one document on a fitted vocabulary, and the
    cosine of two vectors (which raises on vectors of different lengths). *)
Class Sklearn : Type := {
  ndarray : Type;
  fitted : Type;
  tfidf_fit_transform : Z → list string → result (fitted * list ndarray);
  tfidf_transform : fitted → string → ndarray;
  cosine_similarity : ndarray → ndarray → result Q
}.

Section Embedding.
Context {nltk : Nltk} {sklearn : Sklearn}.

(** [TextPreprocessor.__init__]: the stop words, with the built-in fallback *)
Definition stop_words : list string :=
  match stopwords_english with
  | Some ws => ws
  | None => ["the"; "a"; "an"; "and"; "or"; "but"; "in"; "on"; "at"; "to";
             "for"; "of"; "with"; "by"]
  end.

Definition preprocess_text (text : string) : string :=
  let text := Py.lower text in
  let tokens :=
    match word_tokenize text with
    | Some tokens => tokens
    | None => Py.split_ws text
    end in
  let processed_tokens :=
    porter_stem <$>
      filter (λ token, Py.isalpha token = true ∧ token ∉ stop_words) tokens in
  Py.join " " processed_tokens.

(** The three branches applied to an attribute value, at the top level and
    in nested dictionaries alike. *)
Fixpoint value_text (x : value) : list string :=
  match x with
  | VStr s => [s]
  | VList l =>
      omap (λ item, match item with VStr s => Some s | _ => None end) l
  | VDict d =>
      (fix items (d : list (string * value)) : list string :=
         match d with
         | [] => []
         | (_, x') :: d' => value_text x' ++ items d'
         end) d
  | VNone | VBool _ | VNum _ => []
  end.

Definition _extract_text_from_dict (data : attrs) : list string :=
  value_text (VDict data).

Definition extract_text_from_entity (entity_data : EntityData) : string :=
  let text_parts :=
    [default "" (ed_id entity_data); default "" (ed_type entity_data)] in
  let attributes := default [] (ed_attributes entity_data) in
  let text_parts := text_parts ++ _extract_text_from_dict attributes in
  let combined_text := Py.join " " text_parts in
  preprocess_text combined_text.

(** ** The embedding index ([class VectorEmbedder]) *)

(** A [TfidfVectorizer] object: as constructed, or after a fit. *)
Inductive TfidfVectorizer : Type :=
  | Unfitted
  | Fitted (model : fitted).

Record VectorEmbedder : Type := {
  embedding_method : string;
  max_features : Z;
  vectorizer : option TfidfVectorizer;
  embeddings : list (string * ndarray);
  entity_texts : list (string * string)
}.

Abbreviation VE := (M VectorEmbedder).

Definition set_vectorizer (x : option TfidfVectorizer) : VE unit :=
  modify (λ self, {| embedding_method := embedding_method self;
                     max_features := max_features self;
                     vectorizer := x;
                     embeddings := embeddings self;
                     entity_texts := entity_texts self |}).

Definition set_embedding (entity_id : string) (x : ndarray) : VE unit :=
  modify (λ self, {| embedding_method := embedding_method self;
                     max_features := max_features self;
                     vectorizer := vectorizer self;
                     embeddings := dict_set entity_id x (embeddings self);
                     entity_texts := entity_texts self |}).

Definition set_entity_text (entity_id : string) (text : string) : VE unit :=
  modify (λ self, {| embedding_method := embedding_method self;
                     max_features := max_features self;
                     vectorizer := vectorizer self;
                     embeddings := embeddings self;
                     entity_texts := dict_set entity_id text (entity_texts self) |}).

Definition _initialize_vectorizer : VE unit :=
  self ← get;
  if String.eqb (embedding_method self) "tfidf"
  then set_vectorizer (Some Unfitted)
  else raise (VectorEmbeddingError
                ("Unsupported embedding method: " +:+ embedding_method self)).

(** [VectorEmbedder.__init__]: the fields, then [_initialize_vectorizer] *)
Definition VectorEmbedder_init (embedding_method : string) (max_features : Z)
    : result VectorEmbedder * VectorEmbedder :=
  let self := {| embedding_method := embedding_method;
                 max_features := max_features;
                 vectorizer := None;
                 embeddings := [];
                 entity_texts := [] |} in
  (_initialize_vectorizer ;; get) self.

(** The first loop of [fit_embeddings]: the texts and ids kept so far are
    threaded through. *)
Fixpoint collect_texts (entities : list EntityData)
    (entity_texts : list string) (entity_ids : list string)
    : VE (list string * list string) :=
  match entities with
  | [] => mret (entity_texts, entity_ids)
  | entity :: rest =>
      let entity_id := ed_id entity in
      if missing_id entity_id then collect_texts rest entity_texts entity_ids
      else
        let entity_id := default "" entity_id in
        let text := extract_text_from_entity entity in
        if negb (String.eqb (Py.strip text) "")
        then
          set_entity_text entity_id text ;;
          collect_texts rest (entity_texts ++ [text]) (entity_ids ++ [entity_id])
        else collect_texts rest entity_texts entity_ids
  end.

(** [for i, entity_id in enumerate(entity_ids): embeddings[entity_id] = vectors[i]] *)
Fixpoint store_vectors (vectors : list ndarray) (i : nat) (entity_ids : list string)
    : VE unit :=
  match entity_ids with
  | [] => mret tt
  | entity_id :: rest =>
      match vectors !! i with
      | Some x => set_embedding entity_id x ;; store_vectors vectors (S i) rest
      | None => raise IndexError
      end
  end.

(** [self.vectorizer.fit_transform(texts)]: the vectorizer is fitted in
    place *)
Definition vectorizer_fit_transform (texts : list string) : VE (list ndarray) :=
  self ← get;
  match vectorizer self with
  | None => raise AttributeError
  | Some _ =>
      match tfidf_fit_transform (max_features self) texts with
      | Ok (model, vectors) => set_vectorizer (Some (Fitted model)) ;; mret vectors
      | Raise e => raise e
      end
  end.

Definition fit_embeddings (entities : list EntityData) : VE unit :=
  match entities with
  | [] => raise (VectorEmbeddingError "No entities provided for fitting")
  | _ =>
      '(entity_texts, entity_ids) ← collect_texts entities [] [];
      match entity_texts with
      | [] => raise (VectorEmbeddingError "No valid text found in entities")
      | _ =>
          self ← get;
          if String.eqb (embedding_method self) "tfidf"
          then
            vectors ← vectorizer_fit_transform entity_texts;
            store_vectors vectors 0 entity_ids
          else mret tt
      end
  end.

(** [self.vectorizer.transform([text])] followed by [toarray().flatten()] *)
Definition vectorizer_transform (text : string) (self : VectorEmbedder)
    : result ndarray :=
  match vectorizer self with
  | None => Raise AttributeError
  | Some Unfitted => Raise NotFittedError
  | Some (Fitted model) => Ok (tfidf_transform model text)
  end.

Definition add_entity_embedding (entity : EntityData) : VE (option ndarray) :=
  let entity_id := ed_id entity in
  if missing_id entity_id then mret None
  else
    let entity_id := default "" entity_id in
    let text := extract_text_from_entity entity in
    if String.eqb (Py.strip text) "" then mret None
    else
      self ← get;
      match vectorizer self with
      | None =>
          fit_embeddings [entity] ;;
          self ← get;
          mret (dict_get entity_id (embeddings self))
      | Some _ =>
          try_except
            (embedding ← lift (vectorizer_transform text);
             set_embedding entity_id embedding ;;
             set_entity_text entity_id text ;;
             mret (Some embedding))
            (λ _, true)
            (mret None)
      end.

(** The scan of [semantic_search]: every stored vector against the query. *)
Fixpoint scan (query_vector : ndarray) (threshold : Q)
    (items : list (string * ndarray)) : result (list (string * Q)) :=
  match items with
  | [] => mret []
  | (entity_id, embedding) :: rest =>
      similarity ← cosine_similarity query_vector embedding;
      more ← scan query_vector threshold rest;
      mret (if Qle_bool threshold similarity
            then (entity_id, similarity) :: more else more)
  end.

(** [list.sort(key=lambda x: x[1], reverse=True)]: descending and stable *)
Fixpoint insert_desc (x : string * Q) (l : list (string * Q)) : list (string * Q) :=
  match l with
  | [] => [x]
  | y :: l' =>
      if Qle_bool x.2 y.2 && negb (Qle_bool y.2 x.2)
      then y :: insert_desc x l'
      else x :: l
  end.

Definition sort_desc (l : list (string * Q)) : list (string * Q) :=
  foldr insert_desc [] l.

(** [l[:k]] *)
Definition slice_to {A} (k : Z) (l : list A) : list A :=
  if (0 <=? k)%Z then take (Z.to_nat k) l
  else take (Z.to_nat (Z.of_nat (length l) + k)) l.

Definition semantic_search (query : string) (top_k : Z) (threshold : Q)
    (self : VectorEmbedder) : list (string * Q) :=
  match embeddings self with
  | [] => []
  | _ =>
      let processed_query := preprocess_text query in
      if String.eqb (Py.strip processed_query) "" then []
      else
        match
          query_vector ← vectorizer_transform processed_query self;
          similarities ← scan query_vector threshold (embeddings self);
          mret (slice_to top_k (sort_desc similarities))
        with
        | Ok r => r
        | Raise _ => []
        end
  end.

End Embedding.

(** ** Well-formed and reachable graph states *)

(** The keys of a dictionary after [d[k] = v] and after [del d[k]]. *)
Definition keys_set (k : string) (ks : list string) : list string :=
  if bool_decide (k ∈ ks) then ks else ks ++ [k].

Fixpoint keys_del (k : string) (ks : list string) : list string :=
  match ks with
  | [] => []
  | k' :: ks' => if String.eqb k k' then ks' else k' :: keys_del k ks'
  end.

Definition endpoints_present (self : KnowledgeGraph) (rel : Relationship.t) : Prop :=
  dict_mem (Relationship.source_id rel) (entities self) = true
  ∧ dict_mem (Relationship.target_id rel) (entities self) = true.

Definition edge_mirrors (e : nx.edge) : Prop :=
  nx.u e = Relationship.source_id (nx.data e)
  ∧ nx.v e = Relationship.target_id (nx.data e).

(** The three views of a graph state agree: the entity map (keyed by the
    entities' own ids, each once), the nodes of the graph, and the edges of
    the graph against the relationship list. *)
Record wf (self : KnowledgeGraph) : Prop := {
  wf_nodup : NoDup (dict_keys (entities self));
  wf_ids : Forall (λ ke, Entity.id ke.2 = ke.1) (entities self);
  wf_nodes : dict_keys (nx.nodes (graph self)) = dict_keys (entities self);
  wf_edges : nx.data <$> nx.edges (graph self) = relationships self;
  wf_ends : Forall edge_mirrors (nx.edges (graph self));
  wf_refs : Forall (endpoints_present self) (relationships self)
}.

(** One call of a mutating method, whether it returns or raises. *)
Inductive step : KnowledgeGraph → KnowledgeGraph → Prop :=
  | step_add_entity now entity_data self :
      step self (add_entity now entity_data self).2
  | step_update_entity now entity_id new_attributes self :
      step self (update_entity now entity_id new_attributes self).2
  | step_add_relationship now source_id target_id relation_type attributes
      confidence self :
      step self (add_relationship now source_id target_id relation_type
                   attributes confidence self).2
  | step_remove_entity entity_id self :
      step self (remove_entity entity_id self).2.

Inductive reachable : KnowledgeGraph → Prop :=
  | reachable_init : reachable KnowledgeGraph_init
  | reachable_step self self' :
      reachable self → step self self' → reachable self'.

(** Every entity of a list is stored under its id. *)
Definition all_present (l : list Entity.t) (self : KnowledgeGraph) : Prop :=
  ∀ e, e ∈ l → dict_mem (Entity.id e) (entities self) = true.

Section EmbeddingSpec.
Context {nltk : Nltk} {sklearn : Sklearn}.

(** The entities a fit keeps, as (id, text): those with an id and a
    non-blank normalized text, in order. *)
Definition kept_entities (entities : list EntityData) : list (string * string) :=
  omap (λ entity,
          if missing_id (ed_id entity) then None
          else
            let text := extract_text_from_entity entity in
            if negb (String.eqb (Py.strip text) "")
            then Some (default "" (ed_id entity), text) else None)
       entities.


(** The stored entities whose similarity to the query vector is at least
    the threshold, with that similarity, in storage order. *)
Definition at_least (query_vector : ndarray) (threshold : Q)
    (items : list (string * ndarray)) : list (string * Q) :=
  omap (λ item,
          match cosine_similarity query_vector item.2 with
          | Ok similarity =>
              if Qle_bool threshold similarity
              then Some (item.1, similarity) else None
          | Raise _ => None
          end)
       items.

(** Descending by similarity. *)
Definition ranked (l : list (string * Q)) : Prop :=
  StronglySorted (λ a b, (b.2 <= a.2)%Q) l.

End EmbeddingSpec.

(** ** The rest of the knowledge graph *)

(** The three tests [search_entities] makes on one attribute value. *)
Definition item_matches (query_lower : string) (item : value) : bool :=
  match item with
  | VStr s => Py.contains query_lower (Py.lower s)
  | _ => false
  end.

(** [for key, value in entity.attributes.items()]: what the loop appends to
    [results]. A matching string ends the loop ([break]); a list with a
    matching item appends the entity and the loop goes on with the next
    attribute (its [break] leaves the loop over the items only). *)
Fixpoint search_attributes (query_lower : string) (entity : Entity.t)
    (items : attrs) : list Entity.t :=
  match items with
  | [] => []
  | (_, x) :: rest =>
      match x with
      | VStr s =>
          if Py.contains query_lower (Py.lower s) then [entity]
          else search_attributes query_lower entity rest
      | VList l =>
          (if existsb (item_matches query_lower) l then [entity] else [])
          ++ search_attributes query_lower entity rest
      | _ => search_attributes query_lower entity rest
      end
  end.

(** [entity_type and entity.type != entity_type] *)
Definition other_type (entity_type : option string) (entity : Entity.t) : bool :=
  match entity_type with
  | None => false
  | Some t => negb (String.eqb t "") && negb (String.eqb (Entity.type entity) t)
  end.

(** One round of the loop over the entities. *)
Definition search_entity (query_lower : string) (entity_type : option string)
    (entity : Entity.t) : list Entity.t :=
  if other_type entity_type entity then []
  else if Py.contains query_lower (Py.lower (Entity.id entity)) then [entity]
  else search_attributes query_lower entity (Entity.attributes entity).

Definition search_entities (query : string) (entity_type : option string)
    (self : KnowledgeGraph) : list Entity.t :=
  let query_lower := Py.lower query in
  flat_map (search_entity query_lower entity_type) (dict_values (entities self)).

(** *** Statistics *)

(** [counts[t] = counts.get(t, 0) + 1], for each type in turn *)
Definition count_types (types : list string) : list (string * nat) :=
  fold_left (λ counts t, dict_set t (default 0 (dict_get t counts) + 1) counts)
    types [].

(** [nx.density(G)] on a directed graph *)
Definition nx_density (g : nx.MultiDiGraph) : Q :=
  let n := length (nx.nodes g) in
  let m := length (nx.edges g) in
  if (m =? 0) || (n <=? 1) then 0%Q
  else (inject_Z (Z.of_nat m) / inject_Z (Z.of_nat (n * (n - 1))))%Q.

(** The weakly connected component of a node: what a breadth-first search
    over successors and predecessors reaches. *)
Definition nx_component (g : nx.MultiDiGraph) (node : string) : gset string :=
  within_hops g (length (nx.nodes g)) {[node]}.

(** [for v in G: if v not in seen: ...; seen.update(c); yield c], counted *)
Fixpoint count_components (g : nx.MultiDiGraph) (vs : list string)
    (seen : gset string) : nat :=
  match vs with
  | [] => 0
  | node :: rest =>
      if bool_decide (node ∈ seen) then count_components g rest seen
      else S (count_components g rest (seen ∪ nx_component g node))
  end.

(** [nx.number_weakly_connected_components(G)] *)
Definition nx_number_weakly_connected_components (g : nx.MultiDiGraph) : nat :=
  count_components g (dict_keys (nx.nodes g)) ∅.

Record GraphStats : Type := {
  total_entities : nat;
  total_relationships : nat;
  entity_types : list (string * nat);
  relationship_types : list (string * nat);
  graph_density : Q;
  connected_components : nat
}.

Definition get_graph_stats (self : KnowledgeGraph) : GraphStats :=
  {| total_entities := length (entities self);
     total_relationships := length (relationships self);
     entity_types := count_types (Entity.type <$> dict_values (entities self));
     relationship_types := count_types (Relationship.type <$> relationships self);
     graph_density := nx_density (graph self);
     connected_components := nx_number_weakly_connected_components (graph self) |}.

(** *** Snapshots

    A dictionary made by [to_dict] is represented by the record it was made
    from, an ISO time stamp by the time it denotes: [from_dict] reads the
    record back. The two lists of a snapshot may be missing. *)

Record Snapshot : Type := {
  snap_entities : option (list Entity.t);
  snap_relationships : option (list Relationship.t);
  snap_metadata : option (timestamp * GraphStats)
}.

Definition export_to_dict (now : timestamp) (self : KnowledgeGraph) : Snapshot :=
  {| snap_entities := Some (dict_values (entities self));
     snap_relationships := Some (relationships self);
     snap_metadata := Some (now, get_graph_stats self) |}.

(** The first loop of [import_from_dict]. *)
Fixpoint import_entities (l : list Entity.t) : KG unit :=
  match l with
  | [] => mret tt
  | entity :: rest =>
      set_entities (dict_set (Entity.id entity) entity) ;;
      set_graph (nx.add_node (Entity.id entity) entity) ;;
      import_entities rest
  end.

(** The second loop: a relationship with a missing endpoint is listed, but
    the graph gets no edge for it. *)
Fixpoint import_relationships (l : list Relationship.t) : KG unit :=
  match l with
  | [] => mret tt
  | rel :: rest =>
      set_relationships (λ rels, rels ++ [rel]) ;;
      self ← get;
      (if dict_mem (Relationship.source_id rel) (entities self)
          && dict_mem (Relationship.target_id rel) (entities self)
       then set_graph (nx.add_edge (Relationship.source_id rel)
                         (Relationship.target_id rel) rel)
       else mret tt) ;;
      import_relationships rest
  end.

Definition import_from_dict (data : Snapshot) : KG unit :=
  modify (λ _, KnowledgeGraph_init) ;;
  import_entities (default [] (snap_entities data)) ;;
  import_relationships (default [] (snap_relationships data)).

(** A relationship has its two endpoints among the keys of a dictionary. *)
Definition linked (ents : list (string * Entity.t)) (rel : Relationship.t) : Prop :=
  dict_mem (Relationship.source_id rel) ents = true
  ∧ dict_mem (Relationship.target_id rel) ents = true.

#[global] Instance linked_dec ents rel : Decision (linked ents rel).
Proof. unfold linked. apply _. Defined.

(** A relationship touches an entity, and passes the type filter. *)
Definition touches (entity_id : string) (rel : Relationship.t) : Prop :=
  Relationship.source_id rel = entity_id ∨ Relationship.target_id rel = entity_id.

Definition of_type (relation_type : option string) (rel : Relationship.t) : Prop :=
  match relation_type with
  | None => True
  | Some t => t = "" ∨ Relationship.type rel = t
  end.

(** ** The rest of the embedding index *)

Module SearchResult.
(** One dictionary of the list [SemanticSearchEngine.search] returns. *)
Record t : Type := mk {
  entity_id : string;
  similarity_score : Q;
  query : string;
  entity_text : string
}.
End SearchResult.


Section EmbeddingMore.
Context {nltk : Nltk} {sklearn : Sklearn}.

Abbreviation VE := (M VectorEmbedder).

Definition remove_entity_embedding (entity_id : string) : VE unit :=
  modify (λ self,
    {| embedding_method := embedding_method self;
       max_features := max_features self;
       vectorizer := vectorizer self;
       embeddings :=
         if dict_mem entity_id (embeddings self)
         then dict_del entity_id (embeddings self) else embeddings self;
       entity_texts :=
         if dict_mem entity_id (entity_texts self)
         then dict_del entity_id (entity_texts self) else entity_texts self |}).

(** No [try] here: an exception of [cosine_similarity] reaches the caller. *)
Definition find_similar_entities (entity_id : string) (top_k : Z) (threshold : Q)
    (self : VectorEmbedder) : result (list (string * Q)) :=
  match dict_get entity_id (embeddings self) with
  | None => mret []
  | Some target_embedding =>
      similarities ←
        scan target_embedding threshold
          (filter (λ item, item.1 ≠ entity_id) (embeddings self));
      mret (slice_to top_k (sort_desc similarities))
  end.

(** [SemanticSearchEngine.search]; the engine holds the embedder. *)
Definition search (query : string) (entity_type : option string) (top_k : Z)
    (threshold : Q) (embedder : VectorEmbedder) : list SearchResult.t :=
  let results := semantic_search query (top_k * 2) threshold embedder in
  let results :=
    match entity_type with
    | Some t =>
        if String.eqb t "" then slice_to top_k results
        else slice_to top_k
               (filter (λ r, Py.contains t (Py.lower r.1) = true) results)
    | None => slice_to top_k results
    end in
  (λ r, {| SearchResult.entity_id := r.1;
           SearchResult.similarity_score := r.2;
           SearchResult.query := query;
           SearchResult.entity_text :=
             default "" (dict_get r.1 (entity_texts embedder)) |}) <$> results.



End EmbeddingMore.

#[global] Instance of_type_dec relation_type rel : Decision (of_type relation_type rel).
Proof. destruct relation_type; simpl; apply _. Defined.

(** An attribute value that makes [search_entities] keep the entity: a
    string that contains the query, or a list with such a string among its
    items (case folded). *)
Definition attribute_matches (query_lower : string) (x : value) : bool :=
  match x with
  | VStr s => Py.contains query_lower (Py.lower s)
  | VList l => existsb (item_matches query_lower) l
  | _ => false
  end.

(** A later state of a graph in which nothing was taken away: the entity
    map is the same, the relationship list has only been appended to, and
    well-formedness is kept. *)
Definition extends (self self' : KnowledgeGraph) : Prop :=
  (wf self → wf self')
  ∧ entities self' = entities self
  ∧ relationships self `prefix_of` relationships self'.

(** A relationship that carries a proposal of the comparison of two
    entities: from the first to the second, with the proposed type and
    confidence. *)
Definition proposed (entity1 entity2 : Entity.t) (proposal : string * Q)
    (rel : Relationship.t) : Prop :=
  Relationship.source_id rel = Entity.id entity1
  ∧ Relationship.target_id rel = Entity.id entity2
  ∧ Relationship.type rel = proposal.1
  ∧ Relationship.confidence rel = proposal.2.

(** An ASCII capital in a string. *)
Definition ascii_isupper (c : ascii) : bool :=
  let n := nat_of_ascii c in (65 <=? n)%nat && (n <=? 90)%nat.

Fixpoint has_upper (s : string) : bool :=
  match s with
  | EmptyString => false
  | String c s' => ascii_isupper c || has_upper s'
  end.

(** *** Snapshots as they are read

    [import_from_dict] is also given what [json.load] found in a file.
    There a key may be missing and a time stamp is a string that
    [datetime.fromisoformat] may reject; a value that is present has the
    type the annotations give it. *)

(** [datetime.fromisoformat], from the standard library: [None] stands for
    the [ValueError] it raises on a string that is not in ISO format. *)
Class Datetime : Type := {
  fromisoformat : string → option timestamp
}.

(** [data[key]] on a dictionary whose key may be missing *)
Definition getitem {A} (item : option A) : result A :=
  match item with
  | Some x => Ok x
  | None => Raise KeyError
  end.

Definition datetime_fromisoformat {datetime : Datetime} (date_string : string)
    : result timestamp :=
  match fromisoformat date_string with
  | Some t => Ok t
  | None => Raise ValueError
  end.

(** The dictionary [Entity.from_dict] is given. *)
Module EntityDict.
Record t : Type := mk {
  id : option string;
  type : option string;
  attributes : option attrs;
  created_at : option string;
  updated_at : option string
}.
End EntityDict.

(** The dictionary [Relationship.from_dict] is given. *)
Module RelationshipDict.
Record t : Type := mk {
  source_id : option string;
  target_id : option string;
  type : option string;
  attributes : option attrs;
  confidence : option Q;
  created_at : option string
}.
End RelationshipDict.

(** The dictionary [import_from_dict] is given (it does not read the
    metadata). *)
Record SnapshotDict : Type := {
  sd_entities : option (list EntityDict.t);
  sd_relationships : option (list RelationshipDict.t)
}.

Section Raw.
Context {datetime : Datetime}.

(** [Entity.from_dict]: the three arguments of the constructor are read
    first, then the two time stamps replace the ones it set. *)
Definition Entity_from_dict (data : EntityDict.t) : result Entity.t :=
  entity_id ← getitem (EntityDict.id data);
  entity_type ← getitem (EntityDict.type data);
  attributes ← getitem (EntityDict.attributes data);
  created ← getitem (EntityDict.created_at data);
  created_at ← datetime_fromisoformat created;
  updated ← getitem (EntityDict.updated_at data);
  updated_at ← datetime_fromisoformat updated;
  mret {| Entity.id := entity_id; Entity.type := entity_type;
          Entity.attributes := attributes;
          Entity.created_at := created_at; Entity.updated_at := updated_at |}.

(** [Relationship.from_dict]; the constructor stores [attributes or {}],
    which is the dictionary it is given, or an empty one for an empty one. *)
Definition Relationship_from_dict (data : RelationshipDict.t)
    : result Relationship.t :=
  source_id ← getitem (RelationshipDict.source_id data);
  target_id ← getitem (RelationshipDict.target_id data);
  relation_type ← getitem (RelationshipDict.type data);
  attributes ← getitem (RelationshipDict.attributes data);
  confidence ← getitem (RelationshipDict.confidence data);
  created ← getitem (RelationshipDict.created_at data);
  created_at ← datetime_fromisoformat created;
  mret {| Relationship.source_id := source_id;
          Relationship.target_id := target_id;
          Relationship.type := relation_type;
          Relationship.attributes := attributes;
          Relationship.confidence := confidence;
          Relationship.created_at := created_at |}.

End Raw.

Module Raw.
Section ImportLoops.
Context {datetime : Datetime}.

(** The first loop of [import_from_dict]: an item that [from_dict] rejects
    ends the import, with what was stored so far. *)
Fixpoint import_entities (l : list EntityDict.t) : KG unit :=
  match l with
  | [] => mret tt
  | entity_data :: rest =>
      entity ← lift (λ _, Entity_from_dict entity_data);
      set_entities (dict_set (Entity.id entity) entity) ;;
      set_graph (nx.add_node (Entity.id entity) entity) ;;
      import_entities rest
  end.

(** The second loop. *)
Fixpoint import_relationships (l : list RelationshipDict.t) : KG unit :=
  match l with
  | [] => mret tt
  | rel_data :: rest =>
      rel ← lift (λ _, Relationship_from_dict rel_data);
      set_relationships (λ rels, rels ++ [rel]) ;;
      self ← get;
      (if dict_mem (Relationship.source_id rel) (entities self)
          && dict_mem (Relationship.target_id rel) (entities self)
       then set_graph (nx.add_edge (Relationship.source_id rel)
                         (Relationship.target_id rel) rel)
       else mret tt) ;;
      import_relationships rest
  end.

(** [import_from_dict]: the three stores are cleared before anything is
    read. *)
Definition import_from_dict (data : SnapshotDict) : KG unit :=
  modify (λ _, KnowledgeGraph_init) ;;
  import_entities (default [] (sd_entities data)) ;;
  import_relationships (default [] (sd_relationships data)).

End ImportLoops.
End Raw.

(** The items of a list that are read before the first one that
    [from_dict] rejects, and the exception of that one. *)
Fixpoint read_items {A B} (from_dict : A → result B) (l : list A)
    : list B * option exn :=
  match l with
  | [] => ([], None)
  | item :: rest =>
      match from_dict item with
      | Ok x => let r := read_items from_dict rest in (x :: r.1, r.2)
      | Raise e => ([], Some e)
      end
  end.

Section ReadSnapshot.
Context {datetime : Datetime}.

(** What an import reads of a snapshot: the entities before the first one
    that is rejected; the relationships before the first one that is
    rejected, none unless every entity was read; and how the import ends,
    with the exception of the first item that is rejected. *)
Definition read_entities (data : SnapshotDict) : list Entity.t :=
  (read_items Entity_from_dict (default [] (sd_entities data))).1.

Definition read_relationships (data : SnapshotDict) : list Relationship.t :=
  match (read_items Entity_from_dict (default [] (sd_entities data))).2 with
  | None =>
      (read_items Relationship_from_dict (default [] (sd_relationships data))).1
  | Some _ => []
  end.

Definition read_outcome (data : SnapshotDict) : result unit :=
  match (read_items Entity_from_dict (default [] (sd_entities data))).2 with
  | Some e => Raise e
  | None =>
      match (read_items Relationship_from_dict
               (default [] (sd_relationships data))).2 with
      | Some e => Raise e
      | None => Ok tt
      end
  end.

End ReadSnapshot.

(** ** The states of a graph object *)

(** What the stores of a graph object always satisfy: the keys of the
    entity map are distinct and are the nodes of the graph, and every edge
    joins the source and the target of the relationship it carries. (After
    an import the relationship list may hold relationships without an edge,
    and relationships whose endpoints are not stored: [wf] may fail.) *)
Record consistent (self : KnowledgeGraph) : Prop := {
  consistent_nodup : NoDup (dict_keys (entities self));
  consistent_nodes : dict_keys (nx.nodes (graph self)) = dict_keys (entities self);
  consistent_ends : Forall edge_mirrors (nx.edges (graph self))
}.

Section GraphStates.
Context {datetime : Datetime}.

(** One call of a method that assigns to the stores, whether it returns or
    raises. The other methods only read them; [load_from_file] changes
    them through [import_from_dict] alone. *)
Inductive call : KnowledgeGraph → KnowledgeGraph → Prop :=
  | call_add_entity now entity_data self :
      call self (add_entity now entity_data self).2
  | call_update_entity now entity_id new_attributes self :
      call self (update_entity now entity_id new_attributes self).2
  | call_remove_entity entity_id self :
      call self (remove_entity entity_id self).2
  | call_add_relationship now source_id target_id relation_type attributes
      confidence self :
      call self (add_relationship now source_id target_id relation_type
                   attributes confidence self).2
  | call_auto_detect_relationships clock self :
      call self (auto_detect_relationships clock self).2
  | call_import_from_dict data self :
      call self (Raw.import_from_dict data self).2.

(** The states of a graph object: a new graph, and what calls make of it. *)
Inductive graph_state : KnowledgeGraph → Prop :=
  | graph_state_init : graph_state KnowledgeGraph_init
  | graph_state_call self self' :
      graph_state self → call self self' → graph_state self'.

End GraphStates.

(** ** Sample data *)

Definition entity_data (entity_id entity_type : string) (attributes : attrs)
    : EntityData :=
  {| ed_id := Some entity_id; ed_type := Some entity_type;
     ed_attributes := Some attributes |}.

(** The state an object is left in by a call. *)
Definition after {S A} (call : M S A) (self : S) : S := (call self).2.

(** Two people without attributes. *)
Definition two_people : KnowledgeGraph :=
  after (add_entity 2 (entity_data "p2" "person" []))
    (after (add_entity 1 (entity_data "p1" "person" [])) KnowledgeGraph_init).

(** Three notes in a chain: a -> b -> c. *)
Definition three_notes : KnowledgeGraph :=
  after (add_entity 3 (entity_data "c" "note" []))
    (after (add_entity 2 (entity_data "b" "note" []))
       (after (add_entity 1 (entity_data "a" "note" [])) KnowledgeGraph_init)).

Definition chain : KnowledgeGraph :=
  after (add_relationship 5 "b" "c" "cites" None 1)
    (after (add_relationship 4 "a" "b" "cites" None 1) three_notes).

(** The pair of the employment example. *)
Definition acme_person (entity_id : string) (created updated : timestamp) : Entity.t :=
  {| Entity.id := entity_id; Entity.type := "person";
     Entity.attributes := [("department", VStr "Acme Engineering")];
     Entity.created_at := created; Entity.updated_at := updated |}.

Definition acme_organization (entity_id : string) (created updated : timestamp)
    : Entity.t :=
  {| Entity.id := entity_id; Entity.type := "organization";
     Entity.attributes := [("name", VStr "Acme")];
     Entity.created_at := created; Entity.updated_at := updated |}.

Definition acme : KnowledgeGraph :=
  after (add_entity 2 (entity_data "b" "organization" [("name", VStr "Acme")]))
    (after (add_entity 1 (entity_data "a" "person"
                            [("department", VStr "Acme Engineering")]))
       KnowledgeGraph_init).

(** A self-loop on the first note of the chain. *)
Definition looped : KnowledgeGraph :=
  after (add_relationship 6 "a" "a" "cites" None 1) chain.

(** NLTK without its data files: both lookups fail, so the code falls back
    on [str.split] and on its own stop words. The stemmer is stood in for
    by the identity. *)
Definition bare_nltk : Nltk :=
  {| word_tokenize := λ _, None;
     stopwords_english := None;
     porter_stem := λ token, token |}.

(** A vectorizer with a vocabulary of one term, the first word of the
    corpus. A vector is its single coordinate: after L2 normalization, 1
    when the term occurs in the document and 0 otherwise. The cosine of two
    such vectors is the product of their signs. *)
Definition one_term_weight (term text : string) : Q :=
  if bool_decide (term ∈ Py.split_ws text) then 1%Q else 0%Q.

Definition one_term_sklearn : Sklearn :=
  {| ndarray := Q;
     fitted := string;
     tfidf_fit_transform := λ _ texts,
       match flat_map Py.split_ws texts with
       | [] => Raise ValueError
       | term :: _ => Ok (term, one_term_weight term <$> texts)
       end;
     tfidf_transform := one_term_weight;
     cosine_similarity := λ x y,
       Ok (inject_Z (Z.sgn (Qnum x) * Z.sgn (Qnum y))) |}.

Definition alice : EntityData :=
  entity_data "a" "person" [("name", VStr "Alice Smith")].

Definition bob : EntityData :=
  entity_data "b" "person" [("name", VStr "Bob Jones")].

(** An entity whose text normalizes to nothing: its id and type are not
    alphabetic. *)
Definition blank : EntityData := entity_data "42" "7" [("rank", VNum 3)].

(** A fresh embedder, and the same after a fit on three entities. *)
Definition fresh_embedder : VectorEmbedder (sklearn := one_term_sklearn) :=
  (VectorEmbedder_init (sklearn := one_term_sklearn) "tfidf" 1000).2.

Definition fitted_embedder : VectorEmbedder (sklearn := one_term_sklearn) :=
  after (fit_embeddings (nltk := bare_nltk) [alice; blank; bob]) fresh_embedder.

(** A person whose department is a number, stored before an organization. *)
Definition odd_department : KnowledgeGraph :=
  after (add_entity 2 (entity_data "org" "organization" [("name", VStr "Acme")]))
    (after (add_entity 1 (entity_data "p" "person" [("department", VNum 7)]))
       KnowledgeGraph_init).

(** A person without a name, and a project. *)
Definition nameless : Entity.t := Entity.init 1 "p" "person" [].
Definition website : Entity.t :=
  Entity.init 2 "w" "project" [("assignee", VStr "John Doe")].

(** A vectorizer whose vectors are lists of at most one coordinate; vectors
    of any other shape cannot be compared. *)
Definition short_sklearn : Sklearn :=
  {| ndarray := list Q;
     fitted := string;
     tfidf_fit_transform := λ _ texts,
       match flat_map Py.split_ws texts with
       | [] => Raise ValueError
       | term :: _ => Ok (term, (λ text, [one_term_weight term text]) <$> texts)
       end;
     tfidf_transform := λ term text, [one_term_weight term text];
     cosine_similarity := λ x y,
       match x, y with
       | [a], [b] => Ok (inject_Z (Z.sgn (Qnum a) * Z.sgn (Qnum b)))
       | _, _ => Raise ValueError
       end |}.

(** An index with a vector left over from an earlier, wider space. *)
Definition stale_embedder : VectorEmbedder (sklearn := short_sklearn) :=
  {| embedding_method := "tfidf";
     max_features := 1000;
     vectorizer := Some (Fitted (sklearn := short_sklearn) "person");
     embeddings := [("a", [1%Q]); ("old", [1%Q; 0%Q])];
     entity_texts := [("a", "person alice smith"); ("old", "acme person")] |}.




(** A stand-in for [datetime.fromisoformat] that reads the first seconds of
    1970 and rejects every other string. *)
Definition epoch_datetime : Datetime :=
  {| fromisoformat := λ date_string,
       if String.eqb date_string "1970-01-01T00:00:01" then Some 1%Z
       else if String.eqb date_string "1970-01-01T00:00:02" then Some 2%Z
       else if String.eqb date_string "1970-01-01T00:00:03" then Some 3%Z
       else None |}.

Definition note_dict (entity_id created : string) : EntityDict.t :=
  {| EntityDict.id := Some entity_id; EntityDict.type := Some "note";
     EntityDict.attributes := Some [];
     EntityDict.created_at := Some created;
     EntityDict.updated_at := Some created |}.

Definition cites_dict (source_id target_id : string) : RelationshipDict.t :=
  {| RelationshipDict.source_id := Some source_id;
     RelationshipDict.target_id := Some target_id;
     RelationshipDict.type := Some "cites";
     RelationshipDict.attributes := Some [];
     RelationshipDict.confidence := Some 1%Q;
     RelationshipDict.created_at := Some "1970-01-01T00:00:03" |}.

(** A snapshot with a relationship whose target is not among its
    entities. *)
Definition dangling_snapshot : SnapshotDict :=
  {| sd_entities := Some [note_dict "a" "1970-01-01T00:00:01";
                          note_dict "b" "1970-01-01T00:00:02"];
     sd_relationships := Some [cites_dict "a" "b"; cites_dict "a" "zed"] |}.

(** The chain after that snapshot was loaded into it. *)
Definition dangling : KnowledgeGraph :=
  after (Raw.import_from_dict (datetime := epoch_datetime) dangling_snapshot) chain.

(** A snapshot whose second entity has no type, and one whose second
    entity has a time stamp that is not in ISO format. *)
Definition untyped_snapshot : SnapshotDict :=
  {| sd_entities :=
       Some [note_dict "a" "1970-01-01T00:00:01";
             {| EntityDict.id := Some "b"; EntityDict.type := None;
                EntityDict.attributes := Some [];
                EntityDict.created_at := Some "1970-01-01T00:00:02";
                EntityDict.updated_at := Some "1970-01-01T00:00:02" |};
             note_dict "c" "1970-01-01T00:00:03"];
     sd_relationships := Some [cites_dict "a" "c"] |}.

Definition misdated_snapshot : SnapshotDict :=
  {| sd_entities := Some [note_dict "a" "1970-01-01T00:00:01";
                          note_dict "b" "yesterday"];
     sd_relationships := Some [cites_dict "a" "b"] |}.




(** The pair of the employment example, the organization stored first. *)
Definition acme_reversed : KnowledgeGraph :=
  after (add_entity 2 (entity_data "a" "person"
                         [("department", VStr "Acme Engineering")]))
    (after (add_entity 1 (entity_data "b" "organization" [("name", VStr "Acme")]))
       KnowledgeGraph_init).

(** * Properties *)

(** ** Dictionaries *)

Section DictFacts.
Context {V : Type}.
Implicit Types (d : list (string * V)) (k : string).

Lemma dict_mem_keys k d : dict_mem k d = true ↔ k ∈ dict_keys d.
Proof.
  unfold dict_mem, dict_keys. induction d as [|[k' v] d IH]; simpl.
  - split; [done|]. by intros ?%elem_of_nil.
  - destruct (String.eqb_spec k k') as [->|Hne].
    + split; [intros _; left|done].
    + rewrite IH, elem_of_cons. split; [by right|by intros [?|?]].
Qed.

Lemma dict_mem_false_keys k d : dict_mem k d = false ↔ k ∉ dict_keys d.
Proof. rewrite <- dict_mem_keys. by destruct (dict_mem k d). Qed.

Lemma dict_get_set_eq k v d : dict_get k (dict_set k v d) = Some v.
Proof.
  induction d as [|[k' v'] d IH]; simpl.
  - by rewrite String.eqb_refl.
  - destruct (String.eqb k k') eqn:E; simpl; [by rewrite String.eqb_refl|by rewrite E].
Qed.

Lemma dict_get_set_ne k k' v d : k ≠ k' → dict_get k' (dict_set k v d) = dict_get k' d.
Proof.
  intros Hne. induction d as [|[k0 v0] d IH]; simpl.
  - by destruct (String.eqb_spec k' k) as [->|].
  - destruct (String.eqb_spec k k0) as [->|]; simpl.
    + by destruct (String.eqb_spec k' k0) as [->|].
    + by rewrite IH.
Qed.

Lemma dict_mem_set k k' v d :
  dict_mem k' (dict_set k v d) = String.eqb k' k || dict_mem k' d.
Proof.
  unfold dict_mem. destruct (String.eqb_spec k' k) as [->|Hne]; simpl.
  - by rewrite dict_get_set_eq.
  - by rewrite dict_get_set_ne.
Qed.

Lemma dict_keys_set k v d : dict_keys (dict_set k v d) = keys_set k (dict_keys d).
Proof.
  unfold keys_set, dict_keys. induction d as [|[k' v'] d IH]; [done|].
  cbn [dict_set]. destruct (String.eqb_spec k k') as [->|Hne]; rewrite !fmap_cons; cbn [fst].
  - rewrite bool_decide_eq_true_2; [done|left].
  - rewrite IH. case_bool_decide as Hin.
    + rewrite bool_decide_eq_true_2; [done|by right].
    + rewrite bool_decide_eq_false_2; [done|]. by intros [?|?]%elem_of_cons.
Qed.

Lemma dict_keys_del k d : dict_keys (dict_del k d) = keys_del k (dict_keys d).
Proof.
  unfold dict_keys. induction d as [|[k' v'] d IH]; [done|].
  cbn [dict_del]. rewrite !fmap_cons. cbn [fst keys_del].
  destruct (String.eqb k k'); [done|]. by rewrite fmap_cons, IH.
Qed.

Lemma elem_of_keys_del k k' ks :
  k' ≠ k → k' ∈ keys_del k ks ↔ k' ∈ ks.
Proof.
  intros Hne. induction ks as [|k0 ks IH]; simpl; [done|].
  destruct (String.eqb_spec k k0) as [->|]; rewrite ?elem_of_cons; naive_solver.
Qed.

Lemma keys_del_subseteq k ks : keys_del k ks ⊆ ks.
Proof.
  induction ks as [|k0 ks IH]; simpl; [done|].
  destruct (String.eqb k k0); set_solver.
Qed.

Lemma NoDup_keys_del k ks : NoDup ks → NoDup (keys_del k ks) ∧ k ∉ keys_del k ks.
Proof.
  induction 1 as [|k0 ks Hk0 Hnd [IH1 IH2]]; simpl.
  - split; [constructor|by intros ?%elem_of_nil].
  - destruct (String.eqb_spec k k0) as [->|Hne]; [done|].
    split.
    + constructor; [|done]. intros Hin. by apply keys_del_subseteq in Hin.
    + rewrite elem_of_cons. naive_solver.
Qed.

Lemma NoDup_keys_set k ks : NoDup ks → NoDup (keys_set k ks).
Proof.
  intros Hnd. unfold keys_set. case_bool_decide; [done|].
  apply NoDup_app. split_and!; [done| |apply NoDup_singleton].
  intros x Hx ->%list_elem_of_singleton. done.
Qed.

Lemma elem_of_keys_set k k' ks : k' ∈ keys_set k ks ↔ k' = k ∨ k' ∈ ks.
Proof. unfold keys_set. case_bool_decide; set_solver. Qed.

End DictFacts.

Section MoreDictFacts.
Context {V : Type}.
Implicit Types (d : list (string * V)) (k : string).

Lemma Forall_dict_set (P : string * V → Prop) k v d :
  P (k, v) → Forall P d → Forall P (dict_set k v d).
Proof.
  intros Hk. induction 1 as [|[k' v'] d Hx Hd IH]; simpl.
  - by constructor.
  - destruct (String.eqb k k'); constructor; done.
Qed.

Lemma Forall_dict_del (P : string * V → Prop) k d :
  Forall P d → Forall P (dict_del k d).
Proof.
  induction 1 as [|[k' v'] d Hx Hd IH]; simpl; [constructor|].
  destruct (String.eqb k k'); [done|by constructor].
Qed.

Lemma dict_get_elem k v d : dict_get k d = Some v → (k, v) ∈ d.
Proof.
  induction d as [|[k' v'] d IH]; simpl; [done|].
  destruct (String.eqb_spec k k') as [->|Hne].
  - intros [= ->]. left.
  - intros Hg. right. by apply IH.
Qed.

Lemma dict_mem_del_ne k k' d : k' ≠ k → dict_mem k' (dict_del k d) = dict_mem k' d.
Proof.
  intros Hne. unfold dict_mem. induction d as [|[k0 v0] d IH]; simpl; [done|].
  destruct (String.eqb_spec k k0) as [->|Hk]; simpl.
  - by destruct (String.eqb_spec k' k0).
  - destruct (String.eqb k' k0); [done|apply IH].
Qed.

Lemma dict_mem_del_eq k d :
  NoDup (dict_keys d) → dict_mem k (dict_del k d) = false.
Proof.
  intros Hnd. apply dict_mem_false_keys. rewrite dict_keys_del.
  by apply NoDup_keys_del.
Qed.

Lemma dict_mem_same_keys {W : Type} k d (d' : list (string * W)) :
  dict_keys d = dict_keys d' → dict_mem k d = dict_mem k d'.
Proof.
  intros Hk. destruct (dict_mem k d') eqn:E.
  - apply dict_mem_keys. rewrite Hk. by apply dict_mem_keys.
  - apply dict_mem_false_keys. rewrite Hk. by apply dict_mem_false_keys.
Qed.

End MoreDictFacts.

(** ** The graph state stays well formed *)

Ltac unfold_M :=
  unfold set_graph, set_entities, set_relationships, try_graph, try_except,
    get, modify, raise, lift, mbind, mret, M_bind, M_ret in *.

Lemma wf_init : wf KnowledgeGraph_init.
Proof. split; simpl; try constructor; done. Qed.

Lemma has_node_wf n self :
  wf self → nx.has_node n (graph self) = dict_mem n (entities self).
Proof. intros Hwf. unfold nx.has_node. apply dict_mem_same_keys, Hwf. Qed.

Lemma ensure_node_present n ns : dict_mem n ns = true → nx.ensure_node n ns = ns.
Proof. intros Hn. unfold nx.ensure_node. by rewrite Hn. Qed.

Lemma endpoints_present_mono self self' rel :
  (∀ n, dict_mem n (entities self) = true → dict_mem n (entities self') = true) →
  endpoints_present self rel → endpoints_present self' rel.
Proof. intros Hmono [Hs Ht]. split; by apply Hmono. Qed.

Lemma add_entity_wf now entity_data self :
  wf self → wf (add_entity now entity_data self).2.
Proof.
  intros Hwf. unfold add_entity. destruct (missing_id _); [done|].
  unfold_M. simpl. destruct Hwf as [Hnd Hids Hnodes Hedges Hends Hrefs].
  split; simpl.
  - rewrite dict_keys_set. by apply NoDup_keys_set.
  - by apply Forall_dict_set.
  - by rewrite !dict_keys_set, Hnodes.
  - done.
  - done.
  - eapply Forall_impl; [exact Hrefs|]. intros rel. apply endpoints_present_mono.
    simpl. intros n Hn. by rewrite dict_mem_set, Hn, orb_true_r.
Qed.

Lemma update_entity_wf now entity_id new_attributes self :
  wf self → wf (update_entity now entity_id new_attributes self).2.
Proof.
  intros Hwf. unfold update_entity. unfold_M. simpl.
  destruct (dict_get entity_id (entities self)) as [entity|] eqn:Hget; [|done].
  simpl. unfold nx.update_node.
  assert (Hmem : dict_mem entity_id (entities self) = true)
    by (unfold dict_mem; by rewrite Hget).
  rewrite (has_node_wf _ _ Hwf), Hmem.
  destruct Hwf as [Hnd Hids Hnodes Hedges Hends Hrefs].
  assert (Hk : keys_set entity_id (dict_keys (entities self)) = dict_keys (entities self)).
  { unfold keys_set. rewrite bool_decide_eq_true_2; [done|by apply dict_mem_keys]. }
  split; simpl.
  - by rewrite dict_keys_set, Hk.
  - apply Forall_dict_set; [|done]. simpl.
    apply dict_get_elem in Hget. rewrite Forall_forall in Hids.
    by apply Hids in Hget.
  - by rewrite !dict_keys_set, Hnodes.
  - done.
  - done.
  - eapply Forall_impl; [exact Hrefs|]. intros rel. apply endpoints_present_mono.
    simpl. intros n Hn. by rewrite dict_mem_set, Hn, orb_true_r.
Qed.

Lemma fmap_filter_edges n es :
  Forall edge_mirrors es →
  nx.data <$> filter (λ e, nx.u e ≠ n ∧ nx.v e ≠ n) es
  = filter (λ rel, Relationship.source_id rel ≠ n ∧ Relationship.target_id rel ≠ n)
      (nx.data <$> es).
Proof.
  induction 1 as [|e es [Hu Hv] Hes IH]; [done|].
  rewrite fmap_cons, !filter_cons, <- Hu, <- Hv.
  destruct (decide (nx.u e ≠ n ∧ nx.v e ≠ n)); [|done].
  by rewrite fmap_cons, IH.
Qed.

Lemma remove_entity_wf entity_id self :
  wf self → wf (remove_entity entity_id self).2.
Proof.
  intros Hwf. unfold remove_entity. unfold_M. simpl.
  destruct (dict_mem entity_id (entities self)) eqn:Hmem; [|done].
  simpl. unfold nx.remove_node. rewrite (has_node_wf _ _ Hwf), Hmem. simpl.
  destruct Hwf as [Hnd Hids Hnodes Hedges Hends Hrefs].
  split; simpl.
  - rewrite dict_keys_del. by apply NoDup_keys_del.
  - by apply Forall_dict_del.
  - by rewrite !dict_keys_del, Hnodes.
  - by rewrite fmap_filter_edges, Hedges.
  - apply Forall_forall. intros e [_ Hin]%list_elem_of_filter.
    rewrite Forall_forall in Hends. by apply Hends.
  - apply Forall_forall. intros rel [[Hs Ht] Hin]%list_elem_of_filter.
    rewrite Forall_forall in Hrefs. destruct (Hrefs _ Hin) as [Hs' Ht'].
    split; simpl; by rewrite dict_mem_del_ne.
Qed.

Lemma add_relationship_wf now source_id target_id relation_type attributes
    confidence self :
  wf self →
  wf (add_relationship now source_id target_id relation_type attributes
        confidence self).2.
Proof.
  intros Hwf. unfold add_relationship. unfold_M. simpl.
  destruct (dict_mem source_id (entities self)) eqn:Hs; [|done]. simpl.
  destruct (dict_mem target_id (entities self)) eqn:Ht; [|done]. simpl.
  pose proof (has_node_wf source_id _ Hwf) as Hns.
  pose proof (has_node_wf target_id _ Hwf) as Hnt.
  unfold nx.has_node in Hns, Hnt. rewrite Hs in Hns. rewrite Ht in Hnt.
  destruct Hwf as [Hnd Hids Hnodes Hedges Hends Hrefs].
  split; simpl.
  - done.
  - done.
  - rewrite (ensure_node_present source_id) by done.
    by rewrite (ensure_node_present target_id).
  - by rewrite fmap_app, Hedges.
  - apply Forall_app. split; [done|]. by repeat constructor.
  - apply Forall_app. split; [done|]. by repeat constructor.
Qed.

Lemma step_wf self self' : step self self' → wf self → wf self'.
Proof.
  destruct 1; intros Hwf.
  - by apply add_entity_wf.
  - by apply update_entity_wf.
  - by apply add_relationship_wf.
  - by apply remove_entity_wf.
Qed.

Lemma reachable_wf self : reachable self → wf self.
Proof. induction 1; [apply wf_init|by eapply step_wf]. Qed.

(** ** Relationships need both endpoints *)

(** C5. In every graph state, [add_relationship] with a source id or a
    target id that is not in the entity store raises the graph error that
    names the missing endpoint, and the state it leaves is the state it
    found: neither the relationship list nor the graph (nor anything else)
    has changed. *)
Theorem add_relationship_missing_endpoint now source_id target_id relation_type
    attributes confidence self :
  dict_mem source_id (entities self) = false
  ∨ dict_mem target_id (entities self) = false →
  add_relationship now source_id target_id relation_type attributes
    confidence self
  = (Raise (KnowledgeGraphError
              (if dict_mem source_id (entities self)
               then "Target entity " +:+ target_id +:+ " not found"
               else "Source entity " +:+ source_id +:+ " not found")),
     self).
Proof.
  intros Hmissing. unfold add_relationship. unfold_M. simpl.
  destruct (dict_mem source_id (entities self)) eqn:Hs; simpl; [|done].
  destruct Hmissing as [?|Ht]; [done|]. by rewrite Ht.
Qed.

Lemma add_relationship_missing_endpoint_witness :
  add_relationship 9 "a" "zed" "cites" None 1 chain
  = (Raise (KnowledgeGraphError "Target entity zed not found"), chain).
Proof.
  apply (add_relationship_missing_endpoint 9 "a" "zed" "cites" None 1 chain).
  right. vm_compute. reflexivity.
Defined.

(** ** Referential integrity *)

(** C10. In every graph state reachable from the empty graph by calls of
    [add_entity], [update_entity], [add_relationship] and [remove_entity]
    (returning or raising), every relationship of the relationship list has
    its source id and its target id in the entity map. *)
Theorem referential_integrity self :
  reachable self → Forall (endpoints_present self) (relationships self).
Proof. intros Hreach. by apply reachable_wf, wf_refs in Hreach. Qed.

Lemma referential_integrity_witness :
  Forall (endpoints_present (after (remove_entity "c") chain))
    (relationships (after (remove_entity "c") chain)).
Proof.
  apply referential_integrity.
  eapply reachable_step; [|apply step_remove_entity].
  eapply reachable_step; [|apply step_add_relationship].
  eapply reachable_step; [|apply step_add_relationship].
  eapply reachable_step; [|apply step_add_entity].
  eapply reachable_step; [|apply step_add_entity].
  eapply reachable_step; [|apply step_add_entity].
  apply reachable_init.
Defined.

(** ** Adding an id that is already there *)

(** C2, on the code: [add_entity] has no duplicate check. Here "p1" is
    stored as a person; adding "p1" again as an organization returns
    normally and the stored entity is the new one. *)
Lemma add_entity_duplicate_overwrites :
  dict_get "p1" (entities two_people)
    = Some (Entity.init 1 "p1" "person" [])
  ∧ (add_entity 3 (entity_data "p1" "organization" []) two_people).1
    = Ok (Entity.init 3 "p1" "organization" [])
  ∧ dict_get "p1"
      (entities (after (add_entity 3 (entity_data "p1" "organization" []))
                   two_people))
    = Some (Entity.init 3 "p1" "organization" []).
Proof. by vm_compute. Qed.

(** C2, amended. When an entity with id X is present, [add_entity] with
    the same (non-empty) id X returns the newly built entity without
    raising; the entity stored under X is replaced by it; the keys of the
    entity map, their order, the relationship list and the edges of the
    graph are unchanged. *)
Theorem add_entity_existing_id_replaces now entity_data entity_id self :
  ed_id entity_data = Some entity_id →
  entity_id ≠ "" →
  dict_mem entity_id (entities self) = true →
  let entity := Entity.init now entity_id
                  (default "unknown" (ed_type entity_data))
                  (default [] (ed_attributes entity_data)) in
  ∃ self',
    add_entity now entity_data self = (Ok entity, self')
    ∧ dict_get entity_id (entities self') = Some entity
    ∧ dict_keys (entities self') = dict_keys (entities self)
    ∧ relationships self' = relationships self
    ∧ nx.edges (graph self') = nx.edges (graph self).
Proof.
  intros Hid Hne Hmem entity. unfold add_entity. rewrite Hid. simpl.
  destruct (String.eqb_spec entity_id "") as [->|_]; [done|].
  unfold_M. simpl. eexists. split; [reflexivity|]. simpl.
  split_and!; try done.
  - apply dict_get_set_eq.
  - rewrite dict_keys_set. unfold keys_set.
    rewrite bool_decide_eq_true_2; [done|by apply dict_mem_keys].
Qed.

Lemma add_entity_existing_id_replaces_witness :
  ∃ self',
    add_entity 3 (entity_data "p1" "organization" []) two_people
    = (Ok (Entity.init 3 "p1" "organization" []), self')
    ∧ dict_get "p1" (entities self') = Some (Entity.init 3 "p1" "organization" [])
    ∧ dict_keys (entities self') = dict_keys (entities two_people)
    ∧ relationships self' = relationships two_people
    ∧ nx.edges (graph self') = nx.edges (graph two_people).
Proof.
  apply (add_entity_existing_id_replaces 3 (entity_data "p1" "organization" [])
           "p1" two_people); [reflexivity|discriminate|vm_compute; reflexivity].
Defined.

(** ** The sample chain *)

Lemma chain_wf : wf chain.
Proof.
  unfold chain, after. do 2 apply add_relationship_wf.
  unfold three_notes, after. do 3 apply add_entity_wf. apply wf_init.
Defined.

(** ** Running the inference twice *)

Lemma add_relationship_ok now source_id target_id relation_type attributes
    confidence self :
  dict_mem source_id (entities self) = true →
  dict_mem target_id (entities self) = true →
  let relationship :=
    Relationship.init now source_id target_id relation_type attributes confidence in
  add_relationship now source_id target_id relation_type attributes confidence self
  = (Ok relationship,
     {| graph := nx.add_edge source_id target_id relationship (graph self);
        entities := entities self;
        relationships := relationships self ++ [relationship] |}).
Proof. intros Hs Ht. unfold add_relationship. unfold_M. simpl. by rewrite Hs, Ht. Qed.

(** With both entities in the store every proposal is added: nothing in
    [add_relationship] looks for an existing relationship. *)
Lemma add_proposals_all_added clock entity1 entity2 proposals :
  ∀ detected_count self,
    dict_mem (Entity.id entity1) (entities self) = true →
    dict_mem (Entity.id entity2) (entities self) = true →
    ∃ self',
      add_proposals clock entity1 entity2 proposals detected_count self
      = (Ok (detected_count + length proposals), self')
      ∧ entities self' = entities self
      ∧ length (relationships self')
        = length (relationships self) + length proposals.
Proof.
  induction proposals as [|[rel_type confidence] rest IH];
    intros detected_count self H1 H2.
  - exists self. simpl. unfold_M. split_and!; [f_equal; f_equal; lia|done|lia].
  - cbn [add_proposals]. unfold_M.
    rewrite (add_relationship_ok _ _ _ _ _ _ _ H1 H2). cbn beta iota zeta.
    match goal with
    | |- context [add_proposals _ _ _ rest ?c ?s] =>
        destruct (IH c s) as (self' & Hrun & Hent & Hlen); [done|done|]
    end.
    exists self'. rewrite Hrun. simpl in *. rewrite length_app in Hlen. simpl in Hlen.
    split_and!; [f_equal; f_equal; lia|done|lia].
Qed.

Lemma all_present_entities l self self' :
  entities self' = entities self → all_present l self → all_present l self'.
Proof. intros Heq Hl e He. rewrite Heq. by apply Hl. Qed.

Lemma all_present_cons e l self :
  all_present (e :: l) self →
  dict_mem (Entity.id e) (entities self) = true ∧ all_present l self.
Proof.
  intros Hl. split; [apply Hl; left|]. intros e' He'. apply Hl. by right.
Qed.

(** Two runs of the inner loop over the same entities, from any two states
    that hold them: when the first returns, the second returns too, and both
    add the same number of relationships. *)
Lemma detect_against_again clock clock2 entity1 later :
  ∀ c self n self' c2 self2,
    dict_mem (Entity.id entity1) (entities self) = true →
    all_present later self →
    dict_mem (Entity.id entity1) (entities self2) = true →
    all_present later self2 →
    detect_against clock entity1 later c self = (Ok n, self') →
    ∃ k self2',
      n = c + k
      ∧ entities self' = entities self
      ∧ length (relationships self') = length (relationships self) + k
      ∧ detect_against clock2 entity1 later c2 self2 = (Ok (c2 + k), self2')
      ∧ entities self2' = entities self2
      ∧ length (relationships self2') = length (relationships self2) + k.
Proof.
  induction later as [|entity2 rest IH]; intros c self n self' c2 self2 H1 Hl H1' Hl'.
  - simpl. unfold_M. intros [= <- <-]. exists 0, self2.
    split_and!; try done; try lia. f_equal. f_equal. lia.
  - apply all_present_cons in Hl as [H2 Hl]. apply all_present_cons in Hl' as [H2' Hl'].
    cbn [detect_against]. unfold_M.
    destruct (_detect_relationship_between entity1 entity2) as [proposals|e]; [|done].
    destruct (add_proposals_all_added clock entity1 entity2 proposals c self H1 H2)
      as (s1 & Hrun1 & Hent1 & Hlen1).
    destruct (add_proposals_all_added clock2 entity1 entity2 proposals c2 self2 H1' H2')
      as (s2 & Hrun2 & Hent2 & Hlen2).
    unfold_M. rewrite Hrun1, Hrun2. intros Hrest.
    eapply (IH _ _ _ _ (c2 + length proposals) s2) in Hrest
      as (k & s2' & -> & He & Hlen & Hrun & He' & Hlen');
      [|by rewrite Hent1|by eapply all_present_entities|by rewrite Hent2
       |by eapply all_present_entities].
    exists (length proposals + k), s2'. rewrite Hrun.
    split_and!; [lia|congruence|lia|f_equal; f_equal; lia|congruence|lia].
Qed.

Lemma detect_all_again clock clock2 entities_list :
  ∀ c self n self' c2 self2,
    all_present entities_list self →
    all_present entities_list self2 →
    detect_all clock entities_list c self = (Ok n, self') →
    ∃ k self2',
      n = c + k
      ∧ entities self' = entities self
      ∧ length (relationships self') = length (relationships self) + k
      ∧ detect_all clock2 entities_list c2 self2 = (Ok (c2 + k), self2')
      ∧ entities self2' = entities self2
      ∧ length (relationships self2') = length (relationships self2) + k.
Proof.
  induction entities_list as [|entity1 later IH]; intros c self n self' c2 self2 Hl Hl'.
  - simpl. unfold_M. intros [= <- <-]. exists 0, self2.
    split_and!; try done; try lia. f_equal. f_equal. lia.
  - apply all_present_cons in Hl as [H1 Hl]. apply all_present_cons in Hl' as [H1' Hl'].
    cbn [detect_all]. unfold_M.
    destruct (detect_against clock entity1 later c self) as [[n1|e] s1] eqn:Hrun1; [|done].
    destruct (detect_against_again clock clock2 entity1 later c self n1 s1 c2 self2
                H1 Hl H1' Hl' Hrun1)
      as (k1 & s2 & -> & He1 & Hlen1 & Hrun2 & He2 & Hlen2).
    rewrite Hrun2. intros Hrest.
    eapply (IH _ _ _ _ (c2 + k1) s2) in Hrest
      as (k & s2' & -> & He & Hlen & Hrun & He' & Hlen');
      [|by eapply all_present_entities|by eapply all_present_entities].
    exists (k1 + k), s2'. rewrite Hrun.
    split_and!; [lia|congruence|lia|f_equal; f_equal; lia|congruence|lia].
Qed.

Lemma wf_all_present self : wf self → all_present (dict_values (entities self)) self.
Proof.
  intros Hwf e He. unfold dict_values in He.
  apply list_elem_of_fmap in He as ([k e'] & -> & Hin). simpl.
  pose proof (wf_ids _ Hwf) as Hids. rewrite Forall_forall in Hids.
  apply Hids in Hin as Hid. simpl in Hid. rewrite Hid. apply dict_mem_keys. unfold dict_keys.
  apply list_elem_of_fmap. by exists (k, e').
Qed.

(** Whenever a run of the inference returns a count, a second run on the
    state it left (the entity set is the same) returns the same count and
    appends as many relationships again. *)
Lemma auto_detect_relationships_repeats clock clock2 self n self' :
  wf self →
  auto_detect_relationships clock self = (Ok n, self') →
  ∃ self'',
    auto_detect_relationships clock2 self' = (Ok n, self'')
    ∧ entities self' = entities self
    ∧ length (relationships self') = length (relationships self) + n
    ∧ length (relationships self'') = length (relationships self') + n.
Proof.
  intros Hwf. unfold auto_detect_relationships. unfold_M. intros Hrun.
  pose proof (wf_all_present _ Hwf) as Hl.
  destruct (detect_all_again clock clock (dict_values (entities self)) 0 self n self'
              0 self Hl Hl Hrun) as (k & _ & -> & He & Hlen & _).
  assert (Hl' : all_present (dict_values (entities self)) self')
    by by eapply all_present_entities.
  destruct (detect_all_again clock clock2 (dict_values (entities self)) 0 self k self'
              0 self' Hl Hl' Hrun) as (k' & s'' & Hk & _ & Hlen1 & Hrun2 & _ & Hlen2).
  simpl in Hk. subst k'. exists s''. rewrite He. by rewrite Hrun2.
Qed.

(** C1, on the code. Two people of the same type: the first run adds
    similar_to(p1, p2) and returns 1. The second run, on the unchanged
    entity set, returns 1 again: the relationship that exists between the
    same pair with the same type is added a second time. *)
Theorem auto_detect_twice_adds_again clock1 clock2 :
  let first := auto_detect_relationships clock1 two_people in
  let second := auto_detect_relationships clock2 first.2 in
  first.1 = Ok 1
  ∧ entities first.2 = entities two_people
  ∧ relationships first.2
    = [Relationship.init (clock1 0) "p1" "p2" "similar_to" None 0.3%Q]
  ∧ second.1 = Ok 1
  ∧ relationships second.2
    = [Relationship.init (clock1 0) "p1" "p2" "similar_to" None 0.3%Q;
       Relationship.init (clock2 0) "p1" "p2" "similar_to" None 0.3%Q].
Proof. by split_and!. Qed.

(** ** Connected entities *)

(** For a known id and any depth of at least one, the answer is the set of
    direct neighbours: after [connected.update(next_level)] the difference
    [next_level - connected] is empty, so the loop ends after its first
    round. *)
Lemma get_connected_entities_one_hop entity_id max_depth self :
  dict_mem entity_id (entities self) = true →
  (1 ≤ max_depth)%Z →
  get_connected_entities entity_id max_depth self
  = neighbors entity_id (graph self).
Proof.
  intros Hmem Hd. unfold get_connected_entities. rewrite Hmem. simpl.
  destruct (Z.to_nat max_depth) as [|n] eqn:Hn; [lia|].
  simpl. rewrite elements_singleton. simpl.
  unfold mbind at 1. unfold result_bind, mbind, mret, result_ret.
  destruct (neighbors entity_id (graph self)) as [ns|e]; [|done].
  rewrite bool_decide_eq_true_2 by set_solver.
  f_equal. set_solver.
Qed.

(** C3, on the code. In the chain a -> b -> c, two hops from a reach b and
    c, but [get_connected_entities] answers b alone, for depth 2 as for
    depth 1. *)
Theorem connected_entities_stops_after_one_hop :
  get_connected_entities "a" 2 chain = Ok {["b"]}
  ∧ get_connected_entities "a" 1 chain = Ok {["b"]}
  ∧ spec_connected "a" 2 chain = {["b"; "c"]}
  ∧ get_connected_entities "a" 2 chain ≠ Ok (spec_connected "a" 2 chain).
Proof.
  split_and!; [by vm_compute|by vm_compute|by vm_compute|].
  intros Heq. vm_compute in Heq. discriminate.
Qed.

(** With a self-loop the origin is among its own neighbours, and is
    returned. *)
Lemma connected_entities_self_loop :
  get_connected_entities "a" 1 looped = Ok {["a"; "b"]}.
Proof. by vm_compute. Qed.

(** ** The embedding index *)

Section EmbeddingFacts.
Context {nltk : Nltk} {sklearn : Sklearn}.

Ltac unfold_VE :=
  unfold set_vectorizer, set_embedding, set_entity_text, try_except,
    get, modify, raise, lift, mbind, mret, M_bind, M_ret in *.

(** *** Adding one entity *)

Lemma VectorEmbedder_init_tfidf max_features :
  ∃ self,
    VectorEmbedder_init "tfidf" max_features = (Ok self, self)
    ∧ vectorizer self = Some Unfitted
    ∧ embeddings self = [].
Proof. eexists. by split_and!. Qed.

(** C4, on the code. The constructor always installs a vectorizer, so the
    test [self.vectorizer is None] never succeeds. On an embedder whose
    vectorizer has not been fitted (as the constructor leaves it), adding
    an entity with an id and a non-blank text fits nothing and stores
    nothing: the projection raises, the handler returns [None], and the
    embedder is left as it was. *)
Theorem add_entity_embedding_unfitted entity entity_id self :
  vectorizer self = Some Unfitted →
  ed_id entity = Some entity_id →
  entity_id ≠ "" →
  Py.strip (extract_text_from_entity entity) ≠ "" →
  add_entity_embedding entity self = (Ok None, self).
Proof.
  intros Hv Hid Hne Htext. unfold add_entity_embedding. rewrite Hid. simpl.
  destruct (String.eqb_spec entity_id "") as [->|_]; [done|].
  destruct (String.eqb_spec (Py.strip (extract_text_from_entity entity)) "")
    as [Hblank|_]; [done|].
  unfold_VE. rewrite Hv. unfold vectorizer_transform. by rewrite Hv.
Qed.

(** Once a space is fitted, the same call projects the text on the fitted
    vocabulary and stores the vector and the text; the vectorizer is not
    fitted again. *)
Lemma add_entity_embedding_fitted entity entity_id model self :
  vectorizer self = Some (Fitted model) →
  ed_id entity = Some entity_id →
  entity_id ≠ "" →
  Py.strip (extract_text_from_entity entity) ≠ "" →
  let text := extract_text_from_entity entity in
  let embedding := tfidf_transform model text in
  ∃ self',
    add_entity_embedding entity self = (Ok (Some embedding), self')
    ∧ vectorizer self' = Some (Fitted model)
    ∧ dict_get entity_id (embeddings self') = Some embedding
    ∧ dict_get entity_id (entity_texts self') = Some text.
Proof.
  intros Hv Hid Hne Htext. unfold add_entity_embedding. rewrite Hid. simpl.
  destruct (String.eqb_spec entity_id "") as [->|_]; [done|].
  destruct (String.eqb_spec (Py.strip (extract_text_from_entity entity)) "")
    as [Hblank|_]; [done|].
  unfold_VE. rewrite Hv. unfold vectorizer_transform. rewrite Hv. simpl.
  eexists. split; [reflexivity|]. simpl. split_and!; [done|apply dict_get_set_eq..].
Qed.

(** *** Fitting *)

(** Neither method ever resets the vectorizer to [None]. *)
Lemma store_vectors_vectorizer vectors entity_ids :
  ∀ i self,
    vectorizer (after (store_vectors vectors i entity_ids) self) = vectorizer self.
Proof.
  unfold after. induction entity_ids as [|k rest IH]; intros i self; [done|].
  cbn [store_vectors]. destruct (vectors !! i) as [x|]; [|done].
  unfold_VE. by rewrite IH.
Qed.



(** The first loop keeps the entities of [kept_entities] and writes their
    texts; it touches neither the vectors nor the vectorizer. *)
Lemma collect_texts_run entities :
  ∀ texts ids self,
    ∃ self',
      collect_texts entities texts ids self
      = (Ok (texts ++ (kept_entities entities).*2,
             ids ++ (kept_entities entities).*1), self')
      ∧ embeddings self' = embeddings self
      ∧ vectorizer self' = vectorizer self
      ∧ embedding_method self' = embedding_method self
      ∧ (kept_entities entities = [] → self' = self).
Proof.
  induction entities as [|entity rest IH]; intros texts ids self.
  - exists self. unfold kept_entities. simpl. unfold_VE. rewrite !app_nil_r.
    by split_and!.
  - cbn [collect_texts]. unfold kept_entities in *. cbn [omap list_omap].
    destruct (missing_id (ed_id entity)); [apply IH|].
    destruct (String.eqb (Py.strip (extract_text_from_entity entity)) "");
      cbn [negb]; [apply IH|].
    unfold_VE.
    match goal with
    | |- context [collect_texts rest ?t ?i ?s] =>
        destruct (IH t i s) as (self' & Hrun & He & Hv & Hm & _)
    end.
    exists self'. rewrite Hrun. rewrite !fmap_cons. simpl in *.
    rewrite <- !app_assoc. by split_and!.
Qed.

Lemma store_vectors_other vectors entity_id entity_ids :
  ∀ i self,
    entity_id ∉ entity_ids →
    dict_get entity_id (embeddings (after (store_vectors vectors i entity_ids) self))
    = dict_get entity_id (embeddings self).
Proof.
  unfold after. induction entity_ids as [|k rest IH]; intros i self Hnot; [done|].
  cbn [store_vectors]. destruct (vectors !! i) as [x|]; [|done].
  unfold_VE. rewrite IH by set_solver. simpl.
  apply dict_get_set_ne. set_solver.
Qed.

Lemma fit_embeddings_vectorizer entities self :
  vectorizer self ≠ None →
  vectorizer (after (fit_embeddings entities) self) ≠ None.
Proof.
  intros Hv. unfold after, fit_embeddings. destruct entities as [|e0 rest]; [done|].
  destruct (collect_texts_run (e0 :: rest) [] [] self)
    as (self' & Hrun & _ & Hv' & _ & _).
  remember (kept_entities (e0 :: rest)) as kept eqn:Hkept. clear Hkept.
  unfold_VE. rewrite Hrun. simpl. rewrite <- Hv' in Hv.
  destruct (kept.*2) as [|t ts]; [done|].
  destruct (String.eqb (embedding_method self') "tfidf"); [|done].
  unfold vectorizer_fit_transform. unfold_VE.
  destruct (vectorizer self') as [v|] eqn:Hvs; [|done].
  destruct (tfidf_fit_transform (max_features self') (t :: ts))
    as [[model vectors]|e]; [|simpl; by rewrite Hvs].
  simpl.
  match goal with
  | |- context [store_vectors ?vs ?i ?l ?s] =>
      pose proof (store_vectors_vectorizer vs l i s) as Hstore
  end.
  unfold after in Hstore. by rewrite Hstore.
Qed.

Lemma add_entity_embedding_vectorizer entity self :
  vectorizer self ≠ None →
  vectorizer (after (add_entity_embedding entity) self) ≠ None.
Proof.
  intros Hv. unfold after, add_entity_embedding.
  destruct (missing_id (ed_id entity)); [done|].
  destruct (String.eqb (Py.strip (extract_text_from_entity entity)) ""); [done|].
  unfold_VE. destruct (vectorizer self) as [v|] eqn:Hvs; [|done].
  unfold vectorizer_transform. rewrite Hvs. destruct v; simpl; by rewrite ?Hvs.
Qed.

(** *** Similarity search *)

Lemma insert_desc_perm x l : insert_desc x l ≡ₚ x :: l.
Proof.
  induction l as [|y l IH]; [done|]. simpl.
  destruct (Qle_bool x.2 y.2 && negb (Qle_bool y.2 x.2)); [|done].
  rewrite IH. apply Permutation_swap.
Qed.

Lemma sort_desc_perm l : sort_desc l ≡ₚ l.
Proof.
  induction l as [|x l IH]; [done|]. unfold sort_desc in *. simpl.
  by rewrite insert_desc_perm, IH.
Qed.

Lemma insert_desc_ranked x l : ranked l → ranked (insert_desc x l).
Proof.
  unfold ranked. induction 1 as [|y l Hl IH Hy]; simpl.
  - by repeat constructor.
  - destruct (Qle_bool x.2 y.2 && negb (Qle_bool y.2 x.2)) eqn:Hc.
    + apply andb_prop in Hc as [Hxy _]. apply Qle_bool_iff in Hxy.
      constructor; [done|]. rewrite insert_desc_perm. by constructor.
    + assert (Hyx : (y.2 <= x.2)%Q).
      { destruct (Qle_bool y.2 x.2) eqn:E; [by apply Qle_bool_iff|].
        rewrite andb_true_r in Hc.
        destruct (Qlt_le_dec x.2 y.2) as [Hlt|]; [|done].
        apply Qlt_le_weak, Qle_bool_iff in Hlt. congruence. }
      constructor; [by constructor|].
      constructor; [done|].
      eapply Forall_impl; [exact Hy|]. intros z Hz. simpl in *.
      by eapply Qle_trans.
Qed.

Lemma sort_desc_ranked l : ranked (sort_desc l).
Proof.
  induction l as [|x l IH]; [constructor|]. by apply insert_desc_ranked.
Qed.

Lemma slice_to_take {A} k (l : list A) : ∃ n, slice_to k l = take n l.
Proof. unfold slice_to. destruct (0 <=? k)%Z; by eexists. Qed.

Lemma slice_to_nil {A} k : slice_to k (@nil A) = [].
Proof. unfold slice_to. destruct (0 <=? k)%Z; apply take_nil. Qed.

Lemma ranked_take n l : ranked l → ranked (take n l).
Proof.
  unfold ranked. intros Hl. rewrite <- (take_drop n l) in Hl.
  by apply StronglySorted_app_1_l in Hl.
Qed.

Lemma scan_at_least query_vector threshold items similarities :
  scan query_vector threshold items = Ok similarities →
  similarities = at_least query_vector threshold items.
Proof.
  revert similarities. induction items as [|[entity_id embedding] rest IH];
    intros similarities; simpl.
  - by intros [= <-].
  - unfold at_least in *. cbn [omap list_omap]. simpl.
    unfold mbind, result_bind, mret, result_ret in *.
    destruct (cosine_similarity query_vector embedding) as [s|e]; [|done].
    destruct (scan query_vector threshold rest) as [more|e]; [|done].
    intros [= <-]. rewrite <- (IH more eq_refl).
    by destruct (Qle_bool threshold s).
Qed.

Lemma scan_total query_vector threshold items :
  (∀ item, item ∈ items → ∃ s, cosine_similarity query_vector item.2 = Ok s) →
  scan query_vector threshold items = Ok (at_least query_vector threshold items).
Proof.
  intros Htotal.
  destruct (scan query_vector threshold items) as [sims|e] eqn:Hscan.
  - by rewrite (scan_at_least _ _ _ _ Hscan).
  - exfalso. induction items as [|[entity_id embedding] rest IH]; [done|].
    simpl in Hscan. unfold mbind, result_bind, mret, result_ret in *.
    destruct (Htotal (entity_id, embedding)) as [s Hs]; [left|]. simpl in Hs.
    rewrite Hs in Hscan.
    destruct (scan query_vector threshold rest) as [more|e'] eqn:Hrest; [done|].
    apply IH; [|done]. intros item Hitem. apply Htotal. by right.
Qed.

Lemma at_least_elem query_vector threshold items r :
  r ∈ at_least query_vector threshold items →
  (threshold <= r.2)%Q
  ∧ ∃ embedding,
      (r.1, embedding) ∈ items ∧ cosine_similarity query_vector embedding = Ok r.2.
Proof.
  unfold at_least. intros ([entity_id embedding] & Hin & Hsome)%list_elem_of_omap.
  simpl in Hsome.
  destruct (cosine_similarity query_vector embedding) as [s|e] eqn:Hcos; [|done].
  destruct (Qle_bool threshold s) eqn:Hle; [|done].
  injection Hsome as <-. simpl. split; [by apply Qle_bool_iff|]. by exists embedding.
Qed.

(** What [semantic_search] returns: nothing, or the head of the sorted scan. *)
Lemma semantic_search_cases query top_k threshold self :
  semantic_search query top_k threshold self = []
  ∨ ∃ query_vector,
      vectorizer_transform (preprocess_text query) self = Ok query_vector
      ∧ semantic_search query top_k threshold self
        = slice_to top_k
            (sort_desc (at_least query_vector threshold (embeddings self))).
Proof.
  unfold semantic_search.
  destruct (embeddings self) as [|item items] eqn:Hemb; [by left|].
  destruct (String.eqb (Py.strip (preprocess_text query)) ""); [by left|].
  unfold mbind, result_bind, mret, result_ret.
  destruct (vectorizer_transform (preprocess_text query) self) as [qv|e]; [|by left].
  destruct (scan qv threshold (item :: items)) as [sims|e] eqn:Hscan; [|by left].
  right. exists qv. split; [done|]. by rewrite (scan_at_least _ _ _ _ Hscan).
Qed.

Lemma semantic_search_fitted query top_k threshold model self :
  vectorizer self = Some (Fitted model) →
  Py.strip (preprocess_text query) ≠ "" →
  let query_vector := tfidf_transform model (preprocess_text query) in
  (∀ item, item ∈ embeddings self →
           ∃ s, cosine_similarity query_vector item.2 = Ok s) →
  semantic_search query top_k threshold self
  = slice_to top_k (sort_desc (at_least query_vector threshold (embeddings self))).
Proof.
  intros Hv Hq query_vector Htotal. unfold semantic_search.
  destruct (embeddings self) as [|item items] eqn:Hemb;
    [unfold at_least; simpl; by rewrite slice_to_nil|].
  destruct (String.eqb_spec (Py.strip (preprocess_text query)) ""); [done|].
  unfold vectorizer_transform. rewrite Hv.
  unfold mbind, result_bind, mret, result_ret.
  fold query_vector. by rewrite (scan_total _ _ _ Htotal).
Qed.

(** C8. Whatever the embedder, the query and [top_k]: every pair returned
    by [semantic_search] is a stored entity with its cosine similarity to
    the query vector, and that similarity is at least the threshold; the
    pairs come in descending order of similarity; for a non-negative
    [top_k] there are at most [top_k] of them. On a fitted space, for a
    query whose normalized text is not blank and vectors the cosine is
    defined on, the result is exactly the first [top_k] of a descending
    arrangement of all the entities at or above the threshold. As 1.1 is
    above every value a cosine takes (it is at most 1, up to rounding), a
    threshold of 1.1 always gives the empty list. *)
Theorem semantic_search_ranked query top_k threshold self :
  (∀ x y s, cosine_similarity x y = Ok s → (s < 1.1)%Q) →
  let results := semantic_search query top_k threshold self in
  Forall (λ r, (threshold <= r.2)%Q
               ∧ ∃ query_vector embedding,
                   vectorizer_transform (preprocess_text query) self
                   = Ok query_vector
                   ∧ (r.1, embedding) ∈ embeddings self
                   ∧ cosine_similarity query_vector embedding = Ok r.2)
    results
  ∧ ranked results
  ∧ ((0 ≤ top_k)%Z → length results ≤ Z.to_nat top_k)
  ∧ (∀ model,
       vectorizer self = Some (Fitted model) →
       Py.strip (preprocess_text query) ≠ "" →
       let query_vector := tfidf_transform model (preprocess_text query) in
       (∀ item, item ∈ embeddings self →
                ∃ s, cosine_similarity query_vector item.2 = Ok s) →
       ∃ sorted,
         sorted ≡ₚ at_least query_vector threshold (embeddings self)
         ∧ ranked sorted
         ∧ results = slice_to top_k sorted
         ∧ ((0 ≤ top_k)%Z → results = take (Z.to_nat top_k) sorted))
  ∧ semantic_search query top_k 1.1%Q self = [].
Proof.
  intros Hbound results. split_and!.
  - subst results.
    destruct (semantic_search_cases query top_k threshold self)
      as [->|(qv & Hqv & ->)]; [constructor|].
    destruct (slice_to_take top_k
                (sort_desc (at_least qv threshold (embeddings self)))) as [n ->].
    apply Forall_take, Forall_forall. intros r Hr.
    rewrite sort_desc_perm in Hr.
    apply at_least_elem in Hr as [Hle (embedding & Hin & Hcos)].
    split; [done|]. by exists qv, embedding.
  - subst results.
    destruct (semantic_search_cases query top_k threshold self)
      as [->|(qv & Hqv & ->)]; [constructor|].
    destruct (slice_to_take top_k
                (sort_desc (at_least qv threshold (embeddings self)))) as [n ->].
    apply ranked_take, sort_desc_ranked.
  - intros Hk. subst results.
    destruct (semantic_search_cases query top_k threshold self)
      as [->|(qv & Hqv & ->)]; [simpl; lia|].
    unfold slice_to. rewrite (proj2 (Z.leb_le 0 top_k) Hk).
    rewrite length_take. lia.
  - intros model Hv Hq query_vector Htotal.
    exists (sort_desc (at_least query_vector threshold (embeddings self))).
    split_and!.
    + apply sort_desc_perm.
    + apply sort_desc_ranked.
    + by apply semantic_search_fitted.
    + intros Hk. subst results. rewrite (semantic_search_fitted _ _ _ model) by done.
      unfold slice_to. by rewrite (proj2 (Z.leb_le 0 top_k) Hk).
  - destruct (semantic_search_cases query top_k 1.1%Q self)
      as [->|(qv & Hqv & ->)]; [done|].
    assert (Hnone : at_least qv 1.1%Q (embeddings self) = []).
    { destruct (at_least qv 1.1%Q (embeddings self)) as [|r rest] eqn:Hat; [done|].
      assert (Hr : r ∈ at_least qv 1.1%Q (embeddings self)) by (rewrite Hat; left).
      apply at_least_elem in Hr as [Hle (embedding & _ & Hcos)].
      apply Hbound in Hcos. exfalso.
      by apply (Qlt_irrefl 1.1%Q), (Qle_lt_trans _ r.2). }
    rewrite Hnone. apply slice_to_nil.
Qed.

End EmbeddingFacts.

(** *** The statements above on the one-term vectorizer *)

Lemma add_entity_embedding_unfitted_witness :
  add_entity_embedding (nltk := bare_nltk) alice fresh_embedder
  = (Ok None, fresh_embedder).
Proof.
  apply (add_entity_embedding_unfitted (nltk := bare_nltk)
           (sklearn := one_term_sklearn) alice "a" fresh_embedder).
  - reflexivity.
  - reflexivity.
  - discriminate.
  - vm_compute. discriminate.
Defined.

Lemma semantic_search_ranked_witness :
  ranked (semantic_search (nltk := bare_nltk) "Person" 1 0.1%Q fitted_embedder)
  ∧ length (semantic_search (nltk := bare_nltk) "Person" 1 0.1%Q fitted_embedder) ≤ 1
  ∧ semantic_search (nltk := bare_nltk) "Person" 1 1.1%Q fitted_embedder = [].
Proof.
  assert (Hbound : ∀ (x y : ndarray (Sklearn := one_term_sklearn)) s,
             cosine_similarity (Sklearn := one_term_sklearn) x y = Ok s →
             (s < 1.1)%Q).
  { intros x y s [= <-]. unfold Qlt, inject_Z. simpl.
    destruct (Qnum x), (Qnum y); simpl; lia. }
  destruct (semantic_search_ranked (nltk := bare_nltk) (sklearn := one_term_sklearn)
              "Person" 1 0.1%Q fitted_embedder Hbound) as (_ & Hranked & Hlen & _ & _).
  destruct (semantic_search_ranked (nltk := bare_nltk) (sklearn := one_term_sklearn)
              "Person" 1 1.1%Q fitted_embedder Hbound) as (_ & _ & _ & _ & Hnone).
  split_and!; [exact Hranked|apply Hlen; lia|exact Hnone].
Defined.

(** * Further properties of the knowledge graph *)

(** ** The mutating methods *)

Lemma chain_reachable : reachable chain.
Proof.
  eapply reachable_step; [|apply step_add_relationship].
  eapply reachable_step; [|apply step_add_relationship].
  eapply reachable_step; [|apply step_add_entity].
  eapply reachable_step; [|apply step_add_entity].
  eapply reachable_step; [|apply step_add_entity].
  apply reachable_init.
Defined.

(** In every state reached from the empty graph through [add_entity],
    [update_entity], [add_relationship] and [remove_entity], the graph
    mirrors the two stores: its nodes are the keys of the entity map, in
    the same order and each once; every entity is stored under its own id;
    the attribute dictionaries of its edges, in insertion order, are the
    relationship list; every edge joins the source and the target of its
    relationship. *)
Theorem graph_mirrors_stores self :
  reachable self →
  dict_keys (nx.nodes (graph self)) = dict_keys (entities self)
  ∧ NoDup (dict_keys (entities self))
  ∧ Forall (λ ke, Entity.id ke.2 = ke.1) (entities self)
  ∧ nx.data <$> nx.edges (graph self) = relationships self
  ∧ Forall edge_mirrors (nx.edges (graph self)).
Proof.
  intros Hwf%reachable_wf. destruct Hwf. by split_and!.
Qed.

Lemma graph_mirrors_stores_witness :
  dict_keys (nx.nodes (graph chain)) = dict_keys (entities chain)
  ∧ NoDup (dict_keys (entities chain))
  ∧ Forall (λ ke, Entity.id ke.2 = ke.1) (entities chain)
  ∧ nx.data <$> nx.edges (graph chain) = relationships chain
  ∧ Forall edge_mirrors (nx.edges (graph chain)).
Proof. apply graph_mirrors_stores, chain_reachable. Defined.

(** On a well-formed graph a call of a mutating method that raises has
    changed nothing, and what it raises is the graph error: the tests come
    before the first assignment, and the graph calls that follow cannot
    fail. *)
Theorem failed_call_changes_nothing self :
  wf self →
  (∀ now entity_data e,
     (add_entity now entity_data self).1 = Raise e →
     add_entity now entity_data self
     = (Raise (KnowledgeGraphError "Entity must have an 'id' field"), self))
  ∧ (∀ now entity_id new_attributes e,
       (update_entity now entity_id new_attributes self).1 = Raise e →
       dict_mem entity_id (entities self) = false
       ∧ update_entity now entity_id new_attributes self
         = (Raise (KnowledgeGraphError ("Entity " +:+ entity_id +:+ " not found")),
            self))
  ∧ (∀ entity_id e,
       (remove_entity entity_id self).1 = Raise e →
       dict_mem entity_id (entities self) = false
       ∧ remove_entity entity_id self
         = (Raise (KnowledgeGraphError ("Entity " +:+ entity_id +:+ " not found")),
            self))
  ∧ (∀ now source_id target_id relation_type attributes confidence e,
       (add_relationship now source_id target_id relation_type attributes
          confidence self).1 = Raise e →
       (add_relationship now source_id target_id relation_type attributes
          confidence self).2 = self
       ∧ is_KnowledgeGraphError e = true).
Proof.
  intros Hwf. split_and!.
  - intros now entity_data e. unfold add_entity.
    destruct (missing_id (ed_id entity_data)); [done|]. unfold_M. simpl. done.
  - intros now entity_id new_attributes e. unfold update_entity, dict_mem. unfold_M.
    simpl. destruct (dict_get entity_id (entities self)) as [entity|] eqn:Hget;
      [|done].
    simpl. unfold nx.update_node. rewrite (has_node_wf _ _ Hwf).
    unfold dict_mem. rewrite Hget. simpl. done.
  - intros entity_id e. unfold remove_entity. unfold_M. simpl.
    destruct (dict_mem entity_id (entities self)) eqn:Hmem; [|done].
    simpl. unfold nx.remove_node. rewrite (has_node_wf _ _ Hwf), Hmem. simpl. done.
  - intros now source_id target_id relation_type attributes confidence e.
    unfold add_relationship. unfold_M. simpl.
    destruct (dict_mem source_id (entities self)); simpl; [|by intros [= <-]].
    destruct (dict_mem target_id (entities self)); simpl; [done|by intros [= <-]].
Qed.

Lemma failed_call_changes_nothing_witness :
  update_entity 9 "zed" [] chain
  = (Raise (KnowledgeGraphError "Entity zed not found"), chain)
  ∧ remove_entity "zed" chain
    = (Raise (KnowledgeGraphError "Entity zed not found"), chain).
Proof.
  destruct (failed_call_changes_nothing chain chain_wf) as (_ & Hu & Hr & _).
  split.
  - apply (Hu 9%Z "zed" [] (KnowledgeGraphError "Entity zed not found")).
    vm_compute. reflexivity.
  - apply (Hr "zed" (KnowledgeGraphError "Entity zed not found")).
    vm_compute. reflexivity.
Defined.

(** [add_entity] with a non-empty id returns the entity it built (type
    "unknown" and no attributes when these are not given); the entity is
    stored under its id; what is stored under the other ids is untouched;
    a new id comes last in the iteration order of the entity map; the
    relationship list is untouched. *)
Theorem add_entity_stores now entity_data entity_id self :
  ed_id entity_data = Some entity_id →
  entity_id ≠ "" →
  let entity := Entity.init now entity_id
                  (default "unknown" (ed_type entity_data))
                  (default [] (ed_attributes entity_data)) in
  ∃ self',
    add_entity now entity_data self = (Ok entity, self')
    ∧ dict_get entity_id (entities self') = Some entity
    ∧ (∀ k, k ≠ entity_id →
            dict_get k (entities self') = dict_get k (entities self))
    ∧ (dict_mem entity_id (entities self) = false →
       entities self' = entities self ++ [(entity_id, entity)])
    ∧ nx.has_node entity_id (graph self') = true
    ∧ relationships self' = relationships self.
Proof.
  intros Hid Hne entity. unfold add_entity. rewrite Hid. simpl.
  destruct (String.eqb_spec entity_id "") as [->|_]; [done|].
  unfold_M. simpl. eexists. split; [reflexivity|]. simpl. split_and!.
  - apply dict_get_set_eq.
  - intros k Hk. by apply dict_get_set_ne.
  - intros Hnew. clear -Hnew. unfold dict_mem in Hnew.
    induction (entities self) as [|[k' v'] d IH]; simpl in *; [done|].
    destruct (String.eqb entity_id k'); [done|]. by rewrite IH.
  - unfold nx.has_node. simpl. by rewrite dict_mem_set, String.eqb_refl.
  - done.
Qed.

Lemma add_entity_stores_witness :
  ∃ self',
    add_entity 7 (entity_data "d" "note" []) chain
    = (Ok (Entity.init 7 "d" "note" []), self')
    ∧ dict_get "d" (entities self') = Some (Entity.init 7 "d" "note" [])
    ∧ (∀ k, k ≠ "d" → dict_get k (entities self') = dict_get k (entities chain))
    ∧ (dict_mem "d" (entities chain) = false →
       entities self' = entities chain ++ [("d", Entity.init 7 "d" "note" [])])
    ∧ nx.has_node "d" (graph self') = true
    ∧ relationships self' = relationships chain.
Proof.
  apply (add_entity_stores 7 (entity_data "d" "note" []) "d" chain);
    [reflexivity|discriminate].
Defined.

Lemma dict_get_app {V} key (b c : list (string * V)) :
  dict_get key (b ++ c)
  = match dict_get key b with Some x => Some x | None => dict_get key c end.
Proof.
  induction b as [|[k v] b IH]; simpl; [done|].
  by destruct (String.eqb key k).
Qed.

Lemma dict_get_None_keys {V} key (d : list (string * V)) :
  dict_get key d = None ↔ key ∉ dict_keys d.
Proof.
  rewrite <- dict_mem_false_keys. unfold dict_mem.
  by destruct (dict_get key d).
Qed.

(** [a.update(b)] read key by key: the value of [b] where it has one, the
    value of [a] otherwise. *)
Lemma dict_get_update {V} key (a b : list (string * V)) :
  NoDup (dict_keys b) →
  dict_get key (dict_update a b)
  = match dict_get key b with Some x => Some x | None => dict_get key a end.
Proof.
  unfold dict_update. induction b as [|[k v] b IH] using rev_ind; intros Hnd; [done|].
  unfold dict_keys in Hnd. rewrite fmap_app in Hnd.
  apply NoDup_app in Hnd as (Hb & Hdisj & _).
  rewrite fold_left_app. cbn [fold_left fst snd]. rewrite dict_get_app. simpl.
  destruct (String.eqb_spec key k) as [->|Hne].
  - rewrite dict_get_set_eq.
    assert (Hk : dict_get k b = None).
    { apply dict_get_None_keys. intros Hin. apply (Hdisj k Hin). simpl. left. }
    by rewrite Hk.
  - rewrite dict_get_set_ne by done. rewrite (IH Hb).
    by destruct (dict_get key b).
Qed.

(** [update_entity] on a stored id merges: the entity keeps its id, its
    type and its creation time, is stamped with the time of the call, and
    each attribute key now reads the new value where one is given and the
    old value otherwise. The keys of the map and their order and the
    relationship list are untouched, and every other entity keeps its id,
    its type and its two time stamps. Nothing is said of the attributes of
    the other entities: [Entity.__init__] keeps the dictionary it is given,
    and [update_attributes] changes that dictionary in place, so an entity
    that was built on the same dictionary object changes with it. *)
Theorem update_entity_merges now entity_id new_attributes entity self :
  wf self →
  dict_get entity_id (entities self) = Some entity →
  NoDup (dict_keys new_attributes) →
  ∃ self' entity',
    update_entity now entity_id new_attributes self = (Ok tt, self')
    ∧ dict_get entity_id (entities self') = Some entity'
    ∧ Entity.id entity' = Entity.id entity
    ∧ Entity.type entity' = Entity.type entity
    ∧ Entity.created_at entity' = Entity.created_at entity
    ∧ Entity.updated_at entity' = now
    ∧ (∀ key,
         dict_get key (Entity.attributes entity')
         = match dict_get key new_attributes with
           | Some x => Some x
           | None => dict_get key (Entity.attributes entity)
           end)
    ∧ dict_keys (entities self') = dict_keys (entities self)
    ∧ (∀ k other,
         k ≠ entity_id →
         dict_get k (entities self) = Some other →
         ∃ other',
           dict_get k (entities self') = Some other'
           ∧ Entity.id other' = Entity.id other
           ∧ Entity.type other' = Entity.type other
           ∧ Entity.created_at other' = Entity.created_at other
           ∧ Entity.updated_at other' = Entity.updated_at other)
    ∧ relationships self' = relationships self.
Proof.
  intros Hwf Hget Hnd. unfold update_entity. unfold_M. simpl. rewrite Hget. simpl.
  unfold nx.update_node. rewrite (has_node_wf _ _ Hwf). unfold dict_mem at 1.
  rewrite Hget. simpl.
  eexists _, (Entity.update_attributes now new_attributes entity).
  split; [reflexivity|]. simpl. split_and!; try done.
  - apply dict_get_set_eq.
  - intros key. by apply dict_get_update.
  - rewrite dict_keys_set. unfold keys_set.
    rewrite bool_decide_eq_true_2; [done|].
    apply dict_mem_keys. unfold dict_mem. by rewrite Hget.
  - intros k other Hk Hother. exists other.
    by rewrite dict_get_set_ne.
Qed.

Lemma update_entity_merges_witness :
  ∃ self' entity',
    update_entity 9 "a" [("title", VStr "Intro")] chain = (Ok tt, self')
    ∧ dict_get "a" (entities self') = Some entity'
    ∧ Entity.id entity' = "a"
    ∧ Entity.updated_at entity' = 9%Z
    ∧ dict_get "title" (Entity.attributes entity') = Some (VStr "Intro")
    ∧ ∃ other', dict_get "b" (entities self') = Some other'
                ∧ Entity.updated_at other' = 2%Z.
Proof.
  destruct (update_entity_merges 9 "a" [("title", VStr "Intro")]
              (Entity.init 1 "a" "note" []) chain chain_wf eq_refl
              (NoDup_singleton "title"))
    as (self' & entity' & Hrun & Hget & Hid & _ & _ & Hup & Hattrs & _ & Hothers & _).
  exists self', entity'. split_and!; try done.
  destruct (Hothers "b" (Entity.init 2 "b" "note" [])) as (other' & Hb & _ & _ & _ & Hu);
    [done|reflexivity|].
  by exists other'.
Defined.

(** ** Reading relationships back *)

Lemma filter_disjoint_or {A} (P Q : A → Prop) `{∀ x, Decision (P x)}
    `{∀ x, Decision (Q x)} (l : list A) :
  (∀ x, P x → Q x → False) →
  filter P l ++ filter Q l ≡ₚ filter (λ x, P x ∨ Q x) l.
Proof.
  intros Hdisj. induction l as [|x l IH]; [done|].
  rewrite !filter_cons.
  destruct (decide (P x)) as [HP|HP], (decide (Q x)) as [HQ|HQ].
  - destruct (Hdisj x HP HQ).
  - rewrite decide_True by by left. simpl. by rewrite IH.
  - rewrite decide_True by by right. rewrite <- Permutation_middle. by rewrite IH.
  - rewrite decide_False by (intros [?|?]; done). done.
Qed.

Lemma filter_all {A} (P : A → Prop) `{∀ x, Decision (P x)} (l : list A) :
  (∀ x, x ∈ l → P x) → filter P l = l.
Proof.
  induction l as [|x l IH]; intros Hall; [done|].
  rewrite filter_cons_True by (apply Hall; left).
  rewrite IH; [done|]. intros y Hy. apply Hall. by right.
Qed.

Lemma filter_none {A} (P : A → Prop) `{∀ x, Decision (P x)} (l : list A) :
  (∀ x, x ∈ l → ¬ P x) → filter P l = [].
Proof.
  induction l as [|x l IH]; intros Hnone; [done|].
  rewrite filter_cons_False by (apply Hnone; left).
  apply IH. intros y Hy. apply Hnone. by right.
Qed.

(** Grouping a list by a key, the keys taken once each, rearranges it. *)
Lemma group_by_key {A} (k : A → string) (ts : list string) (l : list A) :
  NoDup ts →
  (ts ≫= λ t, filter (λ x, k x = t) l) ≡ₚ filter (λ x, k x ∈ ts) l.
Proof.
  induction 1 as [|t ts Ht Hnd IH].
  - simpl. symmetry. rewrite filter_none; [done|]. intros x _ Hx.
    by apply elem_of_nil in Hx.
  - rewrite bind_cons, IH.
    rewrite (filter_disjoint_or (λ x, k x = t) (λ x, k x ∈ ts)).
    + erewrite list_filter_iff; [done|]. intros x. simpl.
      rewrite elem_of_cons. done.
    + intros x <- Hin. done.
Qed.

Lemma uniq_go_spec seen l :
  NoDup (nx.uniq_go seen l)
  ∧ ∀ x, x ∈ nx.uniq_go seen l ↔ x ∈ l ∧ x ∉ seen.
Proof.
  revert seen. induction l as [|y l IH]; intros seen; simpl.
  - split; [constructor|]. intros x. split; [by intros ?%elem_of_nil|].
    by intros [?%elem_of_nil _].
  - case_bool_decide as Hy.
    + destruct (IH seen) as [Hnd Hin]. split; [done|]. intros x.
      rewrite Hin, elem_of_cons. split; [naive_solver|].
      intros [[->|Hx] Hs]; [done|]. done.
    + destruct (IH (y :: seen)) as [Hnd Hin]. split.
      * constructor; [|done]. rewrite Hin. intros [_ Hno]. apply Hno. left.
      * intros x. rewrite !elem_of_cons, Hin, elem_of_cons.
        split.
        -- intros [->|[Hx Hno]]; [split; [by left|done]|].
           split; [by right|]. intros Hs. apply Hno. by right.
        -- intros [[->|Hx] Hs]; [by left|].
           destruct (decide (x = y)) as [->|Hne]; [by left|].
           right. split; [done|]. by intros [?|?].
Qed.

Lemma uniq_NoDup l : NoDup (nx.uniq l).
Proof. apply uniq_go_spec. Qed.

Lemma elem_of_uniq x l : x ∈ nx.uniq l ↔ x ∈ l.
Proof.
  unfold nx.uniq. rewrite (proj2 (uniq_go_spec [] l)).
  split; [by intros [? _]|]. intros Hx. split; [done|]. by intros ?%elem_of_nil.
Qed.

Lemma collect_edges_ok get_edges (f : string → list nx.edge) relation_type ns :
  (∀ n, n ∈ ns → get_edges n = Ok (f n)) →
  collect_edges get_edges relation_type ns
  = Ok (nx.data <$> filter (λ e, type_matches relation_type e = true) (ns ≫= f)).
Proof.
  induction ns as [|n ns IH]; intros Hget; [done|].
  cbn [collect_edges]. unfold mbind at 1, result_bind.
  rewrite (Hget n) by left.
  unfold mbind at 1, result_bind. rewrite IH.
  - unfold mret, result_ret. by rewrite bind_cons, filter_app, fmap_app.
  - intros m Hm. apply Hget. by right.
Qed.

Lemma collect_edges_perm get_edges relation_type ns (k : nx.edge → string)
    (L : list nx.edge) :
  NoDup ns →
  (∀ e, e ∈ L → k e ∈ ns) →
  (∀ n, n ∈ ns → get_edges n = Ok (filter (λ e, k e = n) L)) →
  ∃ found,
    collect_edges get_edges relation_type ns = Ok found
    ∧ found ≡ₚ nx.data <$> filter (λ e, type_matches relation_type e = true) L.
Proof.
  intros Hnd Hall Hget.
  exists (nx.data <$> filter (λ e, type_matches relation_type e = true)
                        (ns ≫= λ n, filter (λ e, k e = n) L)).
  split; [by apply (collect_edges_ok _ (λ n, filter (λ e, k e = n) L))|].
  rewrite (group_by_key k ns L Hnd). by rewrite (filter_all _ L).
Qed.

Lemma type_matches_of_type relation_type e :
  type_matches relation_type e = true ↔ of_type relation_type (nx.data e).
Proof.
  destruct relation_type as [t|]; simpl; [|done].
  rewrite orb_true_iff. split.
  - intros [Ht|Ht]; [left; by apply String.eqb_eq|right; by apply String.eqb_eq].
  - intros [->|<-]; [by left|right; apply String.eqb_refl].
Qed.

Lemma fmap_filter_outgoing entity_id relation_type es :
  Forall edge_mirrors es →
  nx.data <$> filter (λ e, type_matches relation_type e = true)
                (filter (λ e, nx.u e = entity_id) es)
  = filter (λ rel, Relationship.source_id rel = entity_id
                   ∧ of_type relation_type rel) (nx.data <$> es).
Proof.
  induction 1 as [|e es [Hu Hv] Hes IH]; [done|].
  rewrite fmap_cons, !filter_cons, <- Hu.
  destruct (decide (nx.u e = entity_id)) as [Hue|Hue].
  - rewrite filter_cons.
    destruct (decide (type_matches relation_type e = true)) as [Ht|Ht].
    + rewrite decide_True by (split; [done|by apply type_matches_of_type]).
      by rewrite fmap_cons, IH.
    + rewrite decide_False; [done|]. intros [_ Ho]. by apply Ht, type_matches_of_type.
  - rewrite decide_False; [done|]. by intros [? _].
Qed.

Lemma fmap_filter_incoming entity_id relation_type es :
  Forall edge_mirrors es →
  nx.data <$> filter (λ e, type_matches relation_type e = true)
                (filter (λ e, nx.v e = entity_id) es)
  = filter (λ rel, Relationship.target_id rel = entity_id
                   ∧ of_type relation_type rel) (nx.data <$> es).
Proof.
  induction 1 as [|e es [Hu Hv] Hes IH]; [done|].
  rewrite fmap_cons, !filter_cons, <- Hv.
  destruct (decide (nx.v e = entity_id)) as [Hve|Hve].
  - rewrite filter_cons.
    destruct (decide (type_matches relation_type e = true)) as [Ht|Ht].
    + rewrite decide_True by (split; [done|by apply type_matches_of_type]).
      by rewrite fmap_cons, IH.
    + rewrite decide_False; [done|]. intros [_ Ho]. by apply Ht, type_matches_of_type.
  - rewrite decide_False; [done|]. by intros [? _].
Qed.

Lemma getitem2_ok a b g :
  nx.has_node a g = true →
  (∃ e, e ∈ nx.edges g ∧ nx.u e = a ∧ nx.v e = b) →
  nx.getitem2 a b g = Ok (nx.edges_between a b g).
Proof.
  intros Hnode (e & Hin & Hu & Hv). unfold nx.getitem2. rewrite Hnode.
  destruct (nx.edges_between a b g) as [|e' es] eqn:Hes; [|done].
  assert (He : e ∈ nx.edges_between a b g)
    by (unfold nx.edges_between; by apply list_elem_of_filter).
  rewrite Hes in He. by apply elem_of_nil in He.
Qed.

Lemma wf_edge_nodes self e :
  wf self → e ∈ nx.edges (graph self) →
  nx.has_node (nx.u e) (graph self) = true
  ∧ nx.has_node (nx.v e) (graph self) = true.
Proof.
  intros Hwf He. rewrite !(has_node_wf _ _ Hwf).
  pose proof (wf_ends _ Hwf) as Hends. rewrite Forall_forall in Hends.
  destruct (Hends _ He) as [-> ->].
  pose proof (wf_refs _ Hwf) as Hrefs. rewrite Forall_forall in Hrefs.
  apply Hrefs. rewrite <- (wf_edges _ Hwf). apply list_elem_of_fmap. by exists e.
Qed.

(** The two halves of the answer of [find_relationships]. *)
Lemma find_relationships_split entity_id relation_type self :
  wf self →
  dict_mem entity_id (entities self) = true →
  ∃ outgoing incoming,
    find_relationships entity_id relation_type self = Ok (outgoing ++ incoming)
    ∧ outgoing
      ≡ₚ filter (λ rel, Relationship.source_id rel = entity_id
                        ∧ of_type relation_type rel) (relationships self)
    ∧ incoming
      ≡ₚ filter (λ rel, Relationship.target_id rel = entity_id
                        ∧ of_type relation_type rel) (relationships self).
Proof.
  intros Hwf Hmem. unfold find_relationships. rewrite Hmem. simpl.
  unfold nx.successors, nx.predecessors.
  rewrite (has_node_wf _ _ Hwf), Hmem.
  set (g := graph self).
  set (Lout := filter (λ e, nx.u e = entity_id) (nx.edges g)).
  set (Lin := filter (λ e, nx.v e = entity_id) (nx.edges g)).
  destruct (collect_edges_perm (λ target_id, nx.getitem2 entity_id target_id g)
              relation_type (nx.uniq (nx.v <$> Lout)) nx.v Lout)
    as (outgoing & Hout & Hpout).
  { apply uniq_NoDup. }
  { intros e He. apply elem_of_uniq, list_elem_of_fmap. by exists e. }
  { intros t Ht. apply elem_of_uniq, list_elem_of_fmap in Ht as (e & -> & He).
    apply list_elem_of_filter in He as [Hu He].
    rewrite getitem2_ok.
    - f_equal. unfold nx.edges_between, Lout. rewrite list_filter_filter.
      apply list_filter_iff. intros x. naive_solver.
    - subst g. by rewrite (has_node_wf _ _ Hwf).
    - by exists e. }
  destruct (collect_edges_perm (λ source_id, nx.getitem2 source_id entity_id g)
              relation_type (nx.uniq (nx.u <$> Lin)) nx.u Lin)
    as (incoming & Hin & Hpin).
  { apply uniq_NoDup. }
  { intros e He. apply elem_of_uniq, list_elem_of_fmap. by exists e. }
  { intros s Hs. apply elem_of_uniq, list_elem_of_fmap in Hs as (e & -> & He).
    apply list_elem_of_filter in He as [Hv He].
    rewrite getitem2_ok.
    - f_equal. unfold nx.edges_between, Lin. rewrite list_filter_filter.
      apply list_filter_iff. intros x. naive_solver.
    - by apply (wf_edge_nodes self e).
    - by exists e. }
  exists outgoing, incoming. split_and!.
  - unfold mbind, result_bind, mret, result_ret. by rewrite Hout, Hin.
  - rewrite Hpout. unfold Lout, g.
    by rewrite fmap_filter_outgoing, (wf_edges _ Hwf) by apply Hwf.
  - rewrite Hpin. unfold Lin, g.
    by rewrite fmap_filter_incoming, (wf_edges _ Hwf) by apply Hwf.
Qed.

(** On a well-formed graph [find_relationships] on a stored id returns (it
    does not raise), first the outgoing relationships, then the incoming
    ones: the outgoing part is a rearrangement of the relationships of the
    list whose source is the id and which pass the type filter, the incoming
    part of those whose target is the id. Nothing is lost or invented, and
    a relationship from the id to itself is returned twice. *)
Theorem find_relationships_exact entity_id relation_type self :
  wf self →
  dict_mem entity_id (entities self) = true →
  ∃ outgoing incoming,
    find_relationships entity_id relation_type self = Ok (outgoing ++ incoming)
    ∧ outgoing
      ≡ₚ filter (λ rel, Relationship.source_id rel = entity_id
                        ∧ of_type relation_type rel) (relationships self)
    ∧ incoming
      ≡ₚ filter (λ rel, Relationship.target_id rel = entity_id
                        ∧ of_type relation_type rel) (relationships self).
Proof. apply find_relationships_split. Qed.

Lemma looped_wf : wf looped.
Proof. unfold looped, after. apply add_relationship_wf, chain_wf. Defined.

Lemma find_relationships_exact_witness :
  ∃ outgoing incoming,
    find_relationships "a" None looped = Ok (outgoing ++ incoming)
    ∧ outgoing
      ≡ₚ filter (λ rel, Relationship.source_id rel = "a" ∧ of_type None rel)
           (relationships looped)
    ∧ incoming
      ≡ₚ filter (λ rel, Relationship.target_id rel = "a" ∧ of_type None rel)
           (relationships looped).
Proof.
  apply (find_relationships_exact "a" None looped looped_wf).
  vm_compute. reflexivity.
Defined.

(** A relationship that [add_relationship] has just added is found from both
    of its ends, with no filter or with its own type as the filter. *)
Theorem add_relationship_then_find now source_id target_id relation_type
    attributes confidence self :
  wf self →
  dict_mem source_id (entities self) = true →
  dict_mem target_id (entities self) = true →
  ∃ relationship self' from_source from_target,
    add_relationship now source_id target_id relation_type attributes
      confidence self = (Ok relationship, self')
    ∧ relationships self' = relationships self ++ [relationship]
    ∧ entities self' = entities self
    ∧ find_relationships source_id (Some relation_type) self' = Ok from_source
    ∧ relationship ∈ from_source
    ∧ find_relationships target_id None self' = Ok from_target
    ∧ relationship ∈ from_target.
Proof.
  intros Hwf Hs Ht.
  pose proof (add_relationship_wf now source_id target_id relation_type
                attributes confidence self Hwf) as Hwf'.
  pose proof (add_relationship_ok now source_id target_id relation_type
                attributes confidence self Hs Ht) as Hrun.
  cbn zeta in Hrun. rewrite Hrun in Hwf'. simpl in Hwf'.
  set (relationship := Relationship.init now source_id target_id relation_type
                         attributes confidence) in *.
  set (self' := {| graph := _ |}) in *.
  destruct (find_relationships_split source_id (Some relation_type) self' Hwf' Hs)
    as (o1 & i1 & Hf1 & Ho1 & _).
  destruct (find_relationships_split target_id None self' Hwf' Ht)
    as (o2 & i2 & Hf2 & _ & Hi2).
  exists relationship, self', (o1 ++ i1), (o2 ++ i2).
  split_and!; try done.
  - apply elem_of_app. left. rewrite Ho1. apply list_elem_of_filter.
    split; [split; [done|by right]|]. simpl. apply elem_of_app. right. left.
  - apply elem_of_app. right. rewrite Hi2. apply list_elem_of_filter.
    split; [done|]. simpl. apply elem_of_app. right. left.
Qed.

Lemma add_relationship_then_find_witness :
  ∃ relationship self' from_source from_target,
    add_relationship 9 "c" "a" "cites" None 1 chain = (Ok relationship, self')
    ∧ relationships self' = relationships chain ++ [relationship]
    ∧ entities self' = entities chain
    ∧ find_relationships "c" (Some "cites") self' = Ok from_source
    ∧ relationship ∈ from_source
    ∧ find_relationships "a" None self' = Ok from_target
    ∧ relationship ∈ from_target.
Proof.
  apply (add_relationship_then_find 9 "c" "a" "cites" None 1 chain chain_wf);
    vm_compute; reflexivity.
Defined.

(** ** Searching entities *)

Lemma search_attributes_elem query_lower entity items e :
  e ∈ search_attributes query_lower entity items
  ↔ e = entity
    ∧ ∃ key x, (key, x) ∈ items ∧ attribute_matches query_lower x = true.
Proof.
  induction items as [|[key x] rest IH]; simpl.
  - split; [by intros ?%elem_of_nil|]. intros [_ (? & ? & ?%elem_of_nil & _)]. done.
  - assert (Hrest : e ∈ search_attributes query_lower entity rest →
                    e = entity ∧ ∃ key0 x0, (key0, x0) ∈ (key, x) :: rest
                      ∧ attribute_matches query_lower x0 = true).
    { intros (-> & k0 & x0 & Hin & Hm)%IH. split; [done|].
      exists k0, x0. split; [by right|done]. }
    assert (Hback : ∀ k0 x0, e = entity → (k0, x0) ∈ (key, x) :: rest →
                      attribute_matches query_lower x0 = true →
                      attribute_matches query_lower x = false →
                      e ∈ search_attributes query_lower entity rest).
    { intros k0 x0 Heq [[= -> ->]|Hin]%elem_of_cons Hm Hx; [congruence|].
      apply IH. split; [done|]. by exists k0, x0. }
    destruct x as [| b | q | s | l | d]; simpl.
    1-3,6: split; [done|]; intros (Heq & k0 & x0 & Hin & Hm);
      by apply (Hback k0 x0 Heq Hin Hm).
    + destruct (Py.contains query_lower (Py.lower s)) eqn:Hs.
      * rewrite list_elem_of_singleton. split.
        -- intros ->. split; [done|]. exists key, (VStr s). split; [left|done].
        -- by intros [-> _].
      * split; [done|]. intros (Heq & k0 & x0 & Hin & Hm).
        by apply (Hback k0 x0 Heq Hin Hm).
    + destruct (existsb (item_matches query_lower) l) eqn:Hl.
      * rewrite elem_of_app, list_elem_of_singleton. split.
        -- intros [->|He]; [|by apply Hrest].
           split; [done|]. exists key, (VList l). split; [left|done].
        -- intros [-> _]. by left.
      * simpl. split; [done|]. intros (Heq & k0 & x0 & Hin & Hm).
        by apply (Hback k0 x0 Heq Hin Hm).
Qed.

(** [search_entities] lists exactly the stored entities that pass the type
    filter and whose id, or one of whose attributes (a string, or a string
    inside a list), contains the query, case folded. Numbers, booleans and
    nested dictionaries are never searched. *)
Theorem search_entities_exact query entity_type self e :
  e ∈ search_entities query entity_type self
  ↔ e ∈ dict_values (entities self)
    ∧ other_type entity_type e = false
    ∧ (Py.contains (Py.lower query) (Py.lower (Entity.id e)) = true
       ∨ ∃ key x, (key, x) ∈ Entity.attributes e
                  ∧ attribute_matches (Py.lower query) x = true).
Proof.
  unfold search_entities. rewrite list_elem_of_In, in_flat_map. split.
  - intros (entity & Hin%list_elem_of_In & He%list_elem_of_In).
    unfold search_entity in He.
    destruct (other_type entity_type entity) eqn:Hty; [by apply elem_of_nil in He|].
    destruct (Py.contains (Py.lower query) (Py.lower (Entity.id entity))) eqn:Hid.
    + apply list_elem_of_singleton in He as ->. split_and!; [done|done|by left].
    + apply search_attributes_elem in He as (-> & Hattr). split_and!; [done|done|by right].
  - intros (Hin & Hty & Hmatch). exists e. split; [by apply list_elem_of_In|].
    apply list_elem_of_In. unfold search_entity. rewrite Hty.
    destruct (Py.contains (Py.lower query) (Py.lower (Entity.id e))) eqn:Hid; [left|].
    destruct Hmatch as [?|Hattr]; [done|]. by apply search_attributes_elem.
Qed.

Lemma contains_empty s : Py.contains "" s = true.
Proof. by destruct s. Qed.

(** The empty query matches every id: [search_entities] then lists every
    stored entity that passes the type filter, once each, in the order of
    the entity map. *)
Theorem search_entities_empty_query entity_type self :
  search_entities "" entity_type self
  = filter (λ e, other_type entity_type e = false) (dict_values (entities self)).
Proof.
  unfold search_entities. simpl.
  induction (dict_values (entities self)) as [|e l IH]; [done|].
  simpl. rewrite IH, filter_cons. unfold search_entity.
  destruct (other_type entity_type e); simpl; [done|].
  by rewrite contains_empty.
Qed.

(** ** Statistics *)

Lemma count_step_get t x (counts : list (string * nat)) :
  default 0 (dict_get t (dict_set x (default 0 (dict_get x counts) + 1) counts))
  = default 0 (dict_get t counts) + (if bool_decide (x = t) then 1 else 0).
Proof.
  case_bool_decide as Hx.
  - subst. by rewrite dict_get_set_eq.
  - rewrite dict_get_set_ne by done. lia.
Qed.

Lemma count_fold_get t (l : list string) :
  ∀ counts,
    default 0 (dict_get t
      (fold_left (λ counts t, dict_set t (default 0 (dict_get t counts) + 1) counts)
         l counts))
    = default 0 (dict_get t counts) + length (filter (λ x, x = t) l).
Proof.
  induction l as [|x l IH]; intros counts; simpl; [lia|].
  rewrite IH, count_step_get, filter_cons.
  case_bool_decide; [rewrite decide_True by done|rewrite decide_False by done];
    simpl; lia.
Qed.

Lemma count_step_sum x (counts : list (string * nat)) :
  sum_list (dict_values (dict_set x (default 0 (dict_get x counts) + 1) counts))
  = sum_list (dict_values counts) + 1.
Proof.
  unfold dict_values.
  induction counts as [|[k n] counts IH]; [done|].
  cbn [dict_get dict_set]. destruct (String.eqb x k).
  - rewrite !fmap_cons. simpl. lia.
  - rewrite !fmap_cons. cbn [snd]. change (sum_list (?a :: ?l)) with (a + sum_list l).
    rewrite IH. lia.
Qed.

Lemma count_fold_sum (l : list string) :
  ∀ counts,
    sum_list (dict_values
      (fold_left (λ counts t, dict_set t (default 0 (dict_get t counts) + 1) counts)
         l counts))
    = sum_list (dict_values counts) + length l.
Proof.
  induction l as [|x l IH]; intros counts; simpl; [lia|].
  rewrite IH, count_step_sum. lia.
Qed.

Lemma length_filter_fmap {A B} (f : A → B) (P : B → Prop) `{∀ y, Decision (P y)}
    (l : list A) :
  length (filter P (f <$> l)) = length (filter (λ x, P (f x)) l).
Proof.
  induction l as [|x l IH]; [done|].
  rewrite fmap_cons, !filter_cons. destruct (decide (P (f x))); simpl; by rewrite IH.
Qed.

(** The per-type tables of [get_graph_stats] count what they say: the
    number under a type is the number of entities (of relationships) of
    that type, a type that does not occur has no entry, and the numbers of a
    table add up to the total beside it. *)
Theorem get_graph_stats_counts self :
  let stats := get_graph_stats self in
  total_entities stats = length (entities self)
  ∧ total_relationships stats = length (relationships self)
  ∧ (∀ t, default 0 (dict_get t (entity_types stats))
          = length (filter (λ e, Entity.type e = t) (dict_values (entities self))))
  ∧ (∀ t, default 0 (dict_get t (relationship_types stats))
          = length (filter (λ rel, Relationship.type rel = t) (relationships self)))
  ∧ (∀ t, dict_get t (entity_types stats) ≠ Some 0)
  ∧ (∀ t, dict_get t (relationship_types stats) ≠ Some 0)
  ∧ sum_list (dict_values (entity_types stats)) = total_entities stats
  ∧ sum_list (dict_values (relationship_types stats)) = total_relationships stats.
Proof.
  assert (Hpos : ∀ (l : list string) t, dict_get t (count_types l) ≠ Some 0).
  { intros l t. unfold count_types.
    induction l as [|x l IH] using rev_ind; [done|].
    rewrite fold_left_app. simpl.
    destruct (String.eqb_spec x t) as [->|Hne].
    - rewrite dict_get_set_eq. intros [= Hz]. lia.
    - by rewrite dict_get_set_ne. }
  intros stats. subst stats. unfold get_graph_stats.
  cbn [total_entities total_relationships entity_types relationship_types].
  split_and!; try done.
  - intros t. unfold count_types. rewrite count_fold_get. simpl.
    by rewrite length_filter_fmap.
  - intros t. unfold count_types. rewrite count_fold_get. simpl.
    by rewrite length_filter_fmap.
  - unfold count_types. rewrite count_fold_sum. simpl. unfold dict_values.
    by rewrite !length_fmap.
  - unfold count_types. rewrite count_fold_sum. simpl. by rewrite length_fmap.
Qed.

(** On a well-formed graph the density that [get_graph_stats] reads off the
    graph is the one of the stores: 0 without relationships or with at most
    one entity, and otherwise the number of relationships over n (n - 1)
    for n entities. Parallel relationships count, so it can exceed 1. *)
Theorem get_graph_stats_density self :
  wf self →
  let n := length (entities self) in
  let m := length (relationships self) in
  graph_density (get_graph_stats self)
  = if (m =? 0) || (n <=? 1) then 0%Q
    else (inject_Z (Z.of_nat m) / inject_Z (Z.of_nat (n * (n - 1))))%Q.
Proof.
  intros Hwf. simpl. unfold nx_density.
  assert (Hn : length (nx.nodes (graph self)) = length (entities self)).
  { rewrite <- (length_fmap fst (nx.nodes (graph self))),
      <- (length_fmap fst (entities self)).
    f_equal. apply Hwf. }
  assert (Hm : length (nx.edges (graph self)) = length (relationships self)).
  { rewrite <- (wf_edges _ Hwf). by rewrite length_fmap. }
  by rewrite Hn, Hm.
Qed.

Lemma get_graph_stats_density_witness :
  graph_density (get_graph_stats chain) = (2 / 6)%Q.
Proof. apply (get_graph_stats_density chain chain_wf). Defined.

Lemma count_components_le g vs seen : count_components g vs seen ≤ length vs.
Proof.
  revert seen. induction vs as [|node rest IH]; intros seen; simpl; [done|].
  case_bool_decide; [specialize (IH seen)|specialize (IH (seen ∪ nx_component g node))];
    lia.
Qed.

Lemma within_hops_no_edges g depth s :
  nx.edges g = [] → within_hops g depth s = s.
Proof.
  intros Hnone. revert s. induction depth as [|d IH]; intros s; [done|].
  simpl. rewrite IH. unfold hop. rewrite Hnone. simpl. set_solver.
Qed.

Lemma count_components_no_edges g vs seen :
  nx.edges g = [] → NoDup vs → (∀ x, x ∈ vs → x ∉ seen) →
  count_components g vs seen = length vs.
Proof.
  intros Hnone Hnd. revert seen.
  induction Hnd as [|node rest Hnode Hnd IH]; intros seen Hfresh; [done|].
  simpl. rewrite bool_decide_eq_false_2 by (apply Hfresh; left).
  f_equal. apply IH. intros x Hx.
  unfold nx_component. rewrite within_hops_no_edges by done.
  assert (x ≠ node) by (intros ->; done).
  assert (x ∉ seen) by (apply Hfresh; by right).
  set_solver.
Qed.

(** On a well-formed graph the number of weakly connected components that
    [get_graph_stats] reports is at most the number of entities, at least
    one when there is an entity, and exactly the number of entities when
    there is no relationship. *)
Theorem get_graph_stats_components self :
  wf self →
  let stats := get_graph_stats self in
  connected_components stats ≤ total_entities stats
  ∧ (entities self ≠ [] → 1 ≤ connected_components stats)
  ∧ (relationships self = [] → connected_components stats = total_entities stats).
Proof.
  intros Hwf stats. subst stats. unfold get_graph_stats.
  cbn [connected_components total_entities].
  unfold nx_number_weakly_connected_components.
  assert (Hlen : length (dict_keys (nx.nodes (graph self))) = length (entities self)).
  { rewrite (wf_nodes _ Hwf). unfold dict_keys. by rewrite length_fmap. }
  split_and!.
  - rewrite <- Hlen. apply count_components_le.
  - intros Hne. rewrite (wf_nodes _ Hwf).
    destruct (entities self) as [|[k e] ents]; [done|].
    unfold dict_keys. rewrite fmap_cons. simpl.
    rewrite bool_decide_eq_false_2 by set_solver. lia.
  - intros Hnone. rewrite <- Hlen. apply count_components_no_edges.
    + pose proof (wf_edges _ Hwf) as Hedges. rewrite Hnone in Hedges.
      by apply fmap_nil_inv in Hedges.
    + rewrite (wf_nodes _ Hwf). apply Hwf.
    + intros x _. set_solver.
Qed.

Lemma get_graph_stats_components_witness :
  connected_components (get_graph_stats three_notes) = 3
  ∧ connected_components (get_graph_stats chain) ≤ 3.
Proof.
  assert (Hwf : wf three_notes).
  { unfold three_notes, after. do 3 apply add_entity_wf. apply wf_init. }
  split.
  - apply (get_graph_stats_components three_notes Hwf). reflexivity.
  - apply (get_graph_stats_components chain chain_wf).
Defined.

(** ** Snapshots *)

Lemma dict_set_fresh {V} k (x : V) d :
  dict_mem k d = false → dict_set k x d = d ++ [(k, x)].
Proof.
  unfold dict_mem. induction d as [|[k' x'] d IH]; simpl; [done|].
  destruct (String.eqb k k'); [done|]. intros Hk. by rewrite IH.
Qed.

Lemma import_entities_run l :
  ∀ self,
    ∃ self',
      import_entities l self = (Ok tt, self')
      ∧ entities self'
        = fold_left (λ d e, dict_set (Entity.id e) e d) l (entities self)
      ∧ nx.nodes (graph self')
        = fold_left (λ ns e, dict_set (Entity.id e) (Some e) ns) l
            (nx.nodes (graph self))
      ∧ nx.edges (graph self') = nx.edges (graph self)
      ∧ relationships self' = relationships self.
Proof.
  induction l as [|e l IH]; intros self.
  - by exists self.
  - cbn [import_entities]. unfold_M.
    match goal with
    | |- context [import_entities l ?s] => destruct (IH s) as (self' & Hrun & H1 & H2 & H3 & H4)
    end.
    exists self'. rewrite Hrun. by split_and!.
Qed.

Lemma fold_dict_set_keys {V W} (f : Entity.t → V) (g : Entity.t → W) l :
  ∀ (d : list (string * V)) (d' : list (string * W)),
    dict_keys d = dict_keys d' →
    dict_keys (fold_left (λ a e, dict_set (Entity.id e) (f e) a) l d)
    = dict_keys (fold_left (λ a e, dict_set (Entity.id e) (g e) a) l d').
Proof.
  induction l as [|e l IH]; intros d d' Hk; [done|].
  simpl. apply IH. by rewrite !dict_keys_set, Hk.
Qed.

Lemma fold_dict_set_NoDup l :
  ∀ d : list (string * Entity.t),
    NoDup (dict_keys d) →
    Forall (λ ke, Entity.id ke.2 = ke.1) d →
    NoDup (dict_keys (fold_left (λ a e, dict_set (Entity.id e) e a) l d))
    ∧ Forall (λ ke, Entity.id ke.2 = ke.1)
        (fold_left (λ a e, dict_set (Entity.id e) e a) l d)
    ∧ ∀ k, dict_mem k d = true →
           dict_mem k (fold_left (λ a e, dict_set (Entity.id e) e a) l d) = true.
Proof.
  induction l as [|e l IH]; intros d Hnd Hids; [done|].
  simpl.
  destruct (IH (dict_set (Entity.id e) e d)) as (H1 & H2 & H3).
  - rewrite dict_keys_set. by apply NoDup_keys_set.
  - by apply Forall_dict_set.
  - split_and!; [done|done|]. intros k Hk. apply H3.
    by rewrite dict_mem_set, Hk, orb_true_r.
Qed.

(** Storing the values of a dictionary back under their ids rebuilds it. *)
Lemma fold_dict_set_rebuild (d : list (string * Entity.t)) :
  ∀ acc,
    NoDup (dict_keys acc ++ dict_keys d) →
    Forall (λ ke, Entity.id ke.2 = ke.1) d →
    fold_left (λ a e, dict_set (Entity.id e) e a) (dict_values d) acc = acc ++ d.
Proof.
  induction d as [|[k e] d IH]; intros acc Hnd Hids.
  - simpl. by rewrite app_nil_r.
  - apply Forall_cons in Hids as [Hid Hids]. simpl in Hid. subst k.
    unfold dict_values, dict_keys in *. rewrite fmap_cons in *. simpl.
    rewrite dict_set_fresh.
    + rewrite IH; [by rewrite <- app_assoc| |done].
      rewrite fmap_app. simpl. rewrite <- app_assoc. done.
    + apply dict_mem_false_keys. apply NoDup_app in Hnd as (_ & Hdisj & _).
      intros Hin. apply (Hdisj _ Hin). left.
Qed.

Lemma import_relationships_run l :
  ∀ self,
    dict_keys (nx.nodes (graph self)) = dict_keys (entities self) →
    ∃ self',
      import_relationships l self = (Ok tt, self')
      ∧ entities self' = entities self
      ∧ relationships self' = relationships self ++ l
      ∧ nx.nodes (graph self') = nx.nodes (graph self)
      ∧ nx.data <$> nx.edges (graph self')
        = (nx.data <$> nx.edges (graph self)) ++ filter (linked (entities self)) l
      ∧ (Forall edge_mirrors (nx.edges (graph self)) →
         Forall edge_mirrors (nx.edges (graph self'))).
Proof.
  induction l as [|rel l IH]; intros self Hnodes.
  - exists self. simpl. unfold_M. rewrite !app_nil_r. by split_and!.
  - cbn [import_relationships]. unfold_M. cbn [entities relationships graph].
    rewrite filter_cons.
    destruct (dict_mem (Relationship.source_id rel) (entities self)) eqn:Hs;
      destruct (dict_mem (Relationship.target_id rel) (entities self)) eqn:Ht;
      cbn [andb].
    2-4: (rewrite decide_False by (unfold linked; rewrite Hs, Ht; naive_solver);
          match goal with
          | |- context [import_relationships _ ?s] =>
              destruct (IH s) as (self' & Hrun & H1 & H2 & H3 & H4 & H5); [done|]
          end;
          exists self'; rewrite Hrun; simpl in *;
          rewrite H2, <- app_assoc; by split_and!).
    rewrite decide_True by (unfold linked; by rewrite Hs, Ht).
    match goal with
    | |- context [import_relationships l ?s] =>
        destruct (IH s) as (self' & Hrun & H1 & H2 & H3 & H4 & H5)
    end.
    { simpl. rewrite !ensure_node_present; [done|..].
      - by rewrite (dict_mem_same_keys _ _ (entities self)).
      - rewrite ensure_node_present;
          by rewrite (dict_mem_same_keys _ _ (entities self)). }
    exists self'. rewrite Hrun. simpl in *.
    rewrite H2, H3, H4, <- !app_assoc, fmap_app. simpl.
    split_and!; try done.
    + rewrite !ensure_node_present; [done|..].
      * by rewrite (dict_mem_same_keys _ _ (entities self)).
      * rewrite ensure_node_present;
          by rewrite (dict_mem_same_keys _ _ (entities self)).
    + by rewrite <- app_assoc.
    + intros Hends. apply H5, Forall_app. split; [done|]. by repeat constructor.
Qed.

Lemma fold_dict_set_mono l :
  ∀ (d : list (string * Entity.t)) k,
    dict_mem k d = true →
    dict_mem k (fold_left (λ a e, dict_set (Entity.id e) e a) l d) = true.
Proof.
  induction l as [|e l IH]; intros d k Hk; [done|].
  simpl. apply IH. by rewrite dict_mem_set, Hk, orb_true_r.
Qed.

Lemma fold_dict_set_stored l :
  ∀ (d : list (string * Entity.t)) e,
    e ∈ l →
    dict_mem (Entity.id e)
      (fold_left (λ a e, dict_set (Entity.id e) e a) l d) = true.
Proof.
  induction l as [|e0 l IH]; intros d e He; [by apply elem_of_nil in He|].
  simpl. apply elem_of_cons in He as [->|He]; [|by apply IH].
  apply fold_dict_set_mono. by rewrite dict_mem_set, String.eqb_refl.
Qed.

(** Importing entities and relationships that were all read: the state
    that is found is forgotten, every entity is stored under its id and is
    a node, every relationship is listed, and those with both endpoints
    among the entities get an edge. *)
Lemma import_snapshot_result data self0 :
  let rels := default [] (snap_relationships data) in
  ∃ self',
    import_from_dict data self0 = (Ok tt, self')
    ∧ import_from_dict data KnowledgeGraph_init = (Ok tt, self')
    ∧ (∀ e, e ∈ default [] (snap_entities data) →
            dict_mem (Entity.id e) (entities self') = true)
    ∧ dict_keys (nx.nodes (graph self')) = dict_keys (entities self')
    ∧ relationships self' = rels
    ∧ nx.data <$> nx.edges (graph self') = filter (linked (entities self')) rels
    ∧ (Forall (linked (entities self')) rels ↔ wf self').
Proof.
  intros rels. unfold import_from_dict. unfold_M.
  destruct (import_entities_run (default [] (snap_entities data)) KnowledgeGraph_init)
    as (s1 & Hrun1 & He1 & Hn1 & Hed1 & Hr1).
  rewrite Hrun1. simpl in He1, Hn1, Hed1, Hr1.
  assert (Hkeys : dict_keys (nx.nodes (graph s1)) = dict_keys (entities s1)).
  { rewrite He1, Hn1. by apply fold_dict_set_keys. }
  destruct (import_relationships_run rels s1 Hkeys)
    as (s2 & Hrun2 & He2 & Hr2 & Hn2 & Hed2 & Hends2).
  fold rels. rewrite Hrun2. exists s2.
  rewrite Hed1 in Hed2, Hends2. rewrite Hr1 in Hr2. simpl in Hed2, Hr2.
  destruct (fold_dict_set_NoDup (default [] (snap_entities data)) [])
    as (Hnd & Hids & _); [constructor|constructor|].
  rewrite <- He1, <- He2 in Hnd, Hids.
  split_and!; try done.
  - intros e He. rewrite He2, He1. by apply fold_dict_set_stored.
  - by rewrite Hn2, He2.
  - by rewrite He2.
  - split.
    + intros Hlinked. split; try done.
      * by rewrite Hn2, He2.
      * rewrite Hed2, Hr2. apply filter_all. intros rel Hrel.
        rewrite Forall_forall in Hlinked. rewrite <- He2. by apply Hlinked.
      * apply Hends2. constructor.
      * by rewrite Hr2.
    + intros Hwf. rewrite <- Hr2. apply (wf_refs _ Hwf).
Qed.

Lemma import_snapshot_consistent data self0 :
  consistent (import_from_dict data self0).2.
Proof.
  unfold import_from_dict. unfold_M.
  destruct (import_entities_run (default [] (snap_entities data)) KnowledgeGraph_init)
    as (s1 & Hrun1 & He1 & Hn1 & Hed1 & Hr1).
  rewrite Hrun1. simpl in He1, Hn1, Hed1, Hr1.
  assert (Hkeys : dict_keys (nx.nodes (graph s1)) = dict_keys (entities s1)).
  { rewrite He1, Hn1. by apply fold_dict_set_keys. }
  destruct (import_relationships_run (default [] (snap_relationships data)) s1 Hkeys)
    as (s2 & Hrun2 & He2 & Hr2 & Hn2 & Hed2 & Hends2).
  rewrite Hrun2. simpl.
  destruct (fold_dict_set_NoDup (default [] (snap_entities data)) [])
    as (Hnd & _ & _); [constructor|constructor|].
  rewrite <- He1, <- He2 in Hnd.
  split.
  - done.
  - by rewrite Hn2, He2.
  - apply Hends2. rewrite Hed1. constructor.
Qed.

(** *** Importing what was read from a file *)

Section ImportFacts.
Context {datetime : Datetime}.

Lemma getitem_raises {A} (item : option A) e : getitem item = Raise e → e = KeyError.
Proof. destruct item; simpl; congruence. Qed.

Lemma datetime_fromisoformat_raises s e :
  datetime_fromisoformat s = Raise e → e = ValueError.
Proof. unfold datetime_fromisoformat. destruct (fromisoformat s); congruence. Qed.

Lemma Entity_from_dict_raises data e :
  Entity_from_dict data = Raise e → e = KeyError ∨ e = ValueError.
Proof.
  unfold Entity_from_dict, mbind, result_bind, mret, result_ret.
  repeat (case_match; try discriminate); intros [= <-];
    repeat match goal with
      | H : getitem _ = Raise _ |- _ => apply getitem_raises in H; subst
      | H : datetime_fromisoformat _ = Raise _ |- _ =>
          apply datetime_fromisoformat_raises in H; subst
      end; auto.
Qed.

Lemma Relationship_from_dict_raises data e :
  Relationship_from_dict data = Raise e → e = KeyError ∨ e = ValueError.
Proof.
  unfold Relationship_from_dict, mbind, result_bind, mret, result_ret.
  repeat (case_match; try discriminate); intros [= <-];
    repeat match goal with
      | H : getitem _ = Raise _ |- _ => apply getitem_raises in H; subst
      | H : datetime_fromisoformat _ = Raise _ |- _ =>
          apply datetime_fromisoformat_raises in H; subst
      end; auto.
Qed.

Lemma read_items_raises {A B} (from_dict : A → result B) l e :
  (read_items from_dict l).2 = Some e →
  ∃ item, item ∈ l ∧ from_dict item = Raise e.
Proof.
  induction l as [|item rest IH]; [done|]. simpl.
  destruct (from_dict item) as [x|e'] eqn:Hitem; simpl.
  - intros (item' & Hin & Hr)%IH. exists item'. split; [by right|done].
  - intros [= <-]. exists item. split; [left|done].
Qed.

(** The loops over what was read are the loops of the snapshot model, cut
    at the first item that is rejected. *)
Lemma raw_import_entities_run l :
  ∀ self,
    Raw.import_entities l self
    = (match (read_items Entity_from_dict l).2 with
       | None => Ok tt
       | Some e => Raise e
       end,
       (import_entities (read_items Entity_from_dict l).1 self).2).
Proof.
  induction l as [|item rest IH]; intros self; [done|].
  cbn [Raw.import_entities read_items]. unfold_M.
  destruct (Entity_from_dict item) as [entity|e]; [|done].
  cbn [fst snd import_entities]. unfold_M. rewrite IH.
  match goal with
  | |- context [import_entities ?l ?s] =>
      destruct (import_entities_run l s) as (s' & Hr & _)
  end.
  simpl in *. by rewrite Hr.
Qed.


Lemma import_relationships_returns l :
  ∀ self, (import_relationships l self).1 = Ok tt.
Proof.
  induction l as [|rel rest IH]; intros self; [done|].
  cbn [import_relationships]. unfold_M. cbn [entities].
  destruct (dict_mem (Relationship.source_id rel) (entities self)
            && dict_mem (Relationship.target_id rel) (entities self));
    match goal with
    | |- context [import_relationships rest ?s] =>
        specialize (IH s); destruct (import_relationships rest s) as [[[]|e] s']
    end; done.
Qed.

Lemma raw_import_relationships_run l :
  ∀ self,
    Raw.import_relationships l self
    = (match (read_items Relationship_from_dict l).2 with
       | None => Ok tt
       | Some e => Raise e
       end,
       (import_relationships (read_items Relationship_from_dict l).1 self).2).
Proof.
  induction l as [|item rest IH]; intros self; [done|].
  cbn [Raw.import_relationships read_items]. unfold_M.
  destruct (Relationship_from_dict item) as [rel|e]; [|done].
  cbn [fst snd import_relationships entities]. unfold_M. cbn [entities].
  destruct (dict_mem (Relationship.source_id rel) (entities self)
            && dict_mem (Relationship.target_id rel) (entities self));
    rewrite IH;
    match goal with
    | |- context [import_relationships ?l ?s] =>
        pose proof (import_relationships_returns l s) as Hr;
        destruct (import_relationships l s) as [[[]|e] s']
    end; done.
Qed.


Lemma read_items_all {A B} (from_dict : A → result B) l :
  (read_items from_dict l).2 = None
  ↔ ∀ item, item ∈ l → ∃ x, from_dict item = Ok x.
Proof.
  induction l as [|item rest IH]; simpl.
  - split; [|done]. intros _ item Hin. by apply elem_of_nil in Hin.
  - destruct (from_dict item) as [x|e] eqn:Hitem; simpl.
    + rewrite IH. split.
      * intros Hall item' [->|Hin]%elem_of_cons; [by exists x|by apply Hall].
      * intros Hall item' Hin. apply Hall. by right.
    + split; [done|]. intros Hall.
      destruct (Hall item) as [x Hx]; [left|]. congruence.
Qed.

(** The import ends as the reading does, in the state that importing what
    was read gives. *)
Lemma raw_import_from_dict_run data self0 :
  Raw.import_from_dict data self0
  = (read_outcome data,
     (import_from_dict {| snap_entities := Some (read_entities data);
                          snap_relationships := Some (read_relationships data);
                          snap_metadata := None |} self0).2).
Proof.
  unfold Raw.import_from_dict, import_from_dict, read_outcome, read_entities,
    read_relationships.
  unfold_M. cbn [fst snd snap_entities snap_relationships from_option id].
  rewrite raw_import_entities_run.
  match goal with
  | |- context [import_entities ?l ?s] =>
      destruct (import_entities_run l s) as (s1 & Hr & _)
  end.
  rewrite Hr. cbn [snd].
  destruct (read_items Entity_from_dict (default [] (sd_entities data))).2 as [e|].
  - done.
  - rewrite raw_import_relationships_run.
    match goal with
    | |- context [import_relationships ?l ?s] =>
        pose proof (import_relationships_returns l s) as Hr2;
        destruct (import_relationships l s) as [[[]|e] s']
    end; [|done].
    simpl. by destruct (read_items _ _).2.
Qed.

(** [import_from_dict] on a snapshot as it is read. The stores are cleared
    first, so that the outcome and the state that is left depend on the
    snapshot alone, whether the import returns or raises: what was in the
    graph is lost in both cases. It returns exactly when [from_dict]
    accepts every item; otherwise it raises the [KeyError] or [ValueError]
    of the first item that is rejected, and the graph holds what was read
    before that item. Every entity that was read is stored under its id and
    is a node; every relationship that was read is listed, but only those
    with both endpoints among the stored entities get an edge: the state is
    well formed exactly when none of them dangles. *)
Theorem import_from_dict_result data self0 :
  ∃ self',
    Raw.import_from_dict data self0 = (read_outcome data, self')
    ∧ Raw.import_from_dict data KnowledgeGraph_init = (read_outcome data, self')
    ∧ (read_outcome data = Ok tt
       ↔ (∀ item, item ∈ default [] (sd_entities data) →
                  ∃ entity, Entity_from_dict item = Ok entity)
         ∧ (∀ item, item ∈ default [] (sd_relationships data) →
                    ∃ rel, Relationship_from_dict item = Ok rel))
    ∧ (∀ e, read_outcome data = Raise e → e = KeyError ∨ e = ValueError)
    ∧ (∀ entity, entity ∈ read_entities data →
                 dict_mem (Entity.id entity) (entities self') = true)
    ∧ dict_keys (nx.nodes (graph self')) = dict_keys (entities self')
    ∧ relationships self' = read_relationships data
    ∧ nx.data <$> nx.edges (graph self')
      = filter (linked (entities self')) (read_relationships data)
    ∧ (Forall (linked (entities self')) (read_relationships data) ↔ wf self').
Proof.
  pose (read := {| snap_entities := Some (read_entities data);
                   snap_relationships := Some (read_relationships data);
                   snap_metadata := None |}).
  destruct (import_snapshot_result read self0)
    as (self' & Hrun & Hinit & Hents & Hnodes & Hrels & Hedges & Hwf).
  exists self'. rewrite !raw_import_from_dict_run. fold read.
  rewrite Hrun, Hinit. split_and!; try done.
  - unfold read_outcome. rewrite <- !read_items_all.
    destruct (read_items Entity_from_dict _).2; [naive_solver|].
    destruct (read_items Relationship_from_dict _).2; naive_solver.
  - unfold read_outcome. intros e.
    destruct (read_items Entity_from_dict _).2 as [e1|] eqn:H1.
    + intros [= <-]. apply read_items_raises in H1 as (item & _ & Hitem).
      by eapply Entity_from_dict_raises.
    + destruct (read_items Relationship_from_dict _).2 as [e2|] eqn:H2; [|done].
      intros [= <-]. apply read_items_raises in H2 as (item & _ & Hitem).
      by eapply Relationship_from_dict_raises.
Qed.

End ImportFacts.

Lemma import_from_dict_result_witness :
  ∃ self',
    Raw.import_from_dict (datetime := epoch_datetime) untyped_snapshot chain
    = (Raise KeyError, self')
    ∧ Raw.import_from_dict (datetime := epoch_datetime) untyped_snapshot
        KnowledgeGraph_init
      = (Raise KeyError, self')
    ∧ dict_keys (entities self') = ["a"]
    ∧ relationships self' = [].
Proof.
  destruct (import_from_dict_result (datetime := epoch_datetime)
              untyped_snapshot chain)
    as (self' & Hrun & Hinit & _ & _ & _ & _ & Hrels & _).
  exists self'.
  assert (Hs : self' = (Raw.import_from_dict (datetime := epoch_datetime)
                          untyped_snapshot chain).2) by (by rewrite Hrun).
  split_and!; [exact Hrun|exact Hinit| |exact Hrels].
  rewrite Hs. vm_compute. reflexivity.
Defined.


Lemma hop_same_ends (es es' : list nx.edge) (s : gset string) :
  (λ e, (nx.u e, nx.v e)) <$> es = (λ e, (nx.u e, nx.v e)) <$> es' →
  nx.v <$> filter (λ e, nx.u e ∈ s) es = nx.v <$> filter (λ e, nx.u e ∈ s) es'
  ∧ nx.u <$> filter (λ e, nx.v e ∈ s) es = nx.u <$> filter (λ e, nx.v e ∈ s) es'.
Proof.
  revert es'. induction es as [|e es IH]; intros [|e' es'] Heq; try done.
  rewrite !fmap_cons in Heq. injection Heq as Hu Hv Hrest.
  destruct (IH es' Hrest) as [IH1 IH2].
  rewrite !filter_cons, Hu, Hv.
  split.
  - destruct (decide (nx.u e' ∈ s)); [|done]. by rewrite !fmap_cons, Hv, IH1.
  - destruct (decide (nx.v e' ∈ s)); [|done]. by rewrite !fmap_cons, Hu, IH2.
Qed.

Lemma within_hops_same_ends (g g' : nx.MultiDiGraph) depth :
  (λ e, (nx.u e, nx.v e)) <$> nx.edges g = (λ e, (nx.u e, nx.v e)) <$> nx.edges g' →
  ∀ s, within_hops g depth s = within_hops g' depth s.
Proof.
  intros Heq. induction depth as [|d IH]; intros s; [done|].
  simpl. rewrite IH. f_equal. unfold hop.
  destruct (hop_same_ends _ _ s Heq) as [-> ->]. done.
Qed.

Lemma count_components_same_ends (g g' : nx.MultiDiGraph) vs :
  (λ e, (nx.u e, nx.v e)) <$> nx.edges g = (λ e, (nx.u e, nx.v e)) <$> nx.edges g' →
  length (nx.nodes g) = length (nx.nodes g') →
  ∀ seen, count_components g vs seen = count_components g' vs seen.
Proof.
  intros Heq Hlen. induction vs as [|node rest IH]; intros seen; [done|].
  simpl. unfold nx_component. rewrite Hlen, (within_hops_same_ends g g' _ Heq).
  by rewrite !IH.
Qed.

Lemma wf_edge_ends self :
  wf self →
  (λ e, (nx.u e, nx.v e)) <$> nx.edges (graph self)
  = (λ rel, (Relationship.source_id rel, Relationship.target_id rel))
      <$> relationships self.
Proof.
  intros Hwf. rewrite <- (wf_edges _ Hwf), <- list_fmap_compose.
  apply Forall_fmap_ext. eapply Forall_impl; [apply (wf_ends _ Hwf)|].
  intros e [-> ->]. done.
Qed.

(** Round trip. Importing the snapshot exported from a well-formed graph,
    into any graph, gives back the same entity map (same entities, same
    order) and the same relationship list, in a well-formed graph, and the
    statistics of the rebuilt graph are those stored in the snapshot. *)
Theorem export_import_round_trip now self self0 :
  wf self →
  ∃ self',
    import_from_dict (export_to_dict now self) self0 = (Ok tt, self')
    ∧ entities self' = entities self
    ∧ relationships self' = relationships self
    ∧ wf self'
    ∧ snap_metadata (export_to_dict now self) = Some (now, get_graph_stats self').
Proof.
  intros Hwf.
  destruct (import_snapshot_result (export_to_dict now self) self0)
    as (self' & Hrun & _ & Hstored & Hnodes & Hrels & Hedges & Hiff).
  exists self'. simpl in Hrels, Hedges, Hiff, Hstored.
  assert (Hents : entities self' = entities self).
  { clear -Hrun Hwf. unfold import_from_dict in Hrun. unfold_M.
    destruct (import_entities_run (dict_values (entities self)) KnowledgeGraph_init)
      as (s1 & Hrun1 & He1 & _).
    simpl in Hrun. rewrite Hrun1 in Hrun.
    assert (Hkeys : dict_keys (nx.nodes (graph s1)) = dict_keys (entities s1)).
    { destruct (import_entities_run (dict_values (entities self)) KnowledgeGraph_init)
        as (s1' & Hrun1' & He1' & Hn1' & _).
      rewrite Hrun1 in Hrun1'. injection Hrun1' as <-.
      rewrite He1', Hn1'. by apply fold_dict_set_keys. }
    destruct (import_relationships_run (relationships self) s1 Hkeys)
      as (s2 & Hrun2 & He2 & _).
    rewrite Hrun2 in Hrun. injection Hrun as <-.
    rewrite He2, He1. simpl.
    rewrite (fold_dict_set_rebuild (entities self) []); [done| |apply Hwf].
    simpl. apply Hwf. }
  assert (Hwf' : wf self').
  { apply Hiff. rewrite Hents. apply (wf_refs _ Hwf). }
  split_and!; try done.
  simpl. do 2 f_equal. unfold get_graph_stats.
  assert (Hn : length (nx.nodes (graph self)) = length (nx.nodes (graph self'))).
  { rewrite <- (length_fmap fst (nx.nodes (graph self))),
      <- (length_fmap fst (nx.nodes (graph self'))).
    fold (dict_keys (nx.nodes (graph self))).
    fold (dict_keys (nx.nodes (graph self'))).
    by rewrite (wf_nodes _ Hwf), (wf_nodes _ Hwf'), Hents. }
  assert (Hm : length (nx.edges (graph self)) = length (nx.edges (graph self'))).
  { rewrite <- (length_fmap nx.data (nx.edges (graph self))),
      <- (length_fmap nx.data (nx.edges (graph self'))).
    by rewrite (wf_edges _ Hwf), (wf_edges _ Hwf'), Hrels. }
  assert (Hends : (λ e, (nx.u e, nx.v e)) <$> nx.edges (graph self)
                  = (λ e, (nx.u e, nx.v e)) <$> nx.edges (graph self')).
  { by rewrite (wf_edge_ends _ Hwf), (wf_edge_ends _ Hwf'), Hrels. }
  rewrite Hents, Hrels. f_equal.
  - unfold nx_density. by rewrite Hn, Hm.
  - unfold nx_number_weakly_connected_components.
    rewrite (wf_nodes _ Hwf), (wf_nodes _ Hwf'), Hents.
    by apply count_components_same_ends.
Qed.

Lemma export_import_round_trip_witness :
  ∃ self',
    import_from_dict (export_to_dict 9 chain) two_people = (Ok tt, self')
    ∧ entities self' = entities chain
    ∧ relationships self' = relationships chain
    ∧ wf self'
    ∧ snap_metadata (export_to_dict 9 chain) = Some (9%Z, get_graph_stats self').
Proof. apply (export_import_round_trip 9 chain two_people chain_wf). Defined.

(** ** Relationship inference *)

(** Whatever two entities are compared, when the comparison returns, each
    proposal is one of the five rules, with the confidence of that rule, and
    the types the rule asks for: similar_to needs equal types, works_for a
    person first and an organization second, colleague_of two persons,
    involved_in a person first and a project second, same_domain two
    non-empty email attributes. In particular a rule never fires with the
    two entities in the other order. *)
Theorem detect_relationship_sound entity1 entity2 proposals :
  _detect_relationship_between entity1 entity2 = Ok proposals →
  ∀ t c, (t, c) ∈ proposals →
    (t = "similar_to" ∧ c = 0.3%Q ∧ Entity.type entity1 = Entity.type entity2)
    ∨ (t = "works_for" ∧ c = 0.8%Q ∧ Entity.type entity1 = "person"
       ∧ Entity.type entity2 = "organization")
    ∨ (t = "colleague_of" ∧ c = 0.7%Q ∧ Entity.type entity1 = "person"
       ∧ Entity.type entity2 = "person")
    ∨ (t = "involved_in" ∧ c = 0.6%Q ∧ Entity.type entity1 = "person"
       ∧ Entity.type entity2 = "project")
    ∨ (t = "same_domain" ∧ c = 0.5%Q
       ∧ truthy (default (VList []) (dict_get "emails" (Entity.attributes entity1)))
         = true
       ∧ truthy (default (VList []) (dict_get "emails" (Entity.attributes entity2)))
         = true).
Proof.
  intros H t c Hin. unfold _detect_relationship_between in H.
  unfold _check_project_involvement in H.
  unfold mbind, result_bind, mret, result_ret in H.
  repeat (case_match; try discriminate).
  all: simplify_eq.
  all: repeat match goal with
       | H : (_ && _)%bool = true |- _ => apply andb_prop in H as [? ?]
       | H : String.eqb _ _ = true |- _ => apply String.eqb_eq in H
       end.
  all: simpl in Hin.
  all: repeat (apply elem_of_cons in Hin as [Hin|Hin];
               [injection Hin as -> ->; naive_solver|]).
  all: by apply elem_of_nil in Hin.
Qed.

Lemma detect_relationship_sound_witness :
  _detect_relationship_between (acme_person "a" 1 1) (acme_organization "b" 2 2)
  = Ok [("works_for", 0.8%Q)]
  ∧ (("works_for" = "similar_to" ∧ 0.8%Q = 0.3%Q
      ∧ Entity.type (acme_person "a" 1 1) = Entity.type (acme_organization "b" 2 2))
     ∨ ("works_for" = "works_for" ∧ 0.8%Q = 0.8%Q
        ∧ Entity.type (acme_person "a" 1 1) = "person"
        ∧ Entity.type (acme_organization "b" 2 2) = "organization")
     ∨ ("works_for" = "colleague_of" ∧ 0.8%Q = 0.7%Q
        ∧ Entity.type (acme_person "a" 1 1) = "person"
        ∧ Entity.type (acme_organization "b" 2 2) = "person")
     ∨ ("works_for" = "involved_in" ∧ 0.8%Q = 0.6%Q
        ∧ Entity.type (acme_person "a" 1 1) = "person"
        ∧ Entity.type (acme_organization "b" 2 2) = "project")
     ∨ ("works_for" = "same_domain" ∧ 0.8%Q = 0.5%Q
        ∧ truthy (default (VList [])
                    (dict_get "emails" (Entity.attributes (acme_person "a" 1 1))))
          = true
        ∧ truthy (default (VList [])
                    (dict_get "emails" (Entity.attributes (acme_organization "b" 2 2))))
          = true)).
Proof.
  split; [reflexivity|].
  apply (detect_relationship_sound (acme_person "a" 1 1) (acme_organization "b" 2 2)
           [("works_for", 0.8%Q)] eq_refl "works_for" 0.8%Q).
  apply list_elem_of_here.
Defined.

Lemma get_lower_raises key a :
  ∀ r, get_lower key a = Raise r → r = AttributeError.
Proof.
  intros r. unfold get_lower.
  destruct (default (VStr "") (dict_get key a)); congruence.
Qed.

(** The rules call [lower] on what they read: a person whose department is
    not a string makes the comparison with an organization raise
    [AttributeError]. When these two are the first two stored entities,
    [auto_detect_relationships] stops there: the error is not the one its
    handler catches, it reaches the caller, and nothing has been added. *)
Theorem detect_raises_on_odd_department entity1 entity2 x :
  Entity.type entity1 = "person" →
  Entity.type entity2 = "organization" →
  dict_get "department" (Entity.attributes entity1) = Some x →
  (∀ s, x ≠ VStr s) →
  _detect_relationship_between entity1 entity2 = Raise AttributeError
  ∧ ∀ clock self k1 k2 rest,
      entities self = (k1, entity1) :: (k2, entity2) :: rest →
      auto_detect_relationships clock self = (Raise AttributeError, self).
Proof.
  intros H1 H2 Hd Hx.
  assert (Hdetect : _detect_relationship_between entity1 entity2
                    = Raise AttributeError).
  { unfold _detect_relationship_between. rewrite H1, H2. simpl.
    unfold _check_employment_relationship.
    unfold mbind at 1, result_bind at 1. unfold mbind at 1, result_bind at 1.
    destruct (get_lower "name" (Entity.attributes entity2)) as [n|r] eqn:Hn.
    - unfold mbind at 1, result_bind at 1. unfold get_lower at 1. rewrite Hd. simpl.
      destruct x; try done. by destruct (Hx s).
    - by rewrite (get_lower_raises _ _ _ Hn). }
  split; [done|].
  intros clock self k1 k2 rest Hents.
  unfold auto_detect_relationships. unfold_M. rewrite Hents.
  unfold dict_values. rewrite !fmap_cons. cbn [snd detect_all detect_against].
  unfold_M. by rewrite Hdetect.
Qed.

Lemma detect_raises_on_odd_department_witness :
  auto_detect_relationships (λ _, 0%Z) odd_department
  = (Raise AttributeError, odd_department).
Proof.
  eapply (proj2 (detect_raises_on_odd_department
                   (Entity.init 1 "p" "person" [("department", VNum 7)])
                   (Entity.init 2 "org" "organization" [("name", VStr "Acme")])
                   (VNum 7) eq_refl eq_refl eq_refl (λ s, ltac:(discriminate)))).
  reflexivity.
Defined.

(** The empty string occurs in every string: a person with no name, or with
    an empty one, is found involved in every project whose assignee is a
    string or is missing. *)
Theorem nameless_person_involved entity1 entity2 proposals :
  Entity.type entity1 = "person" →
  Entity.type entity2 = "project" →
  dict_get "name" (Entity.attributes entity1) = None
  ∨ dict_get "name" (Entity.attributes entity1) = Some (VStr "") →
  _detect_relationship_between entity1 entity2 = Ok proposals →
  ("involved_in", 0.6%Q) ∈ proposals.
Proof.
  intros H1 H2 Hname H.
  assert (Hn : get_lower "name" (Entity.attributes entity1) = Ok "").
  { unfold get_lower. by destruct Hname as [-> | ->]. }
  unfold _detect_relationship_between in H.
  unfold _check_project_involvement in H.
  rewrite H1, H2, Hn in H. simpl in H.
  unfold mbind, result_bind, mret, result_ret in H.
  repeat (case_match; try discriminate).
  all: simplify_eq.
  all: try match goal with
       | Hc : Py.contains "" _ = false |- _ =>
           rewrite contains_empty in Hc; discriminate
       end.
  all: set_solver.
Qed.

Lemma nameless_person_involved_witness :
  ("involved_in", 0.6%Q) ∈ [("involved_in", 0.6%Q)].
Proof.
  apply (nameless_person_involved nameless website); try reflexivity. by left.
Defined.

Lemma extends_refl self : extends self self.
Proof. by split_and!. Qed.

Lemma extends_trans s1 s2 s3 : extends s1 s2 → extends s2 s3 → extends s1 s3.
Proof.
  intros (Hw1 & He1 & Hp1) (Hw2 & He2 & Hp2). split_and!.
  - auto.
  - congruence.
  - by etrans.
Qed.

Lemma add_relationship_extends now source_id target_id relation_type attributes
    confidence self :
  extends self
    (add_relationship now source_id target_id relation_type attributes
       confidence self).2.
Proof.
  split_and!.
  - apply add_relationship_wf.
  - unfold add_relationship. unfold_M. simpl.
    destruct (dict_mem source_id (entities self)); [|done]. simpl.
    by destruct (dict_mem target_id (entities self)).
  - unfold add_relationship. unfold_M. simpl.
    destruct (dict_mem source_id (entities self)); [|done]. simpl.
    destruct (dict_mem target_id (entities self)); [|done]. simpl.
    by apply prefix_app_r.
Qed.

Lemma add_proposals_extends clock entity1 entity2 proposals :
  ∀ c self, extends self (add_proposals clock entity1 entity2 proposals c self).2.
Proof.
  induction proposals as [|[rel_type confidence] rest IH]; intros c self.
  - apply extends_refl.
  - cbn [add_proposals]. unfold_M.
    pose proof (add_relationship_extends (clock c) (Entity.id entity1)
                  (Entity.id entity2) rel_type None confidence self) as Hadd.
    destruct (add_relationship (clock c) (Entity.id entity1) (Entity.id entity2)
                rel_type None confidence self) as [[r|e] s1]; simpl in *.
    + eapply extends_trans; [exact Hadd|apply IH].
    + destruct (is_KnowledgeGraphError e); simpl; [|done].
      eapply extends_trans; [exact Hadd|apply IH].
Qed.

Lemma detect_against_extends clock entity1 later :
  ∀ c self, extends self (detect_against clock entity1 later c self).2.
Proof.
  induction later as [|entity2 rest IH]; intros c self.
  - apply extends_refl.
  - cbn [detect_against]. unfold_M.
    destruct (_detect_relationship_between entity1 entity2) as [proposals|e];
      [|apply extends_refl].
    pose proof (add_proposals_extends clock entity1 entity2 proposals c self) as Hadd.
    unfold_M.
    destruct (add_proposals clock entity1 entity2 proposals c self) as [[n|e] s1];
      simpl in *; [|done].
    eapply extends_trans; [exact Hadd|apply IH].
Qed.

Lemma detect_all_extends clock entities_list :
  ∀ c self, extends self (detect_all clock entities_list c self).2.
Proof.
  induction entities_list as [|entity1 later IH]; intros c self.
  - apply extends_refl.
  - cbn [detect_all]. unfold_M.
    pose proof (detect_against_extends clock entity1 later c self) as Hd.
    destruct (detect_against clock entity1 later c self) as [[n|e] s1];
      simpl in *; [|done].
    eapply extends_trans; [exact Hd|apply IH].
Qed.

Lemma domains_go_raises emails :
  ∀ e, domains_go emails = Raise e → is_KnowledgeGraphError e = false.
Proof.
  induction emails as [|email rest IH]; intros e; [done|].
  simpl. unfold mbind, result_bind, mret, result_ret.
  destruct (has_at email) as [[|]|e'] eqn:Hat.
  - destruct (domain_of email) as [d|e''] eqn:Hd.
    + destruct (domains_go rest) as [ds|e3]; [done|]. intros [= <-]. by apply IH.
    + intros [= <-]. destruct email; simpl in Hd; try by injection Hd as <-.
      destruct (Py.split "@" s !! 1); [done|]. by injection Hd as <-.
  - apply IH.
  - intros [= <-]. destruct email; simpl in Hat; try done; by injection Hat as <-.
Qed.

Lemma domains_raises emails e :
  domains emails = Raise e → is_KnowledgeGraphError e = false.
Proof.
  unfold domains, mbind, result_bind, mret, result_ret.
  destruct (iterate emails) as [items|e'] eqn:Hit.
  - destruct (domains_go items) as [ds|e''] eqn:Hgo; [done|].
    intros [= <-]. by eapply domains_go_raises.
  - intros [= <-]. destruct emails; simpl in Hit; try done; by injection Hit as <-.
Qed.

Lemma detect_never_graph_error entity1 entity2 e :
  _detect_relationship_between entity1 entity2 = Raise e →
  is_KnowledgeGraphError e = false.
Proof.
  intros Hd.
  unfold _detect_relationship_between, _check_employment_relationship,
    _check_colleague_relationship, _check_project_involvement,
    mbind, result_bind, mret, result_ret in Hd.
  repeat (case_match; try discriminate); simplify_eq;
    repeat match goal with
      | H : get_lower _ _ = Raise _ |- _ => apply get_lower_raises in H; subst
      | H : domains _ = Raise _ |- _ => apply domains_raises in H
      end; done.
Qed.

Lemma add_proposals_returns clock entity1 entity2 proposals :
  ∀ c self, ∃ n self',
    add_proposals clock entity1 entity2 proposals c self = (Ok n, self').
Proof.
  induction proposals as [|[t q] ps IH]; intros c s.
  - by exists c, s.
  - cbn [add_proposals]. unfold_M.
    destruct (add_relationship (clock c) (Entity.id entity1) (Entity.id entity2)
                t None q s) as [[r|e] s1] eqn:Hrun.
    + apply IH.
    + assert (He : is_KnowledgeGraphError e = true).
      { revert Hrun. unfold add_relationship. unfold_M. simpl.
        destruct (dict_mem (Entity.id entity1) (entities s)); simpl;
          [|by intros [= <- _]].
        destruct (dict_mem (Entity.id entity2) (entities s)); simpl;
          [done|by intros [= <- _]]. }
      rewrite He. apply IH.
Qed.

Lemma detect_against_never_graph_error clock entity1 later :
  ∀ c self e,
    (detect_against clock entity1 later c self).1 = Raise e →
    is_KnowledgeGraphError e = false.
Proof.
  induction later as [|entity2 rest IH]; intros c s e; [done|].
  cbn [detect_against]. unfold_M.
  destruct (_detect_relationship_between entity1 entity2) as [ps|e'] eqn:Hd.
  - destruct (add_proposals_returns clock entity1 entity2 ps c s) as (n & s' & ->).
    apply IH.
  - simpl. intros [= <-]. by eapply detect_never_graph_error.
Qed.

Lemma detect_all_never_graph_error clock entities_list :
  ∀ c self e,
    (detect_all clock entities_list c self).1 = Raise e →
    is_KnowledgeGraphError e = false.
Proof.
  induction entities_list as [|entity1 later IH]; intros c s e; [done|].
  cbn [detect_all]. unfold_M.
  destruct (detect_against clock entity1 later c s) as [[n|e'] s1] eqn:Hrun.
  - apply IH.
  - simpl. intros [= <-].
    apply (detect_against_never_graph_error clock entity1 later c s). by rewrite Hrun.
Qed.

(** Whether [auto_detect_relationships] returns or is stopped by an
    exception, it leaves a well-formed graph well formed, does not touch the
    entity map, and only appends to the relationship list: what was there
    stays, in place. What it raises is never the graph error. *)
Theorem auto_detect_relationships_extends clock self :
  wf self →
  wf (after (auto_detect_relationships clock) self)
  ∧ entities (after (auto_detect_relationships clock) self) = entities self
  ∧ relationships self
    `prefix_of` relationships (after (auto_detect_relationships clock) self)
  ∧ ∀ msg, (auto_detect_relationships clock self).1
           ≠ Raise (KnowledgeGraphError msg).
Proof.
  intros Hwf. unfold after, auto_detect_relationships. unfold_M.
  destruct (detect_all_extends clock (dict_values (entities self)) 0 self)
    as (Hw & He & Hp).
  split_and!; [by apply Hw|done|done|].
  intros msg Hraise.
  by apply (detect_all_never_graph_error clock) in Hraise.
Qed.

Lemma two_people_wf : wf two_people.
Proof. unfold two_people, after. do 2 apply add_entity_wf. apply wf_init. Defined.

Lemma auto_detect_relationships_extends_witness :
  wf (after (auto_detect_relationships (λ _, 0%Z)) chain)
  ∧ entities (after (auto_detect_relationships (λ _, 0%Z)) chain) = entities chain
  ∧ relationships chain
    `prefix_of` relationships (after (auto_detect_relationships (λ _, 0%Z)) chain)
  ∧ ∀ msg, (auto_detect_relationships (λ _, 0%Z) chain).1
           ≠ Raise (KnowledgeGraphError msg).
Proof. apply (auto_detect_relationships_extends (λ _, 0%Z) chain chain_wf). Defined.

Lemma auto_detect_relationships_repeats_witness :
  ∃ self'',
    auto_detect_relationships (λ _, 8%Z)
      (after (auto_detect_relationships (λ _, 7%Z)) two_people)
    = (Ok 1, self'')
    ∧ entities (after (auto_detect_relationships (λ _, 7%Z)) two_people)
      = entities two_people
    ∧ length (relationships (after (auto_detect_relationships (λ _, 7%Z)) two_people))
      = length (relationships two_people) + 1
    ∧ length (relationships self'')
      = length (relationships (after (auto_detect_relationships (λ _, 7%Z))
                                 two_people)) + 1.
Proof.
  apply (auto_detect_relationships_repeats (λ _, 7%Z) (λ _, 8%Z) two_people 1
           (after (auto_detect_relationships (λ _, 7%Z)) two_people) two_people_wf).
  reflexivity.
Defined.

(** ** Neighbours *)

Lemma neighbors_wf entity_id self :
  wf self →
  dict_mem entity_id (entities self) = true →
  ∃ found,
    neighbors entity_id (graph self) = Ok found
    ∧ ∀ x, x ∈ found
           ↔ ∃ rel, rel ∈ relationships self
                    ∧ ((Relationship.source_id rel = entity_id
                        ∧ Relationship.target_id rel = x)
                       ∨ (Relationship.target_id rel = entity_id
                          ∧ Relationship.source_id rel = x)).
Proof.
  intros Hwf Hmem. unfold neighbors, nx.successors, nx.predecessors.
  rewrite (has_node_wf _ _ Hwf), Hmem.
  unfold mbind, result_bind, mret, result_ret. eexists. split; [reflexivity|].
  intros x. rewrite elem_of_union, !elem_of_list_to_set, !elem_of_uniq,
    !list_elem_of_fmap.
  pose proof (wf_ends _ Hwf) as Hends. rewrite Forall_forall in Hends.
  rewrite <- (wf_edges _ Hwf). split.
  - intros [(e & -> & [Hu He]%list_elem_of_filter)|(e & -> & [Hv He]%list_elem_of_filter)];
      destruct (Hends _ He) as [Hs Ht]; exists (nx.data e);
      (split; [apply list_elem_of_fmap; by exists e|]).
    + left. by rewrite <- Hs, <- Ht.
    + right. by rewrite <- Hs, <- Ht.
  - intros (rel & (e & -> & He)%list_elem_of_fmap & Hrel).
    destruct (Hends _ He) as [Hs Ht]. rewrite <- Hs, <- Ht in Hrel.
    destruct Hrel as [[Hu Hv]|[Hv Hu]].
    + left. exists e. split; [done|]. by apply list_elem_of_filter.
    + right. exists e. split; [done|]. by apply list_elem_of_filter.
Qed.

(** On a well-formed graph, for a stored id and any depth of at least one,
    [get_connected_entities] returns (it does not raise) the set of the
    other ends of the relationships that touch the id: an entity is in the
    answer exactly when a relationship joins it to the id, in either
    direction. Hence the answers are symmetric: x is in the answer for y
    exactly when y is in the answer for x. *)
Theorem get_connected_entities_neighbours entity_id max_depth self :
  wf self →
  dict_mem entity_id (entities self) = true →
  (1 ≤ max_depth)%Z →
  ∃ found,
    get_connected_entities entity_id max_depth self = Ok found
    ∧ (∀ x, x ∈ found
            ↔ ∃ rel, rel ∈ relationships self
                     ∧ ((Relationship.source_id rel = entity_id
                         ∧ Relationship.target_id rel = x)
                        ∨ (Relationship.target_id rel = entity_id
                           ∧ Relationship.source_id rel = x)))
    ∧ (∀ x, x ∈ found → dict_mem x (entities self) = true)
    ∧ ∀ other depth found',
        (1 ≤ depth)%Z →
        get_connected_entities other depth self = Ok found' →
        dict_mem other (entities self) = true →
        (other ∈ found ↔ entity_id ∈ found').
Proof.
  intros Hwf Hmem Hd.
  rewrite get_connected_entities_one_hop by done.
  destruct (neighbors_wf entity_id self Hwf Hmem) as (found & Hn & Hfound).
  exists found. split_and!; [done|done| |].
  - intros x (rel & Hrel & Hends)%Hfound.
    pose proof (wf_refs _ Hwf) as Hrefs. rewrite Forall_forall in Hrefs.
    destruct (Hrefs _ Hrel) as [Hs Ht].
    destruct Hends as [[_ <-]|[_ <-]]; done.
  - intros other depth found' Hdepth Hrun Hother.
    rewrite get_connected_entities_one_hop in Hrun by done.
    destruct (neighbors_wf other self Hwf Hother) as (found2 & Hn2 & Hfound2).
    rewrite Hn2 in Hrun. injection Hrun as <-.
    rewrite Hfound, Hfound2. naive_solver.
Qed.

Lemma get_connected_entities_neighbours_witness :
  ∃ found,
    get_connected_entities "b" 3 chain = Ok found
    ∧ (∀ x, x ∈ found
            ↔ ∃ rel, rel ∈ relationships chain
                     ∧ ((Relationship.source_id rel = "b"
                         ∧ Relationship.target_id rel = x)
                        ∨ (Relationship.target_id rel = "b"
                           ∧ Relationship.source_id rel = x)))
    ∧ (∀ x, x ∈ found → dict_mem x (entities chain) = true)
    ∧ ∀ other depth found',
        (1 ≤ depth)%Z →
        get_connected_entities other depth chain = Ok found' →
        dict_mem other (entities chain) = true →
        (other ∈ found ↔ "b" ∈ found').
Proof.
  apply (get_connected_entities_neighbours "b" 3 chain chain_wf);
    [vm_compute; reflexivity|lia].
Defined.

(** ** The stores of a graph object agree in every state *)

Lemma consistent_init : consistent KnowledgeGraph_init.
Proof. split; simpl; constructor. Qed.

Lemma wf_consistent self : wf self → consistent self.
Proof. intros Hwf. split; apply Hwf. Qed.

Lemma has_node_consistent n self :
  consistent self → nx.has_node n (graph self) = dict_mem n (entities self).
Proof. intros Hc. unfold nx.has_node. apply dict_mem_same_keys, Hc. Qed.

Lemma add_entity_consistent now entity_data self :
  consistent self → consistent (add_entity now entity_data self).2.
Proof.
  intros [Hnd Hnodes Hends]. unfold add_entity. destruct (missing_id _); [done|].
  unfold_M. split; simpl.
  - rewrite dict_keys_set. by apply NoDup_keys_set.
  - by rewrite !dict_keys_set, Hnodes.
  - done.
Qed.

Lemma update_entity_consistent now entity_id new_attributes self :
  consistent self → consistent (update_entity now entity_id new_attributes self).2.
Proof.
  intros Hc. unfold update_entity. unfold_M. simpl.
  destruct (dict_get entity_id (entities self)) as [entity|] eqn:Hget; [|done].
  simpl. unfold nx.update_node.
  assert (Hmem : dict_mem entity_id (entities self) = true)
    by (unfold dict_mem; by rewrite Hget).
  rewrite (has_node_consistent _ _ Hc), Hmem.
  destruct Hc as [Hnd Hnodes Hends].
  assert (Hk : keys_set entity_id (dict_keys (entities self)) = dict_keys (entities self)).
  { unfold keys_set. rewrite bool_decide_eq_true_2; [done|by apply dict_mem_keys]. }
  split; simpl.
  - by rewrite dict_keys_set, Hk.
  - by rewrite !dict_keys_set, Hnodes.
  - done.
Qed.

Lemma remove_entity_consistent entity_id self :
  consistent self → consistent (remove_entity entity_id self).2.
Proof.
  intros Hc. unfold remove_entity. unfold_M. simpl.
  destruct (dict_mem entity_id (entities self)) eqn:Hmem; [|done].
  simpl. unfold nx.remove_node. rewrite (has_node_consistent _ _ Hc), Hmem. simpl.
  destruct Hc as [Hnd Hnodes Hends].
  split; simpl.
  - rewrite dict_keys_del. by apply NoDup_keys_del.
  - by rewrite !dict_keys_del, Hnodes.
  - apply Forall_forall. intros e [_ Hin]%list_elem_of_filter.
    rewrite Forall_forall in Hends. by apply Hends.
Qed.

Lemma add_relationship_consistent now source_id target_id relation_type attributes
    confidence self :
  consistent self →
  consistent (add_relationship now source_id target_id relation_type attributes
                confidence self).2.
Proof.
  intros Hc. unfold add_relationship. unfold_M. simpl.
  destruct (dict_mem source_id (entities self)) eqn:Hs; [|done]. simpl.
  destruct (dict_mem target_id (entities self)) eqn:Ht; [|done]. simpl.
  pose proof (has_node_consistent source_id _ Hc) as Hns.
  pose proof (has_node_consistent target_id _ Hc) as Hnt.
  unfold nx.has_node in Hns, Hnt. rewrite Hs in Hns. rewrite Ht in Hnt.
  destruct Hc as [Hnd Hnodes Hends].
  split; simpl.
  - done.
  - rewrite (ensure_node_present source_id) by done.
    by rewrite (ensure_node_present target_id).
  - apply Forall_app. split; [done|]. by repeat constructor.
Qed.

(** What every call of [add_relationship] keeps, the scan keeps. *)
Section Scan.
Context (P : KnowledgeGraph → Prop).
Context (Hadd : ∀ now source_id target_id relation_type attributes confidence self,
            P self →
            P (add_relationship now source_id target_id relation_type attributes
                 confidence self).2).

Lemma add_proposals_keeps clock entity1 entity2 proposals :
  ∀ c self, P self → P (add_proposals clock entity1 entity2 proposals c self).2.
Proof.
  induction proposals as [|[rel_type confidence] rest IH]; intros c self HP; [done|].
  cbn [add_proposals]. unfold_M.
  pose proof (Hadd (clock c) (Entity.id entity1) (Entity.id entity2) rel_type None
                confidence self HP) as Hstep.
  destruct (add_relationship (clock c) (Entity.id entity1) (Entity.id entity2)
              rel_type None confidence self) as [[r|e] s1]; simpl in *.
  - by apply IH.
  - destruct (is_KnowledgeGraphError e); simpl; [by apply IH|done].
Qed.

Lemma detect_against_keeps clock entity1 later :
  ∀ c self, P self → P (detect_against clock entity1 later c self).2.
Proof.
  induction later as [|entity2 rest IH]; intros c self HP; [done|].
  cbn [detect_against]. unfold_M.
  destruct (_detect_relationship_between entity1 entity2) as [proposals|e]; [|done].
  pose proof (add_proposals_keeps clock entity1 entity2 proposals c self HP) as Hstep.
  destruct (add_proposals clock entity1 entity2 proposals c self) as [[n|e] s1];
    simpl in *; [by apply IH|done].
Qed.

Lemma detect_all_keeps clock entities_list :
  ∀ c self, P self → P (detect_all clock entities_list c self).2.
Proof.
  induction entities_list as [|entity1 later IH]; intros c self HP; [done|].
  cbn [detect_all]. unfold_M.
  pose proof (detect_against_keeps clock entity1 later c self HP) as Hstep.
  destruct (detect_against clock entity1 later c self) as [[n|e] s1];
    simpl in *; [by apply IH|done].
Qed.

Lemma auto_detect_relationships_keeps clock self :
  P self → P (auto_detect_relationships clock self).2.
Proof.
  intros HP. unfold auto_detect_relationships. unfold_M. by apply detect_all_keeps.
Qed.

End Scan.

(** ** Removing an entity *)

(** C6, on the code: [find_relationships] answers the empty list for an
    unknown id, it does not raise. After "b" and its two relationships are
    removed from the chain, the query for "b" returns [[]]. *)
Lemma find_relationships_after_remove_returns_empty :
  (remove_entity "b" chain).1 = Ok tt
  ∧ find_relationships "b" None (after (remove_entity "b") chain) = Ok []
  ∧ ¬ ∃ e, find_relationships "b" None (after (remove_entity "b") chain) = Raise e.
Proof.
  split_and!; [by vm_compute|by vm_compute|].
  intros [e He]. vm_compute in He. discriminate.
Qed.

Section GraphStateFacts.
Context {datetime : Datetime}.

Lemma call_consistent self self' : call self self' → consistent self → consistent self'.
Proof.
  destruct 1; intros Hc.
  - by apply add_entity_consistent.
  - by apply update_entity_consistent.
  - by apply remove_entity_consistent.
  - by apply add_relationship_consistent.
  - apply auto_detect_relationships_keeps; [|done].
    intros. by apply add_relationship_consistent.
  - rewrite raw_import_from_dict_run. apply import_snapshot_consistent.
Qed.

Lemma graph_state_consistent self : graph_state self → consistent self.
Proof. induction 1; [apply consistent_init|by eapply call_consistent]. Qed.

(** C6, amended. In every state of a graph object that contains entity E,
    [remove_entity E] returns normally; the relationship list and the edges
    of the graph are what they were without the relationships that have E
    as source or as target, so that none is left in either; E is no longer
    in the entity map, and a subsequent [find_relationships E], with or
    without a type filter, returns the empty list. *)
Theorem remove_entity_cascades entity_id self :
  graph_state self →
  dict_mem entity_id (entities self) = true →
  ∃ self',
    remove_entity entity_id self = (Ok tt, self')
    ∧ relationships self'
      = filter (λ rel, Relationship.source_id rel ≠ entity_id
                       ∧ Relationship.target_id rel ≠ entity_id)
          (relationships self)
    ∧ nx.edges (graph self')
      = filter (λ e, nx.u e ≠ entity_id ∧ nx.v e ≠ entity_id)
          (nx.edges (graph self))
    ∧ Forall (λ rel, Relationship.source_id rel ≠ entity_id
                     ∧ Relationship.target_id rel ≠ entity_id)
        (relationships self')
    ∧ Forall (λ e, Relationship.source_id (nx.data e) ≠ entity_id
                   ∧ Relationship.target_id (nx.data e) ≠ entity_id)
        (nx.edges (graph self'))
    ∧ dict_mem entity_id (entities self') = false
    ∧ ∀ relation_type, find_relationships entity_id relation_type self' = Ok [].
Proof.
  intros Hc%graph_state_consistent Hmem.
  unfold remove_entity. unfold_M. simpl. rewrite Hmem. simpl.
  unfold nx.remove_node. rewrite (has_node_consistent _ _ Hc), Hmem. simpl.
  eexists. split; [reflexivity|]. simpl.
  assert (Hgone : dict_mem entity_id (dict_del entity_id (entities self)) = false)
    by apply dict_mem_del_eq, Hc.
  split_and!; try done.
  - apply Forall_forall. by intros rel [? _]%list_elem_of_filter.
  - apply Forall_forall. intros e [[Hu Hv] Hin]%list_elem_of_filter.
    pose proof (consistent_ends _ Hc) as Hends. rewrite Forall_forall in Hends.
    destruct (Hends _ Hin) as [<- <-]. done.
  - intros relation_type. unfold find_relationships. simpl. by rewrite Hgone.
Qed.

End GraphStateFacts.

Lemma dangling_graph_state : graph_state (datetime := epoch_datetime) dangling.
Proof.
  eapply graph_state_call; [|apply call_import_from_dict].
  eapply graph_state_call; [|apply call_add_relationship].
  eapply graph_state_call; [|apply call_add_relationship].
  eapply graph_state_call; [|apply call_add_entity].
  eapply graph_state_call; [|apply call_add_entity].
  eapply graph_state_call; [|apply call_add_entity].
  apply graph_state_init.
Defined.

Lemma remove_entity_cascades_witness :
  ¬ wf dangling
  ∧ ∃ self',
      remove_entity "a" dangling = (Ok tt, self')
      ∧ relationships dangling
        = [Relationship.mk "a" "b" "cites" [] 1 3; Relationship.mk "a" "zed" "cites" [] 1 3]
      ∧ relationships self' = []
      ∧ nx.edges (graph self') = []
      ∧ dict_mem "a" (entities self') = false
      ∧ ∀ relation_type, find_relationships "a" relation_type self' = Ok [].
Proof.
  split.
  - intros Hwf. pose proof (wf_refs _ Hwf) as Hrefs.
    apply Forall_cons in Hrefs as [_ Hrefs]. apply Forall_cons in Hrefs as [[_ Hz] _].
    vm_compute in Hz. discriminate.
  - destruct (remove_entity_cascades (datetime := epoch_datetime) "a" dangling
                dangling_graph_state eq_refl)
      as (self' & Hrun & Hrels & Hedges & _ & _ & Hgone & Hfind).
    exists self'. split_and!; [exact Hrun|reflexivity|exact Hrels|exact Hedges|
                               exact Hgone|exact Hfind].
Defined.

(** * The employment rule *)

Lemma lower_empty s : Py.lower s = "" ↔ s = "".
Proof. destruct s; simpl; split; congruence. Qed.

Lemma get_lower_spec key a s :
  get_lower key a = Ok s
  ↔ ∃ x, default (VStr "") (dict_get key a) = VStr x ∧ s = Py.lower x.
Proof.
  unfold get_lower. destruct (default (VStr "") (dict_get key a)); split;
    try discriminate; try (by intros (x & [=] & _)).
  - intros [= <-]. by eexists.
  - by intros (x & [= <-] & ->).
Qed.

(** What the employment test computes. *)
Lemma check_employment_spec person organization b :
  _check_employment_relationship person organization = Ok b
  ↔ ∃ name department,
      default (VStr "") (dict_get "name" (Entity.attributes organization)) = VStr name
      ∧ default (VStr "") (dict_get "department" (Entity.attributes person))
        = VStr department
      ∧ b = negb (String.eqb name "") && negb (String.eqb department "")
            && Py.contains (Py.lower name) (Py.lower department).
Proof.
  assert (Heqb : ∀ s, String.eqb (Py.lower s) "" = String.eqb s "").
  { intros s. by destruct s. }
  unfold _check_employment_relationship, mbind, result_bind, mret, result_ret.
  split.
  - destruct (get_lower "name" _) as [org_name|] eqn:Hn; [|done].
    destruct (get_lower "department" _) as [person_company|] eqn:Hd; [|done].
    apply get_lower_spec in Hn as (name & Hn & ->).
    apply get_lower_spec in Hd as (department & Hd & ->).
    intros [= <-]. exists name, department. rewrite !Heqb.
    split_and!; [done|done|].
    by destruct (negb (String.eqb name "") && negb (String.eqb department "")).
  - intros (name & department & Hn & Hd & ->).
    rewrite (proj2 (get_lower_spec "name" _ _) (ex_intro _ name (conj Hn eq_refl))).
    rewrite (proj2 (get_lower_spec "department" _ _)
               (ex_intro _ department (conj Hd eq_refl))).
    rewrite !Heqb.
    by destruct (negb (String.eqb name "") && negb (String.eqb department "")).
Qed.

(** The comparison proposes works_for exactly when the employment test is
    made and answers yes. *)
Lemma detect_works_for entity1 entity2 proposals :
  _detect_relationship_between entity1 entity2 = Ok proposals →
  (("works_for", 0.8%Q) ∈ proposals
   ↔ Entity.type entity1 = "person" ∧ Entity.type entity2 = "organization"
     ∧ _check_employment_relationship entity1 entity2 = Ok true).
Proof.
  intros H. unfold _detect_relationship_between in H.
  unfold _check_project_involvement, _check_colleague_relationship in H.
  unfold mbind, result_bind, mret, result_ret in H.
  repeat (case_match; try discriminate).
  all: simplify_eq.
  all: repeat match goal with
       | H : (_ && _)%bool = true |- _ => apply andb_prop in H as [? ?]
       | H : (_ && _)%bool = false |- _ => apply andb_false_iff in H
       | H : String.eqb _ _ = true |- _ => apply String.eqb_eq in H
       | H : String.eqb _ _ = false |- _ => apply String.eqb_neq in H
       end.
  all: simpl.
  all: split; [intros Hin|intros (Ht1 & Ht2 & Hc)].
  all: try (repeat (apply elem_of_cons in Hin as [Hin|Hin]; [try discriminate|]);
            try (by apply elem_of_nil in Hin)).
  all: try (split_and!; congruence).
  all: try (by (rewrite ?elem_of_cons; naive_solver)).
  all: try congruence.
  all: try naive_solver.
  all: exfalso;
    repeat match goal with
      | H : _ ∨ _ |- _ => destruct H as [H|H]
      end;
    rewrite ?Ht1, ?Ht2 in *; simpl in *; congruence.
Qed.

(** A person compared with an organization: when the two do not both have
    e-mail addresses, the comparison returns, with works_for or nothing. *)
Lemma detect_person_organization entity1 entity2 name department :
  Entity.type entity1 = "person" →
  Entity.type entity2 = "organization" →
  default (VStr "") (dict_get "name" (Entity.attributes entity2)) = VStr name →
  default (VStr "") (dict_get "department" (Entity.attributes entity1))
  = VStr department →
  truthy (default (VList []) (dict_get "emails" (Entity.attributes entity1)))
  && truthy (default (VList []) (dict_get "emails" (Entity.attributes entity2)))
  = false →
  _detect_relationship_between entity1 entity2
  = Ok (if negb (String.eqb name "") && negb (String.eqb department "")
           && Py.contains (Py.lower name) (Py.lower department)
        then [("works_for", 0.8%Q)] else []).
Proof.
  intros Ht1 Ht2 Hn Hd Hemails.
  unfold _detect_relationship_between, _check_colleague_relationship,
    _check_project_involvement.
  rewrite Ht1, Ht2, Hemails. cbn [String.eqb Ascii.eqb Bool.eqb andb orb].
  rewrite (proj2 (check_employment_spec entity1 entity2 _)
             (ex_intro _ name (ex_intro _ department (conj Hn (conj Hd eq_refl))))).
  unfold mbind, result_bind, mret, result_ret.
  by destruct (negb (String.eqb name "") && negb (String.eqb department "")
               && Py.contains (Py.lower name) (Py.lower department)).
Qed.

(** *** What the scan adds for a pair *)

Lemma add_proposals_adds clock entity1 entity2 proposals :
  ∀ c self,
    dict_mem (Entity.id entity1) (entities self) = true →
    dict_mem (Entity.id entity2) (entities self) = true →
    ∃ n self' added,
      add_proposals clock entity1 entity2 proposals c self = (Ok n, self')
      ∧ entities self' = entities self
      ∧ relationships self' = relationships self ++ added
      ∧ ∀ proposal, proposal ∈ proposals →
          ∃ rel, rel ∈ added ∧ proposed entity1 entity2 proposal rel.
Proof.
  induction proposals as [|[rel_type confidence] rest IH]; intros c self H1 H2.
  - exists c, self, []. simpl. unfold_M. rewrite app_nil_r. split_and!; try done.
    intros proposal Hin. by apply elem_of_nil in Hin.
  - cbn [add_proposals]. unfold_M.
    rewrite (add_relationship_ok _ _ _ _ _ _ _ H1 H2). cbn beta iota zeta.
    match goal with
    | |- context [add_proposals _ _ _ rest ?c ?s] =>
        destruct (IH c s) as (n & self' & added & Hrun & Hent & Hrels & Hadded);
          [done|done|]
    end.
    rewrite Hrun. simpl in Hent, Hrels. rewrite <- app_assoc in Hrels.
    eexists n, self', _. split_and!; [done|done|exact Hrels|].
    intros proposal [->|Hin]%elem_of_cons.
    + eexists. split; [left|]. by split_and!.
    + destruct (Hadded _ Hin) as (rel & Hrel & Hp). exists rel. split; [by right|done].
Qed.

Lemma extends_added self self' :
  extends self self' → ∃ more, relationships self' = relationships self ++ more.
Proof. intros (_ & _ & [more Hmore]). by exists more. Qed.

Lemma detect_against_adds clock entity1 later :
  ∀ c self n self' entity2,
    dict_mem (Entity.id entity1) (entities self) = true →
    all_present later self →
    entity2 ∈ later →
    detect_against clock entity1 later c self = (Ok n, self') →
    ∃ proposals added,
      _detect_relationship_between entity1 entity2 = Ok proposals
      ∧ relationships self' = relationships self ++ added
      ∧ ∀ proposal, proposal ∈ proposals →
          ∃ rel, rel ∈ added ∧ proposed entity1 entity2 proposal rel.
Proof.
  induction later as [|head rest IH];
    intros c self n self' entity2 H1 Hl Hin;
    [by apply elem_of_nil in Hin|].
  apply all_present_cons in Hl as [H2 Hl].
  cbn [detect_against]. unfold_M.
  destruct (_detect_relationship_between entity1 head) as [ps|e] eqn:Hhead; [|done].
  destruct (add_proposals_adds clock entity1 head ps c self H1 H2)
    as (n1 & s1 & added & Hrun & Hent & Hrels & Hadded).
  unfold_M. rewrite Hrun. intros Hrest.
  pose proof (detect_against_extends clock entity1 rest n1 s1) as Hext.
  rewrite Hrest in Hext. simpl in Hext.
  apply elem_of_cons in Hin as [->|Hin].
  - apply extends_added in Hext as [more Hmore].
    exists ps, (added ++ more). rewrite Hmore, Hrels, <- app_assoc.
    split_and!; [done|done|].
    intros proposal Hp. destruct (Hadded _ Hp) as (rel & Hrel & Hprop).
    exists rel. split; [|done]. apply elem_of_app. by left.
  - eapply (IH _ _ _ _ entity2) in Hrest
      as (proposals & later_added & Hd & Hlater & Hfound);
      [|by rewrite Hent|by eapply all_present_entities|done].
    exists proposals, (added ++ later_added). rewrite Hlater, Hrels, <- app_assoc.
    split_and!; [done|done|]. intros proposal Hp.
    destruct (Hfound _ Hp) as (rel & Hrel & Hprop).
    exists rel. split; [|done]. apply elem_of_app. by right.
Qed.

Lemma detect_all_adds clock before :
  ∀ c self n self' entity1 later entity2,
    all_present (before ++ entity1 :: later) self →
    entity2 ∈ later →
    detect_all clock (before ++ entity1 :: later) c self = (Ok n, self') →
    ∃ proposals added,
      _detect_relationship_between entity1 entity2 = Ok proposals
      ∧ relationships self' = relationships self ++ added
      ∧ ∀ proposal, proposal ∈ proposals →
          ∃ rel, rel ∈ added ∧ proposed entity1 entity2 proposal rel.
Proof.
  induction before as [|head before IH];
    intros c self n self' entity1 later entity2 Hl Hin.
  - simpl in *. apply all_present_cons in Hl as [H1 Hl]. unfold_M.
    destruct (detect_against clock entity1 later c self) as [[n1|e] s1] eqn:Hrun;
      [|done].
    intros Hrest.
    destruct (detect_against_adds clock entity1 later c self n1 s1 entity2
                H1 Hl Hin Hrun) as (proposals & added & Hd & Hrels & Hadded).
    pose proof (detect_all_extends clock later n1 s1) as Hext.
    rewrite Hrest in Hext. simpl in Hext.
    apply extends_added in Hext as [more Hmore].
    exists proposals, (added ++ more). rewrite Hmore, Hrels, <- app_assoc.
    split_and!; [done|done|].
    intros proposal Hp. destruct (Hadded _ Hp) as (rel & Hrel & Hprop).
    exists rel. split; [|done]. apply elem_of_app. by left.
  - rewrite <- app_comm_cons in *. apply all_present_cons in Hl as [H1 Hl].
    cbn [detect_all]. unfold_M.
    destruct (detect_against clock head (before ++ entity1 :: later) c self)
      as [[n1|e] s1] eqn:Hrun; [|done].
    intros Hrest.
    pose proof (detect_against_extends clock head (before ++ entity1 :: later) c self)
      as Hext.
    rewrite Hrun in Hext. simpl in Hext. destruct Hext as (_ & Hent & [first Hfirst]).
    eapply (IH _ _ _ _ entity1 later entity2) in Hrest
      as (proposals & added & Hd & Hrels & Hadded);
      [|by eapply all_present_entities|done].
    exists proposals, (first ++ added). rewrite Hrels, Hfirst, <- app_assoc.
    split_and!; [done|done|].
    intros proposal Hp. destruct (Hadded _ Hp) as (rel & Hrel & Hprop).
    exists rel. split; [|done]. apply elem_of_app. by right.
Qed.

(** When the scan returns, the pair of an entity and one stored after it
    was compared, and every proposal of the comparison was appended to the
    relationship list. *)
Lemma auto_detect_relationships_adds clock self n self' before entity1 later entity2 :
  wf self →
  dict_values (entities self) = before ++ entity1 :: later →
  entity2 ∈ later →
  auto_detect_relationships clock self = (Ok n, self') →
  ∃ proposals added,
    _detect_relationship_between entity1 entity2 = Ok proposals
    ∧ relationships self' = relationships self ++ added
    ∧ ∀ proposal, proposal ∈ proposals →
        ∃ rel, rel ∈ added ∧ proposed entity1 entity2 proposal rel.
Proof.
  intros Hwf Hvalues Hin. unfold auto_detect_relationships. unfold_M.
  rewrite Hvalues. apply detect_all_adds; [|done].
  rewrite <- Hvalues. by apply wf_all_present.
Qed.

Lemma acme_wf : wf acme.
Proof. unfold acme, after. do 2 apply add_entity_wf. apply wf_init. Defined.

(** C9. The employment rule. (1) Whenever the comparison of two entities
    returns, it proposes works_for with confidence 0.8 exactly when the
    first is a person, the second an organization, the name of the
    organization and the department of the person are non-empty strings,
    and the name, case folded, occurs in the department, case folded.
    (2) For a person and an organization whose name and department are
    strings (or missing), and which do not both have e-mail addresses, the
    comparison returns: works_for alone, or nothing. (3) Hence for the
    person whose department is "Acme Engineering" and the organization whose
    name is "Acme", whatever their ids and time stamps, the comparison
    proposes exactly works_for with confidence 0.8. (4) The scan compares
    each entity with the entities stored after it: on a well-formed graph
    where such a person is stored before such an organization, a scan that
    returns has appended works_for, confidence 0.8, from the person to the
    organization. (5) On the graph that holds the pair of the example,
    person first, the scan adds that one relationship; with the organization
    stored first the pair is compared in that order only, and the scan adds
    nothing. *)
Theorem employment_rule :
  (∀ entity1 entity2 proposals,
     _detect_relationship_between entity1 entity2 = Ok proposals →
     (("works_for", 0.8%Q) ∈ proposals
      ↔ Entity.type entity1 = "person" ∧ Entity.type entity2 = "organization"
        ∧ ∃ name department,
            default (VStr "") (dict_get "name" (Entity.attributes entity2))
            = VStr name
            ∧ default (VStr "") (dict_get "department" (Entity.attributes entity1))
              = VStr department
            ∧ name ≠ "" ∧ department ≠ ""
            ∧ Py.contains (Py.lower name) (Py.lower department) = true))
  ∧ (∀ entity1 entity2 name department,
       Entity.type entity1 = "person" →
       Entity.type entity2 = "organization" →
       default (VStr "") (dict_get "name" (Entity.attributes entity2)) = VStr name →
       default (VStr "") (dict_get "department" (Entity.attributes entity1))
       = VStr department →
       truthy (default (VList []) (dict_get "emails" (Entity.attributes entity1)))
       && truthy (default (VList []) (dict_get "emails" (Entity.attributes entity2)))
       = false →
       _detect_relationship_between entity1 entity2
       = Ok (if negb (String.eqb name "") && negb (String.eqb department "")
                && Py.contains (Py.lower name) (Py.lower department)
             then [("works_for", 0.8%Q)] else []))
  ∧ (∀ id_a id_b created_a updated_a created_b updated_b,
       _detect_relationship_between
         (acme_person id_a created_a updated_a)
         (acme_organization id_b created_b updated_b)
       = Ok [("works_for", 0.8%Q)])
  ∧ (∀ clock self n self' before entity1 later entity2 name department,
       wf self →
       dict_values (entities self) = before ++ entity1 :: later →
       entity2 ∈ later →
       Entity.type entity1 = "person" →
       Entity.type entity2 = "organization" →
       default (VStr "") (dict_get "name" (Entity.attributes entity2)) = VStr name →
       default (VStr "") (dict_get "department" (Entity.attributes entity1))
       = VStr department →
       name ≠ "" → department ≠ "" →
       Py.contains (Py.lower name) (Py.lower department) = true →
       auto_detect_relationships clock self = (Ok n, self') →
       ∃ added rel,
         relationships self' = relationships self ++ added
         ∧ rel ∈ added
         ∧ Relationship.source_id rel = Entity.id entity1
         ∧ Relationship.target_id rel = Entity.id entity2
         ∧ Relationship.type rel = "works_for"
         ∧ Relationship.confidence rel = 0.8%Q)
  ∧ (∀ clock,
       (auto_detect_relationships clock acme).1 = Ok 1%nat
       ∧ relationships (after (auto_detect_relationships clock) acme)
         = [Relationship.init (clock 0%nat) "a" "b" "works_for" None 0.8%Q])
  ∧ (∀ clock,
       auto_detect_relationships clock acme_reversed = (Ok 0%nat, acme_reversed)).
Proof.
  assert (Hrule : ∀ entity1 entity2 proposals,
     _detect_relationship_between entity1 entity2 = Ok proposals →
     (("works_for", 0.8%Q) ∈ proposals
      ↔ Entity.type entity1 = "person" ∧ Entity.type entity2 = "organization"
        ∧ ∃ name department,
            default (VStr "") (dict_get "name" (Entity.attributes entity2))
            = VStr name
            ∧ default (VStr "") (dict_get "department" (Entity.attributes entity1))
              = VStr department
            ∧ name ≠ "" ∧ department ≠ ""
            ∧ Py.contains (Py.lower name) (Py.lower department) = true)).
  { intros entity1 entity2 proposals Hd.
    rewrite (detect_works_for _ _ _ Hd), check_employment_spec.
    split; intros (Ht1 & Ht2 & name & department & Hn & Hdep & Hb);
      (split_and!; [done|done|]); exists name, department.
    - symmetry in Hb. apply andb_prop in Hb as [Hb Hc].
      apply andb_prop in Hb as [Hne1 Hne2].
      apply negb_true_iff, String.eqb_neq in Hne1, Hne2. by split_and!.
    - destruct Hb as (Hne1 & Hne2 & Hc). split_and!; [done|done|].
      apply String.eqb_neq in Hne1, Hne2. by rewrite Hne1, Hne2, Hc. }
  split_and!.
  - exact Hrule.
  - apply detect_person_organization.
  - intros. by rewrite (detect_person_organization _ _ "Acme" "Acme Engineering").
  - intros clock self n self' before entity1 later entity2 name department
      Hwf Hvalues Hin Ht1 Ht2 Hn Hdep Hne1 Hne2 Hc Hrun.
    destruct (auto_detect_relationships_adds clock self n self' before entity1 later
                entity2 Hwf Hvalues Hin Hrun)
      as (proposals & added & Hd & Hrels & Hadded).
    destruct (Hadded ("works_for", 0.8%Q)) as (rel & Hrel & Hs & Ht & Hty & Hconf).
    { apply (Hrule _ _ _ Hd). split_and!; [done|done|].
      exists name, department. by split_and!. }
    exists added, rel. by split_and!.
  - intros clock. split; reflexivity.
  - intros clock. reflexivity.
Qed.

Lemma employment_rule_witness :
  ∃ added rel,
    relationships (after (auto_detect_relationships (λ _, 9%Z)) acme)
    = relationships acme ++ added
    ∧ rel ∈ added
    ∧ Relationship.source_id rel = "a"
    ∧ Relationship.target_id rel = "b"
    ∧ Relationship.type rel = "works_for"
    ∧ Relationship.confidence rel = 0.8%Q.
Proof.
  destruct employment_rule as (_ & _ & _ & Hscan & _).
  apply (Hscan (λ _, 9%Z) acme 1%nat
           (after (auto_detect_relationships (λ _, 9%Z)) acme) []
           (Entity.init 1 "a" "person" [("department", VStr "Acme Engineering")])
           [Entity.init 2 "b" "organization" [("name", VStr "Acme")]]
           (Entity.init 2 "b" "organization" [("name", VStr "Acme")])
           "Acme" "Acme Engineering").
  - apply acme_wf.
  - reflexivity.
  - left.
  - reflexivity.
  - reflexivity.
  - reflexivity.
  - reflexivity.
  - discriminate.
  - discriminate.
  - vm_compute. reflexivity.
  - reflexivity.
Defined.

(** * Further properties of the embedding index *)

Section MoreEmbeddingFacts.
Context {nltk : Nltk} {sklearn : Sklearn}.

Ltac unfold_VE :=
  unfold set_vectorizer, set_embedding, set_entity_text, try_except,
    get, modify, raise, lift, mbind, mret, M_bind, M_ret in *.

(** ** Adding and removing one entity *)

(** On an embedder that has a vectorizer (every embedder has one, from its
    constructor on), [add_entity_embedding] never raises. When it returns
    [None] it has changed nothing. When it returns a vector, the vectorizer
    was fitted and is left as it was, the vector is the projection of the
    entity's text on the fitted vocabulary, and the vector and the text are
    stored under the entity's id. *)
Theorem add_entity_embedding_outcomes entity self :
  vectorizer self ≠ None →
  ∃ r self',
    add_entity_embedding entity self = (Ok r, self')
    ∧ vectorizer self' = vectorizer self
    ∧ (r = None → self' = self)
    ∧ ∀ x, r = Some x →
        ∃ entity_id model,
          ed_id entity = Some entity_id
          ∧ vectorizer self = Some (Fitted model)
          ∧ x = tfidf_transform model (extract_text_from_entity entity)
          ∧ dict_get entity_id (embeddings self') = Some x
          ∧ dict_get entity_id (entity_texts self')
            = Some (extract_text_from_entity entity).
Proof.
  intros Hv. unfold add_entity_embedding.
  destruct (ed_id entity) as [entity_id|] eqn:Hid; simpl;
    [|by exists None, self].
  destruct (String.eqb entity_id ""); [by exists None, self|].
  destruct (String.eqb (Py.strip (extract_text_from_entity entity)) "");
    [by exists None, self|].
  unfold_VE. destruct (vectorizer self) as [[|model]|] eqn:Hvs; [| |done].
  - unfold vectorizer_transform. rewrite Hvs. simpl. exists None, self.
    by split_and!.
  - unfold vectorizer_transform. rewrite Hvs. simpl. eexists _, _.
    split; [reflexivity|]. simpl. split_and!; [done|done|].
    intros x [= <-]. exists entity_id, model.
    split_and!; try done; apply dict_get_set_eq.
Qed.

(** [remove_entity_embedding] forgets the vector and the text of the id and
    nothing else: the other entries and the vectorizer stay, an id that is
    not stored is no error, and afterwards no search returns the id and the
    neighbours of the id are the empty list. *)
Theorem remove_entity_embedding_forgets entity_id self :
  NoDup (dict_keys (embeddings self)) →
  NoDup (dict_keys (entity_texts self)) →
  ∃ self',
    remove_entity_embedding entity_id self = (Ok tt, self')
    ∧ dict_get entity_id (embeddings self') = None
    ∧ dict_get entity_id (entity_texts self') = None
    ∧ (∀ k, k ≠ entity_id →
            dict_get k (embeddings self') = dict_get k (embeddings self)
            ∧ dict_get k (entity_texts self') = dict_get k (entity_texts self))
    ∧ vectorizer self' = vectorizer self
    ∧ (∀ query top_k threshold,
         entity_id ∉ (semantic_search query top_k threshold self').*1)
    ∧ ∀ top_k threshold,
        find_similar_entities entity_id top_k threshold self' = Ok [].
Proof.
  intros Hnd1 Hnd2. unfold remove_entity_embedding. unfold_VE.
  eexists. split; [reflexivity|]. simpl.
  assert (Hdel : ∀ {V} (d : list (string * V)),
             NoDup (dict_keys d) →
             dict_get entity_id
               (if dict_mem entity_id d then dict_del entity_id d else d) = None
             ∧ ∀ k, k ≠ entity_id →
                 dict_get k (if dict_mem entity_id d then dict_del entity_id d else d)
                 = dict_get k d).
  { intros V d Hnd. destruct (dict_mem entity_id d) eqn:Hmem.
    - split.
      + pose proof (dict_mem_del_eq entity_id d Hnd) as Hgone.
        unfold dict_mem in Hgone. by destruct (dict_get entity_id (dict_del entity_id d)).
      + intros k Hk. pose proof (dict_mem_del_ne entity_id k d Hk) as Hsame.
        clear -Hk. induction d as [|[k0 v0] d IH]; simpl; [done|].
        destruct (String.eqb_spec entity_id k0) as [->|Hne]; simpl.
        * by destruct (String.eqb_spec k k0).
        * destruct (String.eqb k k0); [done|apply IH].
    - split; [|done]. unfold dict_mem in Hmem. by destruct (dict_get entity_id d). }
  destruct (Hdel _ (embeddings self) Hnd1) as [He1 He2].
  destruct (Hdel _ (entity_texts self) Hnd2) as [Ht1 Ht2].
  split_and!; try done.
  - intros k Hk. split; [by apply He2|by apply Ht2].
  - intros query top_k threshold Hin.
    apply list_elem_of_fmap in Hin as ([k s] & -> & Hin). simpl in *.
    match goal with
    | _ : context [semantic_search _ _ _ ?s] |- _ =>
        destruct (semantic_search_cases query top_k threshold s)
          as [Hnil|(qv & _ & Heq)]
    end.
    + rewrite Hnil in Hin. by apply elem_of_nil in Hin.
    + rewrite Heq in Hin.
      destruct (slice_to_take top_k
                  (sort_desc (at_least qv threshold
                     (if dict_mem k (embeddings self)
                      then dict_del k (embeddings self) else embeddings self))))
        as [n Htake].
      simpl in Hin. rewrite Htake in Hin. apply subseteq_take in Hin.
      rewrite sort_desc_perm in Hin.
      apply at_least_elem in Hin as (_ & emb & Hemb & _). simpl in Hemb.
      assert (Hmem : k ∈ dict_keys
                (if dict_mem k (embeddings self)
                 then dict_del k (embeddings self) else embeddings self)).
      { unfold dict_keys. apply list_elem_of_fmap. by exists (k, emb). }
      apply dict_mem_keys in Hmem. unfold dict_mem at 1 in Hmem.
      by rewrite He1 in Hmem.
  - intros top_k threshold. unfold find_similar_entities. simpl. by rewrite He1.
Qed.

(** ** Neighbours in the vector space *)

(** When [find_similar_entities] returns, no pair it returns is the entity
    itself; each is another stored entity with its cosine similarity to the
    entity's vector, at least the threshold; the pairs are in descending
    order of similarity, at most [top_k] of them for a non-negative [top_k];
    and for an id without a vector the answer is the empty list. *)
Theorem find_similar_entities_sound entity_id top_k threshold self results :
  find_similar_entities entity_id top_k threshold self = Ok results →
  Forall (λ r, r.1 ≠ entity_id
               ∧ (threshold <= r.2)%Q
               ∧ ∃ target embedding,
                   dict_get entity_id (embeddings self) = Some target
                   ∧ (r.1, embedding) ∈ embeddings self
                   ∧ cosine_similarity target embedding = Ok r.2)
    results
  ∧ ranked results
  ∧ ((0 ≤ top_k)%Z → length results ≤ Z.to_nat top_k)
  ∧ (dict_get entity_id (embeddings self) = None → results = []).
Proof.
  unfold find_similar_entities.
  destruct (dict_get entity_id (embeddings self)) as [target|] eqn:Hget.
  - unfold mbind, result_bind, mret, result_ret.
    destruct (scan target threshold _) as [sims|e] eqn:Hscan; [|done].
    intros [= <-]. apply scan_at_least in Hscan. subst sims.
    split_and!; [| | |done].
    + destruct (slice_to_take top_k
                  (sort_desc (at_least target threshold
                     (filter (λ item, item.1 ≠ entity_id) (embeddings self)))))
        as [n ->].
      apply Forall_take, Forall_forall. intros r Hr.
      rewrite sort_desc_perm in Hr.
      apply at_least_elem in Hr as (Hle & emb & [Hne Hin]%list_elem_of_filter & Hcos).
      split_and!; [done|done|]. by exists target, emb.
    + destruct (slice_to_take top_k
                  (sort_desc (at_least target threshold
                     (filter (λ item, item.1 ≠ entity_id) (embeddings self)))))
        as [n ->].
      apply ranked_take, sort_desc_ranked.
    + intros Hk. unfold slice_to. rewrite (proj2 (Z.leb_le 0 top_k) Hk).
      rewrite length_take. lia.
  - intros [= <-]. split_and!; [constructor|constructor|simpl; lia|done].
Qed.

Lemma scan_raises query_vector threshold items item e :
  item ∈ items →
  cosine_similarity query_vector item.2 = Raise e →
  ∃ e', scan query_vector threshold items = Raise e'.
Proof.
  intros Hin Hcos. induction items as [|[k emb] rest IH];
    [by apply elem_of_nil in Hin|].
  simpl. unfold mbind, result_bind, mret, result_ret.
  apply elem_of_cons in Hin as [->|Hin].
  - simpl in Hcos. rewrite Hcos. by eexists.
  - destruct (cosine_similarity query_vector emb); [|by eexists].
    destruct (IH Hin) as [e' ->]. by eexists.
Qed.

(** A stored vector that cannot be compared (one of another length, left
    over from an earlier fit) silences the search and breaks the neighbour
    query: [semantic_search] catches the exception and returns the empty
    list, [find_similar_entities] has no handler and raises. *)
Theorem incomparable_vector other embedding self :
  (other, embedding) ∈ embeddings self →
  (∀ query top_k threshold query_vector e,
     vectorizer_transform (preprocess_text query) self = Ok query_vector →
     cosine_similarity query_vector embedding = Raise e →
     semantic_search query top_k threshold self = [])
  ∧ (∀ entity_id top_k threshold target e,
       dict_get entity_id (embeddings self) = Some target →
       other ≠ entity_id →
       cosine_similarity target embedding = Raise e →
       ∃ e', find_similar_entities entity_id top_k threshold self = Raise e').
Proof.
  intros Hin. split.
  - intros query top_k threshold qv e Hqv Hcos. unfold semantic_search.
    destruct (embeddings self) as [|item items] eqn:Hemb; [done|].
    destruct (String.eqb (Py.strip (preprocess_text query)) ""); [done|].
    rewrite Hqv. unfold mbind, result_bind, mret, result_ret.
    destruct (scan_raises qv threshold (item :: items) (other, embedding) e Hin Hcos)
      as [e' ->]. done.
  - intros entity_id top_k threshold target e Hget Hne Hcos.
    unfold find_similar_entities. rewrite Hget.
    unfold mbind, result_bind, mret, result_ret.
    destruct (scan_raises target threshold
                (filter (λ item, item.1 ≠ entity_id) (embeddings self))
                (other, embedding) e) as [e' ->]; [|done|by eexists].
    by apply list_elem_of_filter.
Qed.

(** ** A fit that succeeds *)

Lemma collect_texts_texts entities :
  ∀ texts ids self,
    entity_texts (after (collect_texts entities texts ids) self)
    = dict_update (entity_texts self) (kept_entities entities)
    ∧ max_features (after (collect_texts entities texts ids) self)
      = max_features self.
Proof.
  unfold after. induction entities as [|entity rest IH]; intros texts ids self;
    [done|].
  cbn [collect_texts]. unfold kept_entities in *. cbn [omap list_omap].
  destruct (missing_id (ed_id entity)); [apply IH|].
  destruct (String.eqb (Py.strip (extract_text_from_entity entity)) "");
    cbn [negb]; [apply IH|].
  unfold_VE.
  match goal with
  | |- context [collect_texts rest ?t ?i ?s] => destruct (IH t i s) as [H1 H2]
  end.
  split; [|by rewrite H2]. rewrite H1. done.
Qed.

Lemma store_vectors_rows vectors entity_ids :
  ∀ i self self',
    store_vectors vectors i entity_ids self = (Ok tt, self') →
    vectorizer self' = vectorizer self
    ∧ entity_texts self' = entity_texts self
    ∧ (∀ k, is_Some (dict_get k (embeddings self)) →
            is_Some (dict_get k (embeddings self')))
    ∧ (∀ k, k ∈ entity_ids → is_Some (dict_get k (embeddings self')))
    ∧ (NoDup entity_ids →
       ∀ j k, entity_ids !! j = Some k →
              is_Some (vectors !! (i + j))
              ∧ dict_get k (embeddings self') = vectors !! (i + j)).
Proof.
  induction entity_ids as [|k0 rest IH]; intros i self self'.
  - simpl. unfold_VE. intros [= <-]. split_and!; try done.
    intros k Hk. by apply elem_of_nil in Hk.
  - cbn [store_vectors]. destruct (vectors !! i) as [x|] eqn:Hx; [|done].
    unfold_VE. intros Hrun.
    match type of Hrun with
    | store_vectors _ _ _ ?s = _ =>
        destruct (IH (S i) s self' Hrun) as (Hv & Ht & Hmono & Hall & Hrows);
        pose proof (store_vectors_other vectors k0 rest (S i) s) as Hother
    end.
    unfold after in Hother. rewrite Hrun in Hother. simpl in *.
    assert (Hk0 : is_Some (dict_get k0 (embeddings self'))).
    { apply Hmono. rewrite dict_get_set_eq. by eexists. }
    split_and!; try done.
    + intros k Hk. apply Hmono.
      destruct (decide (k0 = k)) as [->|Hne];
        [rewrite dict_get_set_eq; by eexists|by rewrite dict_get_set_ne].
    + intros k [->|Hk]%elem_of_cons; [done|by apply Hall].
    + intros Hnd j k Hj. apply NoDup_cons in Hnd as [Hnot Hnd].
      destruct j as [|j]; simpl in Hj.
      * injection Hj as <-. rewrite Nat.add_0_r, Hx. split; [by eexists|].
        rewrite (Hother Hnot). apply dict_get_set_eq.
      * replace (i + S j) with (S i + j) by lia. by apply Hrows.
Qed.

(** When a fit returns (method tfidf): the vectorizer has been fitted on the
    texts of the kept entities, in order; every kept entity has a vector and
    its text stored, the i-th one the i-th row of the fitted matrix when the
    kept ids are distinct; no vector that was stored before has been
    removed, and a vector stored under an id that is not in the corpus is
    still there, unchanged: a refit does not clear the index. *)
Theorem fit_embeddings_stores entities self self' :
  fit_embeddings entities self = (Ok tt, self') →
  embedding_method self = "tfidf" →
  let kept := kept_entities entities in
  ∃ model vectors,
    tfidf_fit_transform (max_features self) (kept.*2) = Ok (model, vectors)
    ∧ vectorizer self' = Some (Fitted model)
    ∧ kept ≠ []
    ∧ (∀ k, k ∈ kept.*1 → is_Some (dict_get k (embeddings self')))
    ∧ (NoDup (kept.*1) →
       ∀ i k text, kept !! i = Some (k, text) →
                   is_Some (vectors !! i)
                   ∧ dict_get k (embeddings self') = vectors !! i
                   ∧ dict_get k (entity_texts self') = Some text)
    ∧ (∀ k, is_Some (dict_get k (embeddings self)) →
            is_Some (dict_get k (embeddings self')))
    ∧ (∀ k, k ∉ kept.*1 →
            dict_get k (embeddings self') = dict_get k (embeddings self)).
Proof.
  intros Hrun Hmethod kept. unfold fit_embeddings in Hrun.
  destruct entities as [|e0 rest]; [done|].
  destruct (collect_texts_run (e0 :: rest) [] [] self)
    as (s1 & Hcollect & He1 & Hv1 & Hm1 & _).
  destruct (collect_texts_texts (e0 :: rest) [] [] self) as [Ht1 Hf1].
  unfold after in Ht1, Hf1. rewrite Hcollect in Ht1, Hf1. cbn [snd] in Ht1, Hf1.
  fold kept in Hcollect, Ht1. clearbody kept.
  unfold_VE. rewrite Hcollect in Hrun. simpl in Hrun.
  destruct (kept.*2) as [|t ts] eqn:Htexts; [done|].
  rewrite Hm1, Hmethod in Hrun. simpl in Hrun.
  unfold vectorizer_fit_transform in Hrun. unfold_VE.
  destruct (vectorizer s1) as [v|] eqn:Hvs; [|done].
  rewrite Hf1 in Hrun.
  destruct (tfidf_fit_transform (max_features self) (t :: ts))
    as [[model vectors]|e] eqn:Hfit; [|done].
  simpl in Hrun.
  match type of Hrun with
  | store_vectors _ _ _ ?s = _ =>
      destruct (store_vectors_rows vectors (kept.*1) 0 s self' Hrun)
        as (Hv & Ht & Hmono & Hall & Hrows);
      pose proof (store_vectors_other vectors) as Hother;
      specialize (λ k, Hother k (kept.*1) 0 s)
  end.
  unfold after in Hother. rewrite Hrun in Hother. simpl in *.
  exists model, vectors. split_and!; try done.
  - intros ->. done.
  - intros Hnd i k text Hi.
    assert (Hk : kept.*1 !! i = Some k) by (by rewrite list_lookup_fmap, Hi).
    destruct (Hrows Hnd i k Hk) as [Hsome Hget].
    split_and!; [done|done|].
    rewrite Ht, Ht1, (dict_get_update k _ kept Hnd).
    assert (Hin : dict_get k kept = Some text).
    { clear -Hnd Hi. revert i Hi. induction kept as [|[k0 t0] kept IH];
        intros i Hi; [done|].
      rewrite fmap_cons in Hnd. apply NoDup_cons in Hnd as [Hnot Hnd].
      destruct i as [|i]; simpl in *.
      - injection Hi as -> ->. by rewrite String.eqb_refl.
      - destruct (String.eqb_spec k k0) as [->|Hne]; [|by eapply IH].
        exfalso. apply Hnot. apply list_elem_of_fmap. exists (k0, text).
        split; [done|]. by eapply list_elem_of_lookup_2. }
    by rewrite Hin.
  - intros k Hk. apply Hmono. by rewrite He1.
  - intros k Hk. rewrite (Hother k Hk). by rewrite He1.
Qed.

(** ** The search engine *)

Lemma ascii_lower_not_upper c : ascii_isupper (Py.ascii_lower c) = false.
Proof. destruct c as [[] [] [] [] [] [] [] []]; reflexivity. Qed.

Lemma lower_no_upper s : has_upper (Py.lower s) = false.
Proof.
  induction s as [|c s IH]; [done|]. simpl. by rewrite ascii_lower_not_upper, IH.
Qed.

Lemma startswith_has_upper p s :
  Py.startswith p s = true → has_upper p = true → has_upper s = true.
Proof.
  revert s. induction p as [|a p IH]; intros [|b s]; simpl; try done.
  destruct (Ascii.eqb_spec a b) as [->|]; [|done].
  intros Hp [Hb|Hu]%orb_true_iff; apply orb_true_iff; [by left|right; by apply IH].
Qed.

Lemma contains_has_upper t s :
  Py.contains t s = true → has_upper t = true → has_upper s = true.
Proof.
  induction s as [|b s IH].
  - simpl. rewrite orb_false_r. apply startswith_has_upper.
  - cbn [Py.contains]. intros [Hp|Hc]%orb_true_iff Hu.
    + by eapply startswith_has_upper.
    + simpl. apply orb_true_iff. right. by apply IH.
Qed.

Lemma semantic_search_sound query top_k threshold self :
  Forall (λ r, (threshold <= r.2)%Q ∧ r.1 ∈ dict_keys (embeddings self))
    (semantic_search query top_k threshold self)
  ∧ ranked (semantic_search query top_k threshold self).
Proof.
  destruct (semantic_search_cases query top_k threshold self)
    as [->|(qv & _ & ->)]; [split; constructor|].
  destruct (slice_to_take top_k
              (sort_desc (at_least qv threshold (embeddings self)))) as [n ->].
  split; [|apply ranked_take, sort_desc_ranked].
  apply Forall_take, Forall_forall. intros r Hr. rewrite sort_desc_perm in Hr.
  apply at_least_elem in Hr as (Hle & emb & Hin & _). split; [done|].
  unfold dict_keys. apply list_elem_of_fmap. by exists (r.1, emb).
Qed.

Lemma ranked_filter (P : string * Q → Prop) `{∀ x, Decision (P x)} l :
  ranked l → ranked (filter P l).
Proof.
  unfold ranked. induction 1 as [|x l Hl IH Hx]; [constructor|].
  rewrite filter_cons. destruct (decide (P x)); [|done].
  constructor; [done|]. apply Forall_forall. intros y [_ Hy]%list_elem_of_filter.
  rewrite Forall_forall in Hx. by apply Hx.
Qed.

(** What [SemanticSearchEngine.search] returns: at most [top_k] results for
    a non-negative [top_k], in descending order of score; each carries the
    query, a stored entity id, a score that is at least the threshold, and
    the cached text of the entity (the empty string when there is none);
    with a type filter, the filter occurs in the lower-cased id of each
    result. The filter itself is not lower-cased: a filter with a capital
    letter in it matches no id, and the search returns nothing. *)
Theorem search_results query entity_type top_k threshold embedder :
  let results := search query entity_type top_k threshold embedder in
  ((0 ≤ top_k)%Z → length results ≤ Z.to_nat top_k)
  ∧ StronglySorted
      (λ a b, (SearchResult.similarity_score b
               <= SearchResult.similarity_score a)%Q) results
  ∧ Forall (λ r,
       SearchResult.query r = query
       ∧ (threshold <= SearchResult.similarity_score r)%Q
       ∧ SearchResult.entity_id r ∈ dict_keys (embeddings embedder)
       ∧ SearchResult.entity_text r
         = default "" (dict_get (SearchResult.entity_id r) (entity_texts embedder))
       ∧ ∀ t, entity_type = Some t → t ≠ "" →
              Py.contains t (Py.lower (SearchResult.entity_id r)) = true)
      results
  ∧ ∀ t, entity_type = Some t → has_upper t = true → results = [].
Proof.
  intros results. subst results. unfold search.
  destruct (semantic_search_sound query (top_k * 2) threshold embedder)
    as [Hsound Hranked].
  set (sem := semantic_search query (top_k * 2) threshold embedder) in *.
  set (chosen :=
         match entity_type with
         | Some t =>
             if String.eqb t "" then slice_to top_k sem
             else slice_to top_k
                    (filter (λ r, Py.contains t (Py.lower r.1) = true) sem)
         | None => slice_to top_k sem
         end).
  assert (Hchosen : Forall (λ r, (threshold <= r.2)%Q
                                 ∧ r.1 ∈ dict_keys (embeddings embedder)
                                 ∧ ∀ t, entity_type = Some t → t ≠ "" →
                                        Py.contains t (Py.lower r.1) = true) chosen
                    ∧ ranked chosen
                    ∧ ((0 ≤ top_k)%Z → length chosen ≤ Z.to_nat top_k)).
  { assert (Hslice : ∀ l : list (string * Q),
               (0 ≤ top_k)%Z → length (slice_to top_k l) ≤ Z.to_nat top_k).
    { intros l Hk. unfold slice_to. rewrite (proj2 (Z.leb_le 0 top_k) Hk).
      rewrite length_take. lia. }
    subst chosen. destruct entity_type as [t|].
    - destruct (String.eqb_spec t "") as [->|Hne].
      + destruct (slice_to_take top_k sem) as [n Hn]. split_and!.
        * rewrite Hn. apply Forall_take. eapply Forall_impl; [exact Hsound|].
          intros r [? ?]. split_and!; [done|done|]. by intros t [= <-].
        * rewrite Hn. by apply ranked_take.
        * apply Hslice.
      + destruct (slice_to_take top_k
                    (filter (λ r, Py.contains t (Py.lower r.1) = true) sem))
          as [n Hn]. split_and!.
        * rewrite Hn. apply Forall_take, Forall_forall.
          intros r [Hc Hr]%list_elem_of_filter.
          rewrite Forall_forall in Hsound. destruct (Hsound r Hr).
          split_and!; [done|done|]. by intros t' [= <-].
        * rewrite Hn. by apply ranked_take, ranked_filter.
        * apply Hslice.
    - destruct (slice_to_take top_k sem) as [n Hn]. split_and!.
      + rewrite Hn. apply Forall_take. eapply Forall_impl; [exact Hsound|].
        intros r [? ?]. by split_and!.
      + rewrite Hn. by apply ranked_take.
      + apply Hslice. }
  destruct Hchosen as (Hall & Hsorted & Hlen).
  fold chosen. split_and!.
  - intros Hk. rewrite length_fmap. by apply Hlen.
  - eapply StronglySorted_fmap; [|exact Hsorted]. by intros x y.
  - apply Forall_fmap. eapply Forall_impl; [exact Hall|].
    intros r (? & ? & ?). simpl. by split_and!.
  - intros t -> Hu.
    assert (Hne : t ≠ "") by (intros ->; done).
    destruct chosen as [|r rest] eqn:Hc; [done|]. exfalso.
    apply Forall_cons in Hall as [(_ & _ & Hcontains) _].
    specialize (Hcontains t eq_refl Hne).
    apply contains_has_upper in Hcontains; [|done].
    by rewrite lower_no_upper in Hcontains.
Qed.

(** ** Loading a saved index *)


End MoreEmbeddingFacts.

(** * Entities without text *)


Section EmptyText.
Context {nltk : Nltk} {sklearn : Sklearn}.

Ltac unfold_VE :=
  unfold set_vectorizer, set_embedding, set_entity_text, try_except,
    get, modify, raise, lift, mbind, mret, M_bind, M_ret in *.


End EmptyText.


(** ** The statements above on sample indexes *)

Lemma add_entity_embedding_outcomes_witness :
  ∃ r self',
    add_entity_embedding (nltk := bare_nltk) alice fitted_embedder = (Ok r, self')
    ∧ vectorizer self' = vectorizer fitted_embedder
    ∧ (r = None → self' = fitted_embedder)
    ∧ ∀ x, r = Some x →
        ∃ entity_id model,
          ed_id alice = Some entity_id
          ∧ vectorizer fitted_embedder = Some (Fitted model)
          ∧ x = tfidf_transform model (extract_text_from_entity (nltk := bare_nltk) alice)
          ∧ dict_get entity_id (embeddings self') = Some x
          ∧ dict_get entity_id (entity_texts self')
            = Some (extract_text_from_entity (nltk := bare_nltk) alice).
Proof.
  apply (add_entity_embedding_outcomes (nltk := bare_nltk)
           (sklearn := one_term_sklearn) alice fitted_embedder).
  discriminate.
Defined.

Lemma add_entity_embedding_fitted_witness :
  ∃ self',
    add_entity_embedding (nltk := bare_nltk) alice fitted_embedder
    = (Ok (Some (1%Q : @ndarray one_term_sklearn)), self')
    ∧ vectorizer self' = Some (Fitted (sklearn := one_term_sklearn) "person")
    ∧ dict_get "a" (embeddings self') = Some 1%Q
    ∧ dict_get "a" (entity_texts self') = Some "person alice smith".
Proof.
  apply (add_entity_embedding_fitted (nltk := bare_nltk)
           (sklearn := one_term_sklearn) alice "a" "person" fitted_embedder).
  - reflexivity.
  - reflexivity.
  - discriminate.
  - vm_compute. discriminate.
Defined.

Lemma remove_entity_embedding_forgets_witness :
  ∃ self',
    remove_entity_embedding "a" fitted_embedder = (Ok tt, self')
    ∧ dict_get "a" (embeddings self') = None
    ∧ dict_get "a" (entity_texts self') = None
    ∧ (∀ k, k ≠ "a" →
            dict_get k (embeddings self') = dict_get k (embeddings fitted_embedder)
            ∧ dict_get k (entity_texts self')
              = dict_get k (entity_texts fitted_embedder))
    ∧ vectorizer self' = vectorizer fitted_embedder
    ∧ (∀ query top_k threshold,
         "a" ∉ (semantic_search (nltk := bare_nltk) query top_k threshold self').*1)
    ∧ ∀ top_k threshold,
        find_similar_entities "a" top_k threshold self' = Ok [].
Proof.
  apply (remove_entity_embedding_forgets (nltk := bare_nltk)
           (sklearn := one_term_sklearn) "a" fitted_embedder).
  - vm_compute. repeat constructor; set_solver.
  - vm_compute. repeat constructor; set_solver.
Defined.

Lemma find_similar_entities_sound_witness :
  Forall (λ r, r.1 ≠ "a"
               ∧ (0.3 <= r.2)%Q
               ∧ ∃ target embedding,
                   dict_get "a" (embeddings fitted_embedder) = Some target
                   ∧ (r.1, embedding) ∈ embeddings fitted_embedder
                   ∧ cosine_similarity (Sklearn := one_term_sklearn) target embedding
                     = Ok r.2)
    [("b", 1%Q)]
  ∧ ranked [("b", 1%Q)]
  ∧ ((0 ≤ 5)%Z → length [("b", 1%Q)] ≤ Z.to_nat 5)
  ∧ (dict_get "a" (embeddings fitted_embedder) = None → [("b", 1%Q)] = []).
Proof.
  apply (find_similar_entities_sound (sklearn := one_term_sklearn)
           "a" 5 0.3%Q fitted_embedder).
  reflexivity.
Defined.

Lemma incomparable_vector_witness :
  semantic_search (nltk := bare_nltk) "Person" 10 0.1%Q stale_embedder = []
  ∧ ∃ e', find_similar_entities "a" 5 0.3%Q stale_embedder = Raise e'.
Proof.
  destruct (incomparable_vector (nltk := bare_nltk) (sklearn := short_sklearn)
              "old" [1%Q; 0%Q] stale_embedder) as [Hsearch Hsimilar].
  { right. left. }
  split.
  - apply (Hsearch "Person" 10%Z 0.1%Q [1%Q] ValueError); reflexivity.
  - apply (Hsimilar "a" 5%Z 0.3%Q [1%Q] ValueError);
      [reflexivity|discriminate|reflexivity].
Defined.

Lemma fit_embeddings_stores_witness :
  ∃ model vectors,
    tfidf_fit_transform (Sklearn := one_term_sklearn) 1000
      (kept_entities (nltk := bare_nltk) [alice; blank; bob]).*2
    = Ok (model, vectors)
    ∧ vectorizer fitted_embedder = Some (Fitted model)
    ∧ kept_entities (nltk := bare_nltk) [alice; blank; bob] ≠ []
    ∧ (∀ k, k ∈ (kept_entities (nltk := bare_nltk) [alice; blank; bob]).*1 →
            is_Some (dict_get k (embeddings fitted_embedder)))
    ∧ (NoDup (kept_entities (nltk := bare_nltk) [alice; blank; bob]).*1 →
       ∀ i k text,
         kept_entities (nltk := bare_nltk) [alice; blank; bob] !! i = Some (k, text) →
         is_Some (vectors !! i)
         ∧ dict_get k (embeddings fitted_embedder) = vectors !! i
         ∧ dict_get k (entity_texts fitted_embedder) = Some text)
    ∧ (∀ k, is_Some (dict_get k (embeddings fresh_embedder)) →
            is_Some (dict_get k (embeddings fitted_embedder)))
    ∧ (∀ k, k ∉ (kept_entities (nltk := bare_nltk) [alice; blank; bob]).*1 →
            dict_get k (embeddings fitted_embedder)
            = dict_get k (embeddings fresh_embedder)).
Proof.
  apply (fit_embeddings_stores (nltk := bare_nltk) (sklearn := one_term_sklearn)
           [alice; blank; bob] fresh_embedder fitted_embedder); reflexivity.
Defined.

